(** * Blue Railroad import bot

    A shallow embedding of the [blue_railroad_import] package: the token
    model ([models.py]), the chain-data aggregator ([chain_data.py]), the
    leaderboard generator ([leaderboard.py]), the token page generator
    ([token_page.py]), the configuration parser ([config_parser.py]), the
    wiki clients ([wiki_client.py]) and the orchestrator ([importer.py]).

    Conventions of the embedding.
    - Python [str] is [string]; the text is taken to be ASCII, so
      [str.lower], [str.isdigit] and [str.strip] are their ASCII versions.
    - Python [int] is [Z].
    - A Python [dict] with [str] keys is an association list in insertion
      order ([pydict]); a well-formed one has no repeated key ([wf_dict]).
    - An exception is the [Raise] outcome of the [exc] monad.
    - [print] logging of the importer is not modelled. *)

From Stdlib Require Import ZArith List String Ascii Bool Lia.
From Stdlib Require Import Permutation Sorted DecimalString DecimalZ.
From Stdlib Require DecimalFacts DecimalPos.
Import ListNotations.

Local Open Scope string_scope.
Local Open Scope Z_scope.

(* ===================================================================== *)
(** * Part I: the program                                                 *)
(* ===================================================================== *)

(** ** Python built-ins used by the package *)

Module Py.

(** Exceptions that the modelled code can meet. *)
Inductive exn : Type :=
| ValueError
| OSError
| OverflowError
| TransportError (description : string)
| IllTyped.

(** Outcome of a computation that may raise. *)
Inductive exc (A : Type) : Type :=
| Ok (a : A)
| Raise (e : exn).
Arguments Ok {A} a.
Arguments Raise {A} e.

Definition bind {A B : Type} (m : exc A) (k : A -> exc B) : exc B :=
  match m with
  | Ok a => k a
  | Raise e => Raise e
  end.

(** [str(e)] of an exception. *)
Definition str_exn (e : exn) : string :=
  match e with
  | TransportError d => d
  | ValueError => "ValueError"
  | OSError => "OSError"
  | OverflowError => "OverflowError"
  | IllTyped => "TypeError"
  end.

(** *** Strings *)

Definition truthy_str (s : string) : bool :=
  match s with
  | EmptyString => false
  | String _ _ => true
  end.

(** [s[i:]] *)
Fixpoint drop (n : nat) (s : string) : string :=
  match n, s with
  | O, _ => s
  | S n', String _ s' => drop n' s'
  | S _, EmptyString => EmptyString
  end.

(** [s[i:j]] for [i <= j] *)
Definition slice (i j : nat) (s : string) : string :=
  substring i (j - i) s.

Definition startswith (p s : string) : bool := prefix p s.

Definition lower_ascii (c : ascii) : ascii :=
  let n := nat_of_ascii c in
  if ((65 <=? n) && (n <=? 90))%nat then ascii_of_nat (n + 32) else c.

Fixpoint lower (s : string) : string :=
  match s with
  | EmptyString => EmptyString
  | String c s' => String (lower_ascii c) (lower s')
  end.

Definition is_digit (c : ascii) : bool :=
  let n := nat_of_ascii c in ((48 <=? n) && (n <=? 57))%nat.

Fixpoint all_digits (s : string) : bool :=
  match s with
  | EmptyString => true
  | String c s' => is_digit c && all_digits s'
  end.

(** [s.isdigit()]: at least one character, and all of them digits. *)
Definition isdigit (s : string) : bool := truthy_str s && all_digits s.

(** [str(n)] for an [int]. *)
Definition str_int (z : Z) : string := NilZero.string_of_int (Z.to_int z).

(** [int(s)] for a string of decimal digits. *)
Definition int_of_str (s : string) : option Z :=
  option_map Z.of_int (NilZero.int_of_string s).

(** ["sep".join(parts)] *)
Fixpoint join (sep : string) (parts : list string) : string :=
  match parts with
  | [] => EmptyString
  | [p] => p
  | p :: rest => p ++ sep ++ join sep rest
  end.

(** [s.rstrip(x)] for a one-character [x]. *)
Fixpoint rstrip_char (x : ascii) (s : string) : string :=
  match s with
  | EmptyString => EmptyString
  | String c s' =>
      match rstrip_char x s' with
      | EmptyString => if Ascii.eqb c x then EmptyString else String c EmptyString
      | r => String c r
      end
  end.

(** *** Dictionaries with string keys, in insertion order *)

Definition pydict (V : Type) : Type := list (string * V).

Section Dict.
Context {V : Type}.

(** [d.get(k)] *)
Fixpoint dict_get (k : string) (d : pydict V) : option V :=
  match d with
  | [] => None
  | (k', v) :: rest => if String.eqb k k' then Some v else dict_get k rest
  end.

(** [d.get(k, default)] *)
Definition dict_get_default (k : string) (default : V) (d : pydict V) : V :=
  match dict_get k d with
  | Some v => v
  | None => default
  end.

(** [k in d] *)
Definition dict_mem (k : string) (d : pydict V) : bool :=
  match dict_get k d with
  | Some _ => true
  | None => false
  end.

(** [d[k] = v]: an existing key keeps its position, a new key goes last. *)
Fixpoint dict_set (k : string) (v : V) (d : pydict V) : pydict V :=
  match d with
  | [] => [(k, v)]
  | (k', v') :: rest =>
      if String.eqb k k' then (k', v) :: rest
      else (k', v') :: dict_set k v rest
  end.

(** In-place change of the object stored under [k] (as [d[k].method()]). *)
Fixpoint dict_alter (f : V -> V) (k : string) (d : pydict V) : pydict V :=
  match d with
  | [] => []
  | (k', v') :: rest =>
      if String.eqb k k' then (k', f v') :: rest
      else (k', v') :: dict_alter f k rest
  end.

Definition dict_keys (d : pydict V) : list string := map fst d.
Definition dict_values (d : pydict V) : list V := map snd d.
Definition dict_len (d : pydict V) : nat := List.length d.

(** The invariant of a Python dict: no key occurs twice. *)
Definition wf_dict (d : pydict V) : Prop := NoDup (dict_keys d).
End Dict.

(** *** Values of a chain-data record

    The chain-data document is JSON.  A field of a token record is a bare
    scalar or a sequence of scalars (the big-integer serialisation wraps a
    number in a one-element sequence).  Floats and deeper nesting are not
    part of the model. *)

Inductive scalar : Type :=
| PNone
| PBool (b : bool)
| PInt (z : Z)
| PStr (s : string).

Inductive value : Type :=
| Scalar (v : scalar)
| Seq (l : list scalar).

(** Truth value of a scalar, as in [if v:]. *)
Definition truthy (v : scalar) : bool :=
  match v with
  | PNone => false
  | PBool b => b
  | PInt z => negb (z =? 0)
  | PStr s => truthy_str s
  end.

(** [str(v)] *)
Definition str (v : scalar) : string :=
  match v with
  | PNone => "None"
  | PBool true => "True"
  | PBool false => "False"
  | PInt z => str_int z
  | PStr s => s
  end.

End Py.

Import Py.

Declare Scope exc_scope.
Delimit Scope exc_scope with exc.
Notation "x <- m ;; k" := (Py.bind m (fun x => k))
  (at level 61, m at next level, right associativity) : exc_scope.
Notation "' p <- m ;; k" := (Py.bind m (fun p => k))
  (at level 61, p pattern, m at next level, right associativity) : exc_scope.
Local Open Scope exc_scope.

(** ** models.py *)

Module Models.

(** [class Token], with the fields at their annotated types:
    [Optional[T]] is [option T]. *)
Record Token : Type := mkToken {
  token_id : string;
  source_key : string;
  owner : string;
  owner_display : string;
  song_id : option string;
  date : option Z;
  uri : option string;
  blockheight : option Z;
  video_hash : option string
}.

(** [Token.is_v2] *)
Definition is_v2 (t : Token) : bool :=
  match blockheight t with
  | Some _ => true
  | None => false
  end.

(** *** Local calendar time ([datetime.fromtimestamp], [strftime]) *)

(** Largest value of the platform's 64-bit [time_t]. *)
Definition TIME_T_MAX : Z := 2 ^ 63 - 1.

Definition MINYEAR : Z := 1.
Definition MAXYEAR : Z := 9999.

(** Proleptic Gregorian date [(year, month, day)] of a day number counted
    from 1970-01-01. *)
Definition civil_from_days (days : Z) : Z * Z * Z :=
  let z := days + 719468 in
  let era := z / 146097 in
  let doe := z - era * 146097 in
  let yoe := (doe - doe / 1460 + doe / 36524 - doe / 146096) / 365 in
  let y := yoe + era * 400 in
  let doy := doe - (365 * yoe + yoe / 4 - yoe / 100) in
  let mp := (5 * doy + 2) / 153 in
  let d := doy - (153 * mp + 2) / 5 + 1 in
  let m := if mp <? 10 then mp + 3 else mp - 9 in
  (if m <=? 2 then y + 1 else y, m, d).

Definition two_digits (n : Z) : string :=
  if n <? 10 then "0" ++ str_int n else str_int n.

(** [dt.strftime('%Y-%m-%d')] *)
Definition strftime_ymd (ymd : Z * Z * Z) : string :=
  let '(y, m, d) := ymd in
  str_int y ++ "-" ++ two_digits m ++ "-" ++ two_digits d.

Section LocalTime.
(** The process's time zone: the offset of local time from UTC, in
    seconds, at a given instant. *)
Variable utcoffset : Z -> Z.

(** The date part of [datetime.fromtimestamp(t)]: [OverflowError] when
    [t] does not fit [time_t], [ValueError] when the local year is
    outside [MINYEAR..MAXYEAR]. *)
Definition fromtimestamp (t : Z) : exc (Z * Z * Z) :=
  if (t <? - TIME_T_MAX - 1) || (TIME_T_MAX <? t) then Raise OverflowError
  else
    let '(y, m, d) := civil_from_days ((t + utcoffset t) / 86400) in
    if (y <? MINYEAR) || (MAXYEAR <? y) then Raise ValueError
    else Ok (y, m, d).

(** [Token.formatted_date] *)
Definition formatted_date (t : Token) : exc (option string) :=
  match date t with
  | None => Ok None
  | Some d =>
      let date_str := str_int d in
      if (String.length date_str =? 8)%nat
         && (match String.get 0 date_str with
             | Some c => Ascii.eqb c "2"
             | None => false
             end)
      then Ok (Some (slice 0 4 date_str ++ "-" ++ slice 4 6 date_str
                     ++ "-" ++ slice 6 8 date_str))
      else if (10 <=? String.length date_str)%nat && isdigit date_str
      then
        match int_of_str date_str with
        | None => Ok None
        | Some n =>
            match fromtimestamp n with
            | Ok ymd => Ok (Some (strftime_ymd ymd))
            | Raise ValueError => Ok None
            | Raise OSError => Ok None
            | Raise e => Raise e
            end
        end
      else Ok None
  end.
End LocalTime.

(** The all-zero 32-byte hash, ['0x' + '0' * 64]. *)
Definition ZERO_HASH : string :=
  "0x" ++ "0000000000000000000000000000000000000000000000000000000000000000".

(** [Token.ipfs_cid] *)
Definition ipfs_cid (t : Token) : option string :=
  if is_v2 t then
    match video_hash t with
    | Some h =>
        if truthy_str h && negb (String.eqb h ZERO_HASH)
        then Some (if startswith "0x" h then drop 2 h else h)
        else None
    | None => None
    end
  else
    match uri t with
    | Some u =>
        if truthy_str u && startswith "ipfs://" u then Some (drop 7 u)
        else None
    | None => None
    end.

(** [class Source] *)
Record Source : Type := mkSource {
  name : string;
  chain_data_key : string;
  network_id : string;
  contract : string
}.

(** [class LeaderboardConfig] *)
Record LeaderboardConfig : Type := mkLeaderboardConfig {
  page : string;
  title : string;
  description : string;
  filter_song_id : option string;
  filter_owner : option string;
  sort : string
}.

(** [LeaderboardConfig(...)] followed by [__post_init__]: a blank title
    becomes the page name. *)
Definition LeaderboardConfig_init (page title description : string)
    (filter_song_id filter_owner : option string) (sort : string)
    : LeaderboardConfig :=
  mkLeaderboardConfig page (if truthy_str title then title else page)
    description filter_song_id filter_owner sort.

(** [class OwnerStats] *)
Record OwnerStats : Type := mkOwnerStats {
  address : string;
  display_name : string;
  token_count : Z;
  token_ids : list string;
  newest_date : Z;
  oldest_date : Z
}.

(** [OwnerStats(address=..., display_name=...)] *)
Definition OwnerStats_init (address display_name : string) : OwnerStats :=
  mkOwnerStats address display_name 0 [] 0 0.

(** Truth value of an [Optional[int]]. *)
Definition truthy_int (o : option Z) : bool :=
  match o with
  | Some n => negb (n =? 0)
  | None => false
  end.

(** [OwnerStats.add_token] *)
Definition add_token (token_id : string) (date : option Z) (s : OwnerStats)
    : OwnerStats :=
  let count := token_count s + 1 in
  let ids := (token_ids s ++ [token_id])%list in
  if truthy_int date then
    let date := match date with Some n => n | None => 0 end in
    let newest := if newest_date s <? date then date else newest_date s in
    let oldest :=
      if (oldest_date s =? 0) || (date <? oldest_date s) then date
      else oldest_date s in
    mkOwnerStats (address s) (display_name s) count ids newest oldest
  else
    mkOwnerStats (address s) (display_name s) count ids
      (newest_date s) (oldest_date s).

(** [class BotConfig] *)
Record BotConfig : Type := mkBotConfig {
  sources : list Source;
  leaderboards : list LeaderboardConfig
}.

End Models.

Import Models.

(** ** chain_data.py *)

Module ChainData.

(** A token record of the dump, and the dump: source key -> token id ->
    record. *)
Definition record : Type := pydict value.
Definition chain_data : Type := pydict (pydict record).

(** A [Token] object as [parse_token] builds it.  Python does not check
    the annotations of the dataclass, so a field fed from the record
    holds whatever the record holds. *)
Record RawToken : Type := mkRawToken {
  raw_token_id : string;
  raw_source_key : string;
  raw_owner : value;
  raw_owner_display : value;
  raw_song_id : option string;
  raw_date : scalar;
  raw_uri : value;
  raw_blockheight : scalar;
  raw_video_hash : value
}.

(** The inner [extract_value] of [parse_token]. *)
Definition extract_value (data : record) (key : string) : scalar :=
  match dict_get_default key (Scalar PNone) data with
  | Seq l =>
      match l with
      | [] => PNone
      | x :: _ => x
      end
  | Scalar v => v
  end.

(** [parse_token] *)
Definition parse_token (token_id : string) (token_data : record)
    (source_key : string) : RawToken :=
  mkRawToken
    token_id
    source_key
    (dict_get_default "owner" (Scalar (PStr EmptyString)) token_data)
    (dict_get_default "ownerDisplay"
       (dict_get_default "owner" (Scalar (PStr EmptyString)) token_data) token_data)
    (if truthy (extract_value token_data "songId")
     then Some (str (extract_value token_data "songId"))
     else None)
    (extract_value token_data "date")
    (dict_get_default "uri" (Scalar PNone) token_data)
    (extract_value token_data "blockheight")
    (dict_get_default "videoHash" (Scalar PNone) token_data).

(** [iter_tokens_from_source], as the list of the tokens it yields. *)
Definition iter_tokens_from_source (cd : chain_data) (source : Source)
    : list RawToken :=
  let source_data := dict_get_default (chain_data_key source) [] cd in
  map (fun '(token_id, token_data) =>
         parse_token token_id token_data (chain_data_key source))
      source_data.

(** The f-string [f"{token.source_key}_{token.token_id}"]. *)
Definition aggregate_key (t : RawToken) : string :=
  raw_source_key t ++ "_" ++ raw_token_id t.

(** [aggregate_tokens_from_sources] *)
Definition aggregate_tokens_from_sources (cd : chain_data)
    (sources : list Source) : pydict RawToken :=
  fold_left
    (fun all_tokens source =>
       fold_left
         (fun all_tokens token => dict_set (aggregate_key token) token all_tokens)
         (iter_tokens_from_source cd source)
         all_tokens)
    sources
    [].

(** *** Reading a [RawToken] at the annotated types *)

Definition as_str (v : value) : option string :=
  match v with
  | Scalar (PStr s) => Some s
  | _ => None
  end.

Definition as_opt_str (v : value) : option (option string) :=
  match v with
  | Scalar PNone => Some None
  | Scalar (PStr s) => Some (Some s)
  | _ => None
  end.

Definition as_opt_int (v : scalar) : option (option Z) :=
  match v with
  | PNone => Some None
  | PInt z => Some (Some z)
  | _ => None
  end.

(** The [Token] that a [RawToken] is when each field holds a value of its
    annotated type ([owner: str], [date: Optional[int]], ...); [None]
    when some field does not, which is outside the typed model. *)
Definition typed (r : RawToken) : option Token :=
  match as_str (raw_owner r), as_str (raw_owner_display r),
        as_opt_int (raw_date r), as_opt_str (raw_uri r),
        as_opt_int (raw_blockheight r), as_opt_str (raw_video_hash r) with
  | Some o, Some od, Some d, Some u, Some b, Some h =>
      Some (mkToken (raw_token_id r) (raw_source_key r) o od
              (raw_song_id r) d u b h)
  | _, _, _, _, _, _ => None
  end.

(** The typed reading of a whole token mapping. *)
Fixpoint typed_tokens (d : pydict RawToken) : option (pydict Token) :=
  match d with
  | [] => Some []
  | (k, r) :: rest =>
      match typed r, typed_tokens rest with
      | Some t, Some rest' => Some ((k, t) :: rest')
      | _, _ => None
      end
  end.

End ChainData.

Import ChainData.

(** ** leaderboard.py *)

Module Leaderboard.

(** [EXERCISE_MAP] *)
Definition EXERCISE_MAP : pydict string :=
  [ ("5", "Squats ([[Blue Railroad Train]])");
    ("6", "Pushups ([[Nine Pound Hammer]])");
    ("7", "Squats ([[Blue Railroad Train]]) (legacy)");
    ("10", "Army Crawls ([[Ginseng Sullivan]])") ].

(** Truth value of an [Optional[str]]. *)
Definition truthy_opt (o : option string) : bool :=
  match o with
  | Some s => truthy_str s
  | None => false
  end.

(** [token.song_id != filter_song_id] *)
Definition song_differs (song : option string) (wanted : string) : bool :=
  match song with
  | Some s => negb (String.eqb s wanted)
  | None => true
  end.

(** One turn of the loop of [filter_tokens]; a [continue] leaves [result]
    as it is. *)
Definition filter_step (filter_song_id filter_owner : option string)
    (result : pydict Token) (item : string * Token) : pydict Token :=
  let '(key, token) := item in
  if truthy_opt filter_song_id
     && song_differs (song_id token)
          (match filter_song_id with Some f => f | None => EmptyString end)
  then result
  else if truthy_opt filter_owner
          && negb (String.eqb (lower (owner token))
                     (lower (match filter_owner with
                             | Some f => f
                             | None => EmptyString
                             end)))
  then result
  else dict_set key token result.

(** [filter_tokens] *)
Definition filter_tokens (tokens : pydict Token)
    (filter_song_id filter_owner : option string) : pydict Token :=
  fold_left (filter_step filter_song_id filter_owner) tokens [].

(** [token.date if token.date else (token.blockheight or 0)] *)
Definition date_val (token : Token) : Z :=
  let blockheight_or_0 :=
    match blockheight token with
    | Some b => if negb (b =? 0) then b else 0
    | None => 0
    end in
  match date token with
  | Some d => if negb (d =? 0) then d else blockheight_or_0
  | None => blockheight_or_0
  end.

(** One turn of the loop of [calculate_owner_stats]. *)
Definition stats_step (stats : pydict OwnerStats) (item : string * Token)
    : pydict OwnerStats :=
  let '(key, token) := item in
  if negb (truthy_str (owner token)) then stats
  else
    let owner_addr := owner token in
    let stats :=
      if negb (dict_mem owner_addr stats)
      then dict_set owner_addr
             (OwnerStats_init owner_addr (owner_display token)) stats
      else stats in
    dict_alter (add_token (token_id token) (Some (date_val token))) owner_addr stats.

(** [calculate_owner_stats] *)
Definition calculate_owner_stats (tokens : pydict Token) : pydict OwnerStats :=
  fold_left stats_step tokens [].

(** A sort key: an [int], or [float('inf')]. *)
Inductive number : Type :=
| Int (z : Z)
| Inf.

Definition number_leb (a b : number) : bool :=
  match a, b with
  | Int x, Int y => x <=? y
  | _, Inf => true
  | Inf, Int _ => false
  end.

Section Sorted.
Context {A K : Type}.
Variable leb : K -> K -> bool.
Variable key : A -> K.
Variable reverse : bool.

(** [x], which stood before every element of the sorted [l] in the input,
    goes in front of the first element that does not have to precede it. *)
Definition goes_before (x y : A) : bool :=
  if reverse then leb (key y) (key x) else leb (key x) (key y).

Fixpoint insert_sorted (x : A) (l : list A) : list A :=
  match l with
  | [] => [x]
  | y :: rest =>
      if goes_before x y then x :: y :: rest
      else y :: insert_sorted x rest
  end.

(** [sorted(l, key=key, reverse=reverse)]: a stable sort, elements with
    equal keys keep their input order, also when reversed. *)
Definition py_sorted (l : list A) : list A :=
  fold_right insert_sorted [] l.
End Sorted.

(** [stats[a]] for a key of [stats]. *)
Definition stats_at (stats : pydict OwnerStats) (a : string) : OwnerStats :=
  dict_get_default a (OwnerStats_init a EmptyString) stats.

(** [stats[a].oldest_date or float('inf')] *)
Definition oldest_key (stats : pydict OwnerStats) (a : string) : number :=
  let o := oldest_date (stats_at stats a) in
  if negb (o =? 0) then Int o else Inf.

(** [sort_owners] *)
Definition sort_owners (stats : pydict OwnerStats) (sort_by : string)
    : list string :=
  if String.eqb sort_by "newest" then
    py_sorted Z.leb (fun a => newest_date (stats_at stats a)) true
      (dict_keys stats)
  else if String.eqb sort_by "oldest" then
    py_sorted number_leb (oldest_key stats) false (dict_keys stats)
  else
    py_sorted Z.leb (fun a => token_count (stats_at stats a)) true
      (dict_keys stats).

(** The double quote character. *)
Definition dquote : string := String (ascii_of_nat 34) EmptyString.

(** [int(x) if x.isdigit() else 0] *)
Definition token_id_key (x : string) : Z :=
  if isdigit x then
    match int_of_str x with
    | Some n => n
    | None => 0
    end
  else 0.

(** The two lines of the table for one holder. *)
Definition leaderboard_row (rank : Z) (stats : OwnerStats) : list string :=
  let sorted_ids := py_sorted Z.leb token_id_key false (token_ids stats) in
  let token_links :=
    map (fun tid => "[[Blue Railroad Token " ++ tid ++ "|#" ++ tid ++ "]]")
        sorted_ids in
  let token_links_str := join ", " token_links in
  let holder_display := display_name stats in
  [ "|-";
    "| " ++ str_int rank ++ " || " ++ holder_display ++ " || "
      ++ str_int (token_count stats) ++ " || " ++ token_links_str ].

(** The loop over [enumerate(sorted_owners, rank)]. *)
Fixpoint leaderboard_rows (owner_stats : pydict OwnerStats) (rank : Z)
    (sorted_owners : list string) : list string :=
  match sorted_owners with
  | [] => []
  | owner_addr :: rest =>
      (leaderboard_row rank (stats_at owner_stats owner_addr)
       ++ leaderboard_rows owner_stats (rank + 1) rest)%list
  end.

Definition total_tokens_line (n : nat) : string :=
  "* '''Total Tokens:''' " ++ str_int (Z.of_nat n).

Definition total_holders_line (n : nat) : string :=
  "* '''Total Holders:''' " ++ str_int (Z.of_nat n).

(** The list [lines] of [generate_leaderboard_content] before the join. *)
Definition leaderboard_lines (tokens : pydict Token)
    (config : LeaderboardConfig) : list string :=
  let filtered :=
    filter_tokens tokens (filter_song_id config) (filter_owner config) in
  let owner_stats := calculate_owner_stats filtered in
  let sorted_owners := sort_owners owner_stats (sort config) in
  List.concat
    [ [ "'''" ++ title config
          ++ "''' tracks ownership of [[Blue Railroad]] NFT tokens." ];
      (if truthy_str (description config)
       then [ EmptyString; description config ] else []);
      (match filter_song_id config with
       | Some sid =>
           if truthy_str sid then
             [ EmptyString;
               "'''Exercise:''' "
                 ++ dict_get_default sid ("Exercise ID " ++ sid) EXERCISE_MAP ]
           else []
       | None => []
       end);
      [ EmptyString;
        "''This page is automatically generated. See [[PickiPedia:BlueRailroadConfig|bot configuration]] to modify.''";
        EmptyString;
        "== Statistics ==";
        total_tokens_line (dict_len filtered);
        total_holders_line (dict_len owner_stats);
        EmptyString;
        "== Leaderboard ==";
        "{| class=" ++ dquote ++ "wikitable sortable" ++ dquote;
        "! Rank !! Holder !! Tokens !! Token IDs" ];
      leaderboard_rows owner_stats 1 sorted_owners;
      [ "|}";
        EmptyString;
        "[[Category:Blue Railroad]]";
        "[[Category:Leaderboards]]" ] ].

Definition newline : string := String (ascii_of_nat 10) EmptyString.

(** [generate_leaderboard_content] *)
Definition generate_leaderboard_content (tokens : pydict Token)
    (config : LeaderboardConfig) : string :=
  join newline (leaderboard_lines tokens config).

End Leaderboard.

Import Leaderboard.

(** ** token_page.py *)

Module TokenPage.

Definition or_empty (o : option string) : string :=
  match o with
  | Some s => s
  | None => EmptyString
  end.

(** [str(n or '')] for an [Optional[int]] *)
Definition int_or_empty (o : option Z) : string :=
  match o with
  | Some n => if negb (n =? 0) then str_int n else EmptyString
  | None => EmptyString
  end.

Section LocalTime.
Variable utcoffset : Z -> Z.

(** [generate_token_page_content] *)
Definition generate_token_page_content (token : Token) : exc string :=
  version_lines <-
    (if is_v2 token then
       Ok [ "|blockheight=" ++ int_or_empty (blockheight token);
            "|video_hash=" ++ or_empty (video_hash token) ]
     else
       fd <- formatted_date utcoffset token ;;
       Ok [ "|date=" ++ or_empty fd;
            "|date_raw=" ++ int_or_empty (date token) ]) ;;
  Ok (join newline
        (List.concat
           [ [ "{{Blue Railroad Token";
               "|token_id=" ++ token_id token;
               "|song_id=" ++ or_empty (song_id token);
               "|contract_version=" ++ (if is_v2 token then "V2" else "V1") ];
             version_lines;
             [ "|owner=" ++ owner token;
               "|owner_display=" ++ owner_display token;
               "|uri=" ++ or_empty (uri token);
               "|uri_type="
                 ++ (if truthy_opt (ipfs_cid token) then "ipfs" else "unknown");
               "|ipfs_cid=" ++ or_empty (ipfs_cid token);
               "}}";
               EmptyString;
               "[[Category:Blue Railroad Tokens]]" ];
             (if is_v2 token
              then [ "[[Category:Blue Railroad V2 Tokens]]" ] else []) ])).
End LocalTime.

End TokenPage.

Import TokenPage.

(** ** wiki_client.py *)

Module WikiClient.

(** [class SaveResult]; [action] is one of ['created'], ['updated'],
    ['unchanged'], ['error']. *)
Record SaveResult : Type := mkSaveResult {
  page_title : string;
  action : string;
  message : string
}.

(** [class WikiClientProtocol]: what the importer asks of a wiki client.
    A call returns its result, and [save_page] the client after the call. *)
Class WikiClientProtocol (W : Type) : Type := {
  get_page_content : W -> string -> exc (option string);
  save_page : W -> string -> string -> string -> exc (SaveResult * W);
  page_exists : W -> string -> exc bool
}.

(** *** The remote wiki reached through [mwclient]

    The site is a store of page texts by title.  Each of the three requests
    that the wrapper makes can fail in transport; a fault function gives the
    failure description of a request, or [None] when it goes through. *)
Record Site : Type := mkSite {
  wiki_pages : pydict string;
  info_fault : string -> option string;
  text_fault : string -> option string;
  save_fault : string -> string -> option string
}.

(** [self.site.pages[title]], read for its [exists] attribute: the page
    object is built from a request for the page's info. *)
Definition site_page_exists (site : Site) (title : string) : exc bool :=
  match info_fault site title with
  | Some d => Raise (TransportError d)
  | None => Ok (dict_mem title (wiki_pages site))
  end.

(** [page.text()] *)
Definition page_text (site : Site) (title : string) : exc string :=
  match text_fault site title with
  | Some d => Raise (TransportError d)
  | None => Ok (dict_get_default title EmptyString (wiki_pages site))
  end.

(** [page.save(content, summary=summary)] *)
Definition page_save (site : Site) (title content summary : string)
    : exc Site :=
  match save_fault site title content with
  | Some d => Raise (TransportError d)
  | None =>
      Ok (mkSite (dict_set title content (wiki_pages site))
            (info_fault site) (text_fault site) (save_fault site))
  end.

(** [current_content == content] for an [Optional[str]] on the left. *)
Definition content_equal (current : option string) (content : string) : bool :=
  match current with
  | Some c => String.eqb c content
  | None => false
  end.

Module MWClientWrapper.

(** [MWClientWrapper.__init__]: the host and the scheme that the
    constructor hands to [mwclient.Site].  The login that follows is a
    request to the wiki and is not modelled. *)
Definition site_address (site_url : string) : string * string :=
  let '(host, scheme) :=
    if startswith "https://" site_url then (drop 8 site_url, "https")
    else if startswith "http://" site_url then (drop 7 site_url, "http")
    else (site_url, "https") in
  (rstrip_char "/" host, scheme).

(** [MWClientWrapper.get_page_content] *)
Definition get_page_content (site : Site) (title : string)
    : exc (option string) :=
  existed <- site_page_exists site title ;;
  if (existed : bool) then
    text <- page_text site title ;;
    Ok (Some text)
  else Ok None.

(** [MWClientWrapper.save_page]; only [page.save] is inside the [try]. *)
Definition save_page (site : Site) (title content summary : string)
    : exc (SaveResult * Site) :=
  existed <- site_page_exists site title ;;
  current_content <-
    (if (existed : bool) then
       text <- page_text site title ;; Ok (Some text)
     else Ok None) ;;
  if content_equal current_content content then
    Ok (mkSaveResult title "unchanged" "Content identical", site)
  else
    match page_save site title content summary with
    | Ok site' =>
        let action := if (existed : bool) then "updated" else "created" in
        Ok (mkSaveResult title action EmptyString, site')
    | Raise e => Ok (mkSaveResult title "error" (str_exn e), site)
    end.

(** [MWClientWrapper.page_exists] *)
Definition page_exists (site : Site) (title : string) : exc bool :=
  site_page_exists site title.

End MWClientWrapper.

#[export] Instance MWClient : WikiClientProtocol Site := {
  get_page_content := MWClientWrapper.get_page_content;
  save_page := MWClientWrapper.save_page;
  page_exists := MWClientWrapper.page_exists
}.

(** [class DryRunClient] *)
Record DryRun : Type := mkDryRun {
  existing_pages : pydict string;
  saved_pages : list (string * string * string)
}.

Module DryRunClient.

(** [DryRunClient(existing_pages)] *)
Definition init (existing_pages : option (pydict string)) : DryRun :=
  mkDryRun (match existing_pages with Some d => d | None => [] end) [].

(** [DryRunClient.get_page_content] *)
Definition get_page_content (c : DryRun) (title : string)
    : exc (option string) :=
  Ok (dict_get title (existing_pages c)).

(** [DryRunClient.save_page] *)
Definition save_page (c : DryRun) (title content summary : string)
    : exc (SaveResult * DryRun) :=
  let c' :=
    mkDryRun (existing_pages c)
      (saved_pages c ++ [(title, content, summary)])%list in
  let existed := dict_mem title (existing_pages c) in
  let current := dict_get title (existing_pages c) in
  if content_equal current content then
    Ok (mkSaveResult title "unchanged" "Content identical (dry run)", c')
  else
    let action := if existed then "updated" else "created" in
    Ok (mkSaveResult title action (action ++ " (dry run)"), c').

(** [DryRunClient.page_exists] *)
Definition page_exists (c : DryRun) (title : string) : exc bool :=
  Ok (dict_mem title (existing_pages c)).

End DryRunClient.

#[export] Instance DryClient : WikiClientProtocol DryRun := {
  get_page_content := DryRunClient.get_page_content;
  save_page := DryRunClient.save_page;
  page_exists := DryRunClient.page_exists
}.

End WikiClient.

Import WikiClient.

(** ** config_parser.py *)

Module ConfigParser.

(** White space, for [str.strip] and the pattern [\s]. *)
Definition is_space (c : ascii) : bool :=
  let n := nat_of_ascii c in
  (((9 <=? n) && (n <=? 13)) || ((28 <=? n) && (n <=? 32)))%nat.

Fixpoint lstrip (s : string) : string :=
  match s with
  | EmptyString => EmptyString
  | String c s' => if is_space c then lstrip s' else s
  end.

Fixpoint rstrip (s : string) : string :=
  match s with
  | EmptyString => EmptyString
  | String c s' =>
      match rstrip s' with
      | EmptyString => if is_space c then EmptyString else String c EmptyString
      | r => String c r
      end
  end.

(** [s.strip()] *)
Definition strip (s : string) : string := rstrip (lstrip s).

(** [s.split(sep)] for a one-character separator. *)
Fixpoint split (sep : ascii) (s : string) : list string :=
  match s with
  | EmptyString => [EmptyString]
  | String c s' =>
      if Ascii.eqb c sep then EmptyString :: split sep s'
      else
        match split sep s' with
        | [] => [String c EmptyString]
        | p :: rest => String c p :: rest
        end
  end.

(** [s.split(sep, 1)] when [sep] occurs in [s]: the text before the first
    separator and the text after it. *)
Fixpoint split_once (sep : ascii) (s : string) : option (string * string) :=
  match s with
  | EmptyString => None
  | String c s' =>
      if Ascii.eqb c sep then Some (EmptyString, s')
      else
        match split_once sep s' with
        | Some (k, v) => Some (String c k, v)
        | None => None
        end
  end.

(** [parse_template_params] *)
Definition parse_template_params (param_str : string) : pydict string :=
  fold_left
    (fun params part =>
       match split_once "=" part with
       | Some (key, value) => dict_set (strip key) (strip value) params
       | None => params
       end)
    (split "|" param_str)
    [].

(** The text after the first occurrence of [needle] in [s]. *)
Fixpoint find_after (needle s : string) : option string :=
  if prefix needle s then Some (drop (String.length needle) s)
  else
    match s with
    | EmptyString => None
    | String _ s' => find_after needle s'
    end.

Fixpoint strip_pre_from (fuel : nat) (s : string) : string :=
  match fuel with
  | O => s
  | S fuel' =>
      match s with
      | EmptyString => EmptyString
      | String c s' =>
          if prefix "<pre>" s then
            match find_after "</pre>" (drop 5 s) with
            | Some rest => strip_pre_from fuel' rest
            | None => String c (strip_pre_from fuel' s')
            end
          else String c (strip_pre_from fuel' s')
      end
  end.

(** [strip_pre_blocks]: every pre block, from an opening tag to the nearest
    closing tag after it, is removed. *)
Definition strip_pre_blocks (text : string) : string :=
  strip_pre_from (String.length text) text.

(** The capturing group of the two template patterns, a greedy repetition
    of: a character that is no brace, or an opening brace and a character
    that is not one, or a closing brace and a character that is not one;
    followed by the two closing braces.  Matched at the start of [s] with
    the backtracking of the repetition: the captured text and the text
    after the closing braces. *)
Fixpoint match_body (s : string) : option (string * string) :=
  let stop :=
    if prefix "}}" s then Some (EmptyString, drop 2 s) else None in
  match s with
  | EmptyString => stop
  | String c s1 =>
      let more :=
        if negb (Ascii.eqb c "{") && negb (Ascii.eqb c "}") then
          match match_body s1 with
          | Some (body, rest) => Some (String c body, rest)
          | None => None
          end
        else
          match s1 with
          | EmptyString => None
          | String c2 s2 =>
              if negb (Ascii.eqb c2 c) then
                match match_body s2 with
                | Some (body, rest) => Some (String c (String c2 body), rest)
                | None => None
                end
              else None
          end in
      match more with
      | Some r => Some r
      | None => stop
      end
  end.

(** A template pattern matched at the start of [s]: two opening braces,
    the template name, white space, an optional newline, the group and the
    closing braces.  The greedy white space takes all of it; the group
    accepts white space as well, so giving some back finds no match that
    this misses. *)
Definition match_template (name s : string) : option (string * string) :=
  if prefix ("{{" ++ name) s
  then match_body (lstrip (drop (2 + String.length name) s))
  else None.

Fixpoint finditer_from (fuel : nat) (name s : string) : list string :=
  match fuel with
  | O => []
  | S fuel' =>
      match s with
      | EmptyString => []
      | String _ s' =>
          match match_template name s with
          | Some (body, rest) => body :: finditer_from fuel' name rest
          | None => finditer_from fuel' name s'
          end
      end
  end.

(** The first groups of [re.finditer(pattern, text, re.DOTALL)], in order. *)
Definition finditer (name text : string) : list string :=
  finditer_from (String.length text) name text.

Definition DEFAULT_SOURCE : Source :=
  mkSource "Blue Railroad (Optimism)" "blueRailroads" "10"
    "0xCe09A2d0d0BDE635722D8EF31901b430E651dB52".

(** [params.get(k) or None] *)
Definition get_or_None (k : string) (params : pydict string) : option string :=
  match dict_get k params with
  | Some s => if truthy_str s then Some s else None
  | None => None
  end.

(** [parse_config_from_wikitext] *)
Definition parse_config_from_wikitext (wikitext : string) : option BotConfig :=
  let text := strip_pre_blocks wikitext in
  let sources :=
    flat_map
      (fun body =>
         let params := parse_template_params body in
         match params with
         | [] => []
         | _ :: _ =>
             [ mkSource
                 (dict_get_default "name"
                    (dict_get_default "chain_data_key" "Unknown" params) params)
                 (dict_get_default "chain_data_key" "blueRailroads" params)
                 (dict_get_default "network_id" "10" params)
                 (dict_get_default "contract" EmptyString params) ]
         end)
      (finditer "BlueRailroadSource" text) in
  let leaderboards :=
    flat_map
      (fun body =>
         let params := parse_template_params body in
         match get_or_None "page" params with
         | Some page =>
             [ LeaderboardConfig_init page
                 (dict_get_default "title" EmptyString params)
                 (dict_get_default "description" EmptyString params)
                 (get_or_None "filter_song_id" params)
                 (get_or_None "filter_owner" params)
                 (dict_get_default "sort" "count" params) ]
         | None => []
         end)
      (finditer "BlueRailroadLeaderboard" text) in
  match sources, leaderboards with
  | [], [] => None
  | [], _ :: _ => Some (mkBotConfig [DEFAULT_SOURCE] leaderboards)
  | _ :: _, _ => Some (mkBotConfig sources leaderboards)
  end.

(** [get_default_config] *)
Definition get_default_config : BotConfig :=
  mkBotConfig
    [ DEFAULT_SOURCE ]
    [ LeaderboardConfig_init "Blue Railroad Leaderboard"
        "Blue Railroad Leaderboard"
        "Overall token holdings across all exercises" None None "count" ].

End ConfigParser.

Import ConfigParser.

(** ** importer.py *)

Module Importer.

Definition CONFIG_PAGE : string := "PickiPedia:BlueRailroadConfig".

(** [class ImportStats] *)
Record ImportStats : Type := mkImportStats {
  tokens_created : Z;
  tokens_updated : Z;
  tokens_unchanged : Z;
  tokens_error : Z;
  leaderboards_created : Z;
  leaderboards_updated : Z;
  leaderboards_unchanged : Z;
  leaderboards_error : Z;
  errors : list string
}.

(** [ImportStats()] *)
Definition ImportStats_init : ImportStats :=
  mkImportStats 0 0 0 0 0 0 0 0 [].

(** [ImportStats.add_token_result] *)
Definition add_token_result (result : SaveResult) (s : ImportStats)
    : ImportStats :=
  let '(mkImportStats tc tu tn te lc lu ln le errs) := s in
  if String.eqb (action result) "created" then
    mkImportStats (tc + 1) tu tn te lc lu ln le errs
  else if String.eqb (action result) "updated" then
    mkImportStats tc (tu + 1) tn te lc lu ln le errs
  else if String.eqb (action result) "unchanged" then
    mkImportStats tc tu (tn + 1) te lc lu ln le errs
  else if String.eqb (action result) "error" then
    mkImportStats tc tu tn (te + 1) lc lu ln le
      (List.app errs
         ["Token " ++ page_title result ++ ": " ++ message result])
  else s.

(** [ImportStats.add_leaderboard_result] *)
Definition add_leaderboard_result (result : SaveResult) (s : ImportStats)
    : ImportStats :=
  let '(mkImportStats tc tu tn te lc lu ln le errs) := s in
  if String.eqb (action result) "created" then
    mkImportStats tc tu tn te (lc + 1) lu ln le errs
  else if String.eqb (action result) "updated" then
    mkImportStats tc tu tn te lc (lu + 1) ln le errs
  else if String.eqb (action result) "unchanged" then
    mkImportStats tc tu tn te lc lu (ln + 1) le errs
  else if String.eqb (action result) "error" then
    mkImportStats tc tu tn te lc lu ln (le + 1)
      (List.app errs
         ["Leaderboard " ++ page_title result ++ ": " ++ message result])
  else s.

(** A [for] loop whose body may raise. *)
Fixpoint for_each {A S : Type} (body : S -> A -> exc S) (l : list A) (s : S)
    : exc S :=
  match l with
  | [] => Ok s
  | x :: rest => s' <- body s x ;; for_each body rest s'
  end.

Section BlueRailroadImporter.
(** The time zone of the process, and the fields of the importer: the wiki
    client, the document that [load_chain_data] reads from
    [chain_data_path], and the name of the configuration page. *)
Variable utcoffset : Z -> Z.
Context {W : Type} `{WikiClientProtocol W}.
Variable chain_data_doc : chain_data.
Variable config_page : string.

(** [BlueRailroadImporter.load_config] *)
Definition load_config (wiki : W) : exc BotConfig :=
  wiki_content <- get_page_content wiki config_page ;;
  match wiki_content with
  | Some text =>
      if truthy_str text then
        match parse_config_from_wikitext text with
        | Some config => Ok config
        | None => Ok get_default_config
        end
      else Ok get_default_config
  | None => Ok get_default_config
  end.

(** [BlueRailroadImporter.load_tokens]; the tokens are read at their
    annotated types from here on. *)
Definition load_tokens (config : BotConfig) : exc (pydict Token) :=
  match typed_tokens
          (aggregate_tokens_from_sources chain_data_doc (sources config)) with
  | Some tokens => Ok tokens
  | None => Raise IllTyped
  end.

(** [BlueRailroadImporter.import_token] *)
Definition import_token (wiki : W) (token : Token) : exc (SaveResult * W) :=
  let page_title := "Blue Railroad Token " ++ token_id token in
  content <- generate_token_page_content utcoffset token ;;
  existed <- page_exists wiki page_title ;;
  let summary :=
    (if (existed : bool) then "Updated" else "Imported")
      ++ " Blue Railroad token #" ++ token_id token ++ " from chain data" in
  save_page wiki page_title content summary.

(** [BlueRailroadImporter.generate_leaderboard] *)
Definition generate_leaderboard (wiki : W) (tokens : pydict Token)
    (config : LeaderboardConfig) : exc (SaveResult * W) :=
  let content := generate_leaderboard_content tokens config in
  let summary :=
    "Updated leaderboard from chain data"
      ++ (match filter_song_id config with
          | Some sid =>
              if truthy_str sid then " (song_id=" ++ sid ++ ")"
              else EmptyString
          | None => EmptyString
          end) in
  save_page wiki (page config) content summary.

(** [BlueRailroadImporter.run]: the statistics of the run and the wiki
    client after it. *)
Definition run (wiki : W) : exc (ImportStats * W) :=
  config <- load_config wiki ;;
  all_tokens <- load_tokens config ;;
  after_tokens <-
    for_each
      (fun '(stats, wiki) '(key, token) =>
         '(result, wiki') <- import_token wiki token ;;
         Ok (add_token_result result stats, wiki'))
      all_tokens (ImportStats_init, wiki) ;;
  for_each
    (fun '(stats, wiki) lb_config =>
       '(result, wiki') <- generate_leaderboard wiki all_tokens lb_config ;;
       Ok (add_leaderboard_result result stats, wiki'))
    (leaderboards config) after_tokens.

End BlueRailroadImporter.

End Importer.

Import Importer.

(** ** Definitions used by the statements *)

Module Statements.

(** *** Synchronisation *)

(** A site whose every request fails in transport. *)
Definition unreachable_site : Site :=
  mkSite []
    (fun _ => Some "connection refused")
    (fun _ => Some "connection refused")
    (fun _ _ => Some "connection refused").

(** A site that holds [pages] and whose requests all go through. *)
Definition reliable_site (pages : pydict string) : Site :=
  mkSite pages (fun _ => None) (fun _ => None) (fun _ _ => None).

(** A site that holds [pages], can be read, and refuses every write. *)
Definition readonly_site (pages : pydict string) : Site :=
  mkSite pages (fun _ => None) (fun _ => None)
    (fun _ _ => Some "read-only wiki").

(** A site that holds [pages] and answers the request for a page's
    info, but fails to deliver the text of any page. *)
Definition unreadable_site (pages : pydict string) : Site :=
  mkSite pages (fun _ => None) (fun _ => Some "read timed out")
    (fun _ _ => None).

(** The site after [title] has been written with [content]. *)
Definition site_with (site : Site) (title content : string) : Site :=
  mkSite (dict_set title content (wiki_pages site))
    (info_fault site) (text_fault site) (save_fault site).

(** *** Token properties *)

(** The CID of a token as the specification words it: for a current-schema
    token the video hash without its [0x] prefix, [None] when the hash is
    absent or all zero; for a legacy token the text after [ipfs://]. *)
Definition claimed_ipfs_cid (t : Token) : option string :=
  match blockheight t with
  | Some _ =>
      match video_hash t with
      | None => None
      | Some h =>
          if String.eqb h ZERO_HASH then None
          else Some (if startswith "0x" h then drop 2 h else h)
      end
  | None =>
      match uri t with
      | Some u => if startswith "ipfs://" u then Some (drop 7 u) else None
      | None => None
      end
  end.

(** The text begins with the digit [2]. *)
Definition begins_with_2 (s : string) : bool :=
  match s with
  | String c _ => Ascii.eqb c "2"
  | EmptyString => false
  end.

(** The formatted date as the specification words it, for a calendar
    that gives the date of a Unix timestamp: the text is cut into
    [YYYY-MM-DD] when the decimal representation of the date has exactly
    8 digits and begins with [2]; it is the calendar date when the
    representation has 10 digits or more; it is [None] otherwise. *)
Definition date_rule (calendar : Z -> option string) (d : option Z)
    : option string :=
  match d with
  | None => None
  | Some z =>
      let s := str_int z in
      if (String.length s =? 8)%nat && isdigit s && begins_with_2 s
      then Some (slice 0 4 s ++ "-" ++ slice 4 6 s ++ "-" ++ slice 6 8 s)
      else if (10 <=? String.length s)%nat && isdigit s then calendar z
      else None
  end.

(** The calendar of the specification: the date of the timestamp. *)
Definition utc_calendar (z : Z) : option string :=
  Some (strftime_ymd (civil_from_days (z / 86400))).

Definition claimed_formatted_date (d : option Z) : option string :=
  date_rule utc_calendar d.

(** The calendar of the amended specification: the date of the
    timestamp, as long as its year is at most 9999. *)
Definition calendar_to_9999 (z : Z) : option string :=
  let '(y, m, d) := civil_from_days (z / 86400) in
  if y <=? MAXYEAR then Some (strftime_ymd (y, m, d)) else None.

Definition amended_formatted_date (d : option Z) : option string :=
  date_rule calendar_to_9999 d.

(** At the instant [z] the calendar day of the process's time zone is the
    calendar day of UTC. *)
Definition same_day_as_utc (utcoffset : Z -> Z) (z : Z) : Prop :=
  (z + utcoffset z) / 86400 = z / 86400.

(** The calendar of the program: the date in the local time zone, as long
    as its year has at most four digits. *)
Definition local_calendar (utcoffset : Z -> Z) (z : Z) : option string :=
  let '(y, m, d) := civil_from_days ((z + utcoffset z) / 86400) in
  if (MINYEAR <=? y) && (y <=? MAXYEAR) then Some (strftime_ymd (y, m, d))
  else None.

Definition utc (t : Z) : Z := 0.

(** A time zone seven hours east of Greenwich. *)
Definition utc_plus_7 (t : Z) : Z := 25200.

(** A token with nothing but the given optional fields. *)
Definition token_with (date : option Z) (uri : option string)
    (blockheight : option Z) (video_hash : option string) : Token :=
  mkToken "1" "blueRailroads" "0x123" "alice.eth" None
    date uri blockheight video_hash.

(** *** Aggregation *)

(** The record [rec] is the token [id] of the source with chain-data key
    [sk], one of the configured [sources]. *)
Definition present (cd : chain_data) (sources : list Source)
    (sk id : string) (rec : record) : Prop :=
  exists s, In s sources /\ chain_data_key s = sk
            /\ In (id, rec) (dict_get_default sk [] cd).

(** No two tokens of different sources, or with different ids, share a
    composite key. *)
Definition unambiguous_keys (cd : chain_data) (sources : list Source) : Prop :=
  forall sk id rec sk' id' rec',
    present cd sources sk id rec -> present cd sources sk' id' rec' ->
    sk ++ "_" ++ id = sk' ++ "_" ++ id' -> sk = sk' /\ id = id'.

(** The token mapping of every configured source is a dict. *)
Definition sources_wf (cd : chain_data) (sources : list Source) : Prop :=
  forall s, In s sources -> wf_dict (dict_get_default (chain_data_key s) [] cd).

(** Every token of the dump is found in the aggregated mapping under its
    composite key. *)
Definition all_retrievable (cd : chain_data) (sources : list Source) : Prop :=
  forall s sd id rec,
    In s sources ->
    dict_get (chain_data_key s) cd = Some sd ->
    dict_get id sd = Some rec ->
    dict_get (chain_data_key s ++ "_" ++ id)
      (aggregate_tokens_from_sources cd sources)
    = Some (parse_token id rec (chain_data_key s)).

Definition owned_by (o : string) : record := [("owner", Scalar (PStr o))].

(** Three sources; the first and the third have a token with the same id,
    and the second has a key and a token id that concatenate to the
    composite key of the first one's token. *)
Definition ambiguous_dump : chain_data :=
  [ ("rail", [("v2_7", owned_by "0x111")]);
    ("rail_v2", [("7", owned_by "0x222")]);
    ("other", [("v2_7", owned_by "0x333")]) ].

Definition ambiguous_sources : list Source :=
  [ mkSource "Rail" "rail" "10" EmptyString;
    mkSource "Rail V2" "rail_v2" "10" EmptyString;
    mkSource "Other" "other" "10" EmptyString ].

(** The dump and the sources of the package's own collision test. *)
Definition same_id_dump : chain_data :=
  [ ("blueRailroads", [("1", owned_by "0x111")]);
    ("blueRailroadV2s",
     [("1", [("owner", Scalar (PStr "0x222"));
             ("blockheight", Scalar (PInt 123))])]) ].

Definition same_id_sources : list Source :=
  [ mkSource "V1" "blueRailroads" "10" EmptyString;
    mkSource "V2" "blueRailroadV2s" "10" EmptyString ].

(** The body of the inner loop of [aggregate_tokens_from_sources], and the
    tokens that the loops meet, in order. *)
Definition set_token (all_tokens : pydict RawToken) (token : RawToken)
    : pydict RawToken :=
  dict_set (aggregate_key token) token all_tokens.

Definition all_yielded (cd : chain_data) (sources : list Source)
    : list RawToken :=
  flat_map (iter_tokens_from_source cd) sources.

(** *** Orders of the leaderboard *)

(** [x] may stand before [y] in the output of [py_sorted]. *)
Definition sorted_before {A K : Type} (leb : K -> K -> bool) (key : A -> K)
    (reverse : bool) (x y : A) : Prop :=
  goes_before leb key reverse x y = true.

Definition by_count_desc (stats : pydict OwnerStats) (a b : string) : Prop :=
  token_count (stats_at stats b) <= token_count (stats_at stats a).

Definition by_newest_desc (stats : pydict OwnerStats) (a b : string) : Prop :=
  newest_date (stats_at stats b) <= newest_date (stats_at stats a).

(** [a] may stand before [b] in the order of the oldest date: [b] has no
    date, or both have one and the date of [a] is not the later one. *)
Definition by_oldest_asc (stats : pydict OwnerStats) (a b : string) : Prop :=
  let oa := oldest_date (stats_at stats a) in
  let ob := oldest_date (stats_at stats b) in
  ob = 0 \/ (oa <> 0 /\ oa <= ob).

(** The statistics of the package's leaderboard tests, and an owner with
    no date. *)
Definition sample_stats : pydict OwnerStats :=
  [ ("0xCarol", mkOwnerStats "0xCarol" "carol.eth" 2 ["7"; "8"] 0 0);
    ("0xBob", mkOwnerStats "0xBob" "bob.eth" 1 ["3"] 150 150);
    ("0xAlice", mkOwnerStats "0xAlice" "alice.eth" 3 ["1"; "2"; "5"] 300 100) ].

(** *** Owner statistics *)

(** The tokens of the mapping that belong to the owner address [a], in the
    iteration order of the mapping. *)
Definition tokens_of_owner (a : string) (tokens : pydict Token) : list Token :=
  filter (fun t => String.eqb (owner t) a) (dict_values tokens).

(** The truthy date values among [dates]. *)
Definition truthy_dates (dates : list Z) : list Z :=
  filter (fun d => negb (d =? 0)) dates.

(** The running maximum, from 0, of the truthy date values. *)
Definition newest_of (dates : list Z) : Z :=
  fold_left Z.max (truthy_dates dates) 0.

(** The minimum of the truthy date values, 0 when there is none. *)
Definition oldest_of (dates : list Z) : Z :=
  match truthy_dates dates with
  | [] => 0
  | d :: ds => fold_left Z.min ds d
  end.

(** What one token of the owner [a] does to the bucket of [a]. *)
Definition bucket_step (a : string) (bucket : option OwnerStats) (t : Token)
    : option OwnerStats :=
  Some (add_token (token_id t) (Some (date_val t))
          (match bucket with
           | Some s => s
           | None => OwnerStats_init a (owner_display t)
           end)).

(** What one date value does to the oldest date of a bucket. *)
Definition oldest_step (o d : Z) : Z :=
  if d =? 0 then o else if (o =? 0) || (d <? o) then d else o.

(** The tokens of the package's leaderboard tests, and a second token of
    Alice with another display name and no date. *)
Definition sample_tokens : pydict Token :=
  [ ("v1_1", mkToken "1" "blueRailroads" "0xAlice" "alice.eth" (Some "5")
               (Some 100) None None None);
    ("v1_2", mkToken "2" "blueRailroads" "0xAlice" "alice.eth" (Some "5")
               (Some 200) None None None);
    ("v1_3", mkToken "3" "blueRailroads" "0xBob" "bob.eth" (Some "6")
               (Some 150) None None None);
    ("v2_5", mkToken "5" "blueRailroadV2s" "0xAlice" "alice.eth" (Some "5")
               None None (Some 300) None);
    ("v2_6", mkToken "6" "blueRailroadV2s" "0xAlice" "Alice" None
               (Some 0) None (Some 0) None);
    ("v2_9", mkToken "9" "blueRailroadV2s" EmptyString EmptyString None
               None None (Some 400) None) ].

(** *** Filtering and rendering *)

(** The token passes the song filter, when there is one. *)
Definition song_passes (filter_song_id : option string) (t : Token) : bool :=
  match filter_song_id with
  | Some f =>
      if truthy_str f then
        match song_id t with
        | Some s => String.eqb s f
        | None => false
        end
      else true
  | None => true
  end.

(** The owner of the token is the filter, up to letter case, when there is
    a filter. *)
Definition owner_passes (filter_owner : option string) (t : Token) : bool :=
  match filter_owner with
  | Some f =>
      if truthy_str f then String.eqb (lower (owner t)) (lower f) else true
  | None => true
  end.

Definition passes (filter_song_id filter_owner : option string)
    (item : string * Token) : bool :=
  song_passes filter_song_id (snd item) && owner_passes filter_owner (snd item).





(** Two tokens whose owners differ in letter case only. *)
Definition mixed_case_tokens : pydict Token :=
  [ ("v1_1", mkToken "1" "blueRailroads" "0xBob" "bob.eth" None
               (Some 100) None None None);
    ("v1_2", mkToken "2" "blueRailroads" "0xbob" "bob.eth" None
               (Some 200) None None None);
    ("v1_3", mkToken "3" "blueRailroads" "0xAlice" "alice.eth" None
               (Some 150) None None None) ].

(** *** Runs of the importer *)

Definition lines (l : list string) : string := join newline l.

(** The configuration page of the package's importer tests: two sources
    and two leaderboards. *)
Definition wiki_config_content : string :=
  lines
    [ EmptyString;
      "== Configuration ==";
      EmptyString;
      "{{BlueRailroadSource";
      "|name=Blue Railroad V1";
      "|chain_data_key=blueRailroads";
      "}}";
      EmptyString;
      "{{BlueRailroadSource";
      "|name=Blue Railroad V2";
      "|chain_data_key=blueRailroadV2s";
      "}}";
      EmptyString;
      "{{BlueRailroadLeaderboard";
      "|page=Blue Railroad Leaderboard";
      "|title=Overall Leaderboard";
      "|sort=count";
      "}}";
      EmptyString;
      "{{BlueRailroadLeaderboard";
      "|page=Blue Railroad Squats Leaderboard";
      "|filter_song_id=5";
      "}}";
      EmptyString ].

Definition str_field (k v : string) : string * value := (k, Scalar (PStr v)).
Definition int_field (k : string) (n : Z) : string * value :=
  (k, Scalar (PInt n)).

(** The chain data of the package's importer tests. *)
Definition fixture_dump : chain_data :=
  [ ("blueRailroads",
     [ ("1", [ str_field "owner" "0xAlice";
               str_field "ownerDisplay" "alice.eth";
               str_field "songId" "5";
               int_field "date" 20260113;
               str_field "uri" "ipfs://QmV1Token1" ]);
       ("2", [ str_field "owner" "0xBob";
               str_field "ownerDisplay" "bob.eth";
               str_field "songId" "5";
               int_field "date" 20260114;
               str_field "uri" "ipfs://QmV1Token2" ]) ]);
    ("blueRailroadV2s",
     [ ("5", [ str_field "owner" "0xAlice";
               str_field "ownerDisplay" "alice.eth";
               str_field "songId" "5";
               int_field "blockheight" 12345678;
               str_field "videoHash" "0xabc123" ]) ]) ].

(** A wiki that holds the configuration page only and never fails. *)
Definition fresh_wiki : Site :=
  reliable_site [(CONFIG_PAGE, wiki_config_content)].

(** The statistics of two consecutive runs over [dump], the second on the
    wiki that the first one left. *)
Definition two_runs (dump : chain_data) (wiki : Site)
    : exc (ImportStats * ImportStats) :=
  '(stats1, wiki1) <- run utc dump CONFIG_PAGE wiki ;;
  '(stats2, _) <- run utc dump CONFIG_PAGE wiki1 ;;
  Ok (stats1, stats2).

(** The string has an underscore. *)
Fixpoint has_underscore (s : string) : bool :=
  match s with
  | EmptyString => false
  | String c s' => Ascii.eqb c "_" || has_underscore s'
  end.

(** *** A run of the importer, page by page *)

(** Every request that reads the site goes through. *)
Definition reads_ok (site : Site) : Prop :=
  forall title, info_fault site title = None /\ text_fault site title = None.

(** Every request goes through, reads and writes. *)
Definition reliable (site : Site) : Prop :=
  reads_ok site /\ forall title content, save_fault site title content = None.

(** The title of the page of a token. *)
Definition token_title (t : Token) : string :=
  "Blue Railroad Token " ++ token_id t.

(** What becomes of the site, and what is reported, when the page [title]
    is to hold [content] and the site can be read. *)
Definition sync_outcome (site : Site) (title content : string)
    : SaveResult * Site :=
  if content_equal (dict_get title (wiki_pages site)) content then
    (mkSaveResult title "unchanged" "Content identical", site)
  else
    match save_fault site title content with
    | None =>
        (mkSaveResult title
           (if dict_mem title (wiki_pages site) then "updated" else "created")
           EmptyString,
         site_with site title content)
    | Some d => (mkSaveResult title "error" d, site)
    end.

(** A list of pages to write, each a title and a content, written in
    order and tallied with [add]. *)
Fixpoint sync_jobs (add : SaveResult -> ImportStats -> ImportStats)
    (jobs : list (string * string)) (state : ImportStats * Site)
    : ImportStats * Site :=
  match jobs with
  | [] => state
  | (title, content) :: rest =>
      let '(result, site') := sync_outcome (snd state) title content in
      sync_jobs add rest (add result (fst state), site')
  end.

(** The token pages to write, in the order of the mapping; the first page
    that cannot be generated raises. *)
Fixpoint token_jobs (utcoffset : Z -> Z) (tokens : pydict Token)
    : exc (list (string * string)) :=
  match tokens with
  | [] => Ok []
  | (_, t) :: rest =>
      content <- generate_token_page_content utcoffset t ;;
      jobs <- token_jobs utcoffset rest ;;
      Ok ((token_title t, content) :: jobs)
  end.

(** The leaderboard pages to write. *)
Definition leaderboard_jobs (tokens : pydict Token)
    (boards : list LeaderboardConfig) : list (string * string) :=
  map (fun lb => (page lb, generate_leaderboard_content tokens lb)) boards.

(** The configuration that a configuration page with the given content
    stands for. *)
Definition config_of (content : option string) : BotConfig :=
  match content with
  | Some text =>
      if truthy_str text then
        match parse_config_from_wikitext text with
        | Some config => config
        | None => get_default_config
        end
      else get_default_config
  | None => get_default_config
  end.

Definition unchanged_result (title : string) : SaveResult :=
  mkSaveResult title "unchanged" "Content identical".

(** The four actions that [ImportStats] counts. *)
Definition known_action (a : string) : Prop :=
  a = "created" \/ a = "updated" \/ a = "unchanged" \/ a = "error".

(** The token pages and the leaderboards that the statistics account
    for. *)
Definition token_pages_counted (s : ImportStats) : Z :=
  tokens_created s + tokens_updated s + tokens_unchanged s + tokens_error s.

Definition leaderboards_counted (s : ImportStats) : Z :=
  leaderboards_created s + leaderboards_updated s + leaderboards_unchanged s
  + leaderboards_error s.

(** The error messages that no error counter accounts for. *)
Definition unreported_errors (s : ImportStats) : Z :=
  Z.of_nat (List.length (errors s)) - tokens_error s - leaderboards_error s.

(** The token is of the current schema, or its date fits the platform's
    [time_t]. *)
Definition fits_time_t (t : Token) : Prop :=
  is_v2 t = true \/ forall z, date t = Some z -> z <= TIME_T_MAX.

(** The titles that a run writes: the token pages, then the
    leaderboards. *)
Definition page_titles (tokens : pydict Token) (config : BotConfig)
    : list string :=
  (map (fun item => token_title (snd item)) tokens
   ++ map page (leaderboards config))%list.

(** *** Dry runs *)

(** What holds of the statistics and of the dry-run client at every point
    of a run that started on the client [c]. *)
Definition dry_run_invariant (c : DryRun) (state : ImportStats * DryRun)
    : Prop :=
  existing_pages (snd state) = existing_pages c
  /\ errors (fst state) = []
  /\ tokens_error (fst state) = 0
  /\ leaderboards_error (fst state) = 0
  /\ Z.of_nat (List.length (saved_pages (snd state)))
     = Z.of_nat (List.length (saved_pages c))
       + token_pages_counted (fst state) + leaderboards_counted (fst state).

(** The action that writing [content] to [title] comes to, on a wiki that
    holds [pages] and accepts the write. *)
Definition preview (pages : pydict string) (title content : string) : string :=
  if content_equal (dict_get title pages) content then "unchanged"
  else if dict_mem title pages then "updated" else "created".

Definition previewed_result (pages : pydict string) (job : string * string)
    : SaveResult :=
  mkSaveResult (fst job) (preview pages (fst job) (snd job)) EmptyString.

(** A tally that looks at nothing but the action of a result that is no
    error. *)
Definition counts_by_action (add : SaveResult -> ImportStats -> ImportStats)
    : Prop :=
  forall r r' s, action r = action r' -> action r <> "error" ->
                 add r s = add r' s.

Definition previewed_stats (add : SaveResult -> ImportStats -> ImportStats)
    (pages : pydict string) (jobs : list (string * string)) (s : ImportStats)
    : ImportStats :=
  fold_left (fun s job => add (previewed_result pages job) s) jobs s.

(** The title and the content of an entry of [saved_pages]. *)
Definition recorded_job (entry : string * string * string) : string * string :=
  (fst (fst entry), snd (fst entry)).

(** *** Configurations *)

(** The leaderboard names a page, has a title, and has no blank filter. *)
Definition usable_leaderboard (lb : LeaderboardConfig) : Prop :=
  page lb <> EmptyString /\ title lb <> EmptyString
  /\ filter_song_id lb <> Some EmptyString
  /\ filter_owner lb <> Some EmptyString.

Definition usable_config (config : BotConfig) : Prop :=
  sources config <> [] /\ Forall usable_leaderboard (leaderboards config).

(** The character [x] occurs in [s]. *)
Fixpoint has_char (x : ascii) (s : string) : bool :=
  match s with
  | EmptyString => false
  | String c s' => Ascii.eqb c x || has_char x s'
  end.

(** The string has no white space at either end. *)
Definition stripped (s : string) : Prop := strip s = s.

(** *** Ties and orders *)

(** [x] and [y] have equivalent sort keys. *)
Definition ties {A K : Type} (leb : K -> K -> bool) (key : A -> K)
    (x y : A) : bool :=
  leb (key x) (key y) && leb (key y) (key x).

(** The field of the statistics that the mode [sort_by] orders by. *)
Definition ranked_field (stats : pydict OwnerStats) (sort_by : string)
    (a : string) : Z :=
  if String.eqb sort_by "newest" then newest_date (stats_at stats a)
  else if String.eqb sort_by "oldest" then oldest_date (stats_at stats a)
  else token_count (stats_at stats a).

(** [b] has the value of [a] in that field. *)
Definition same_rank (stats : pydict OwnerStats) (sort_by : string)
    (a b : string) : bool :=
  ranked_field stats sort_by b =? ranked_field stats sort_by a.

(** The link to a token page in a row of the table. *)
Definition token_link (tid : string) : string :=
  "[[Blue Railroad Token " ++ tid ++ "|#" ++ tid ++ "]]".

(** The numbers in ascending order. *)
Definition ascending (ns : list Z) : list Z :=
  py_sorted Z.leb (fun n => n) false ns.

(** The strings of [l], each once, in the order of their first
    occurrence. *)
Definition first_seen_step (seen : list string) (a : string) : list string :=
  if existsb (String.eqb a) seen then seen else (seen ++ [a])%list.

Definition first_seen (l : list string) : list string :=
  fold_left first_seen_step l [].

(** The owners of the tokens that have one, in the iteration order of the
    mapping. *)
Definition owners_of (tokens : pydict Token) : list string :=
  filter truthy_str (map (fun item => owner (snd item)) tokens).

(** *** Test data of the runs *)

(** The result of a computation that is known not to raise. *)
Definition result_of {A : Type} (r : exc A) (default : A) : A :=
  match r with
  | Ok a => a
  | Raise _ => default
  end.

(** The configuration of [wiki_config_content], the tokens that it loads
    from [fixture_dump], and the first run on [fresh_wiki]. *)
Definition fixture_config : BotConfig :=
  config_of (Some wiki_config_content).

Definition fixture_tokens : pydict Token :=
  result_of (load_tokens fixture_dump fixture_config) [].

Definition fixture_first_run : ImportStats * Site :=
  result_of (run utc fixture_dump CONFIG_PAGE fresh_wiki)
    (ImportStats_init, fresh_wiki).

(** The tokens that the default configuration loads from [fixture_dump],
    and the dry run of the command line, which knows no page. *)
Definition default_tokens : pydict Token :=
  result_of (load_tokens fixture_dump get_default_config) [].

Definition fixture_dry_run : ImportStats * DryRun :=
  result_of (run utc fixture_dump CONFIG_PAGE (DryRunClient.init None))
    (ImportStats_init, DryRunClient.init None).

(** A legacy token whose date is one more than the largest [time_t], and
    a dump that holds it. *)
Definition overflow_token : Token :=
  mkToken "1" "blueRailroads" "0xAlice" "0xAlice" None (Some (2 ^ 63))
    None None None.

Definition overflow_dump : chain_data :=
  [ ("blueRailroads",
     [ ("1", [ str_field "owner" "0xAlice"; int_field "date" (2 ^ 63) ]) ]) ].

End Statements.

Import Statements.

(* ===================================================================== *)
(** * Part II: properties                                                 *)
(* ===================================================================== *)

(** ** Dictionaries *)

Section DictFacts.
Context {V : Type}.
Implicit Types (d : pydict V) (k : string).

Lemma dict_get_set_eq k (v : V) d : dict_get k (dict_set k v d) = Some v.
Proof.
  induction d as [|[k' v'] d IH]; simpl.
  - now rewrite String.eqb_refl.
  - destruct (String.eqb k k') eqn:E; simpl; rewrite E; auto.
Qed.

Lemma dict_get_set_ne k k' (v : V) d :
  k <> k' -> dict_get k' (dict_set k v d) = dict_get k' d.
Proof.
  intros Hne. induction d as [|[k0 v0] d IH]; simpl.
  - destruct (String.eqb k' k) eqn:E; auto.
    apply String.eqb_eq in E. congruence.
  - destruct (String.eqb k k0) eqn:E; simpl.
    + apply String.eqb_eq in E. subst k0.
      destruct (String.eqb k' k) eqn:E'; auto.
      apply String.eqb_eq in E'. congruence.
    + now rewrite IH.
Qed.

Lemma dict_get_alter_eq (f : V -> V) k d :
  dict_get k (dict_alter f k d) = option_map f (dict_get k d).
Proof.
  induction d as [|[k' v'] d IH]; simpl; auto.
  destruct (String.eqb k k') eqn:E; simpl; rewrite E; auto.
Qed.

Lemma dict_get_alter_ne (f : V -> V) k k' d :
  k <> k' -> dict_get k' (dict_alter f k d) = dict_get k' d.
Proof.
  intros Hne. induction d as [|[k0 v0] d IH]; simpl; auto.
  destruct (String.eqb k k0) eqn:E; simpl.
  - apply String.eqb_eq in E. subst k0.
    destruct (String.eqb k' k) eqn:E'; auto.
    apply String.eqb_eq in E'. congruence.
  - now rewrite IH.
Qed.

Lemma dict_get_In k (v : V) d : dict_get k d = Some v -> In (k, v) d.
Proof.
  induction d as [|[k' v'] d IH]; simpl; [discriminate|].
  destruct (String.eqb k k') eqn:E.
  - apply String.eqb_eq in E. intros [= ->]. subst. now left.
  - intros Hg. right. now apply IH.
Qed.

Lemma dict_get_None_keys k d : dict_get k d = None <-> ~ In k (dict_keys d).
Proof.
  induction d as [|[k' v'] d IH]; simpl.
  - tauto.
  - destruct (String.eqb k k') eqn:E.
    + apply String.eqb_eq in E. subst. split; [discriminate | tauto].
    + apply String.eqb_neq in E. rewrite IH. split.
      * intros Hn [Hk | Hk]; [congruence | tauto].
      * tauto.
Qed.

Lemma In_dict_get k (v : V) d :
  wf_dict d -> In (k, v) d -> dict_get k d = Some v.
Proof.
  unfold wf_dict. induction d as [|[k' v'] d IH]; simpl; [tauto|].
  intros Hnd Hin. inversion Hnd as [|? ? Hnotin Hnd']; subst.
  destruct Hin as [[= -> ->] | Hin].
  - now rewrite String.eqb_refl.
  - destruct (String.eqb k k') eqn:E.
    + apply String.eqb_eq in E. subst k'. exfalso. apply Hnotin.
      change (In (fst (k, v)) (map fst d)). now apply in_map.
    + now apply IH.
Qed.

Lemma dict_set_absent k (v : V) d :
  dict_get k d = None -> dict_set k v d = (d ++ [(k, v)])%list.
Proof.
  induction d as [|[k' v'] d IH]; simpl; auto.
  destruct (String.eqb k k'); [discriminate|].
  intros Hg. now rewrite IH.
Qed.

Lemma dict_keys_alter (f : V -> V) k d :
  dict_keys (dict_alter f k d) = dict_keys d.
Proof.
  induction d as [|[k' v'] d IH]; simpl; auto.
  destruct (String.eqb k k'); simpl; [reflexivity | now rewrite IH].
Qed.

Lemma dict_keys_set_present k (v : V) d :
  dict_get k d <> None -> dict_keys (dict_set k v d) = dict_keys d.
Proof.
  induction d as [|[k' v'] d IH]; simpl; [congruence|].
  destruct (String.eqb k k'); simpl; [reflexivity|].
  intros Hg. now rewrite IH.
Qed.

End DictFacts.

(** ** Strings *)

Lemma truthy_str_false (s : string) : truthy_str s = false <-> s = EmptyString.
Proof. destruct s; simpl; split; congruence. Qed.

Lemma prefix_truthy (p s : string) :
  truthy_str p = true -> prefix p s = true -> truthy_str s = true.
Proof. destruct p, s; simpl; congruence. Qed.

Lemma prefix_app (p s : string) : prefix p (p ++ s) = true.
Proof.
  induction p as [|c p IH]; simpl.
  - now destruct s.
  - destruct (ascii_dec c c); [assumption | congruence].
Qed.

Lemma drop_app (p s : string) : drop (String.length p) (p ++ s) = s.
Proof. induction p as [|c p IH]; simpl; auto. Qed.

Lemma int_of_str_str_int (z : Z) : int_of_str (str_int z) = Some z.
Proof.
  unfold int_of_str, str_int.
  rewrite NilZero.isi.
  - simpl. now rewrite DecimalZ.of_to.
  - destruct z; simpl; try discriminate.
    intros [= Hp]. revert Hp. apply DecimalPos.Unsigned.to_uint_nonnil.
  - destruct z; simpl; try discriminate.
    intros [= Hp]. revert Hp. apply DecimalPos.Unsigned.to_uint_nonnil.
Qed.

(** ** Token parsing *)

(** C4. [parse_token] unwraps a one-element sequence to its element and an
    empty sequence to [None] for the fields [songId], [date] and
    [blockheight], and for these only: [owner], [uri] and [videoHash] are
    stored as the record has them.  [songId] becomes the string of the
    extracted value when that value is truthy (the string ["0"] is kept as
    ["0"]) and [None] when it is falsy or absent (a numeric zero gives
    [None]). *)
Theorem C4_parse_token_unwraps_and_coerces :
  forall (token_id source_key : string) (data : record),
    let t := parse_token token_id data source_key in
    (forall x, dict_get "songId" data = Some (Seq [x]) ->
       raw_song_id t = if truthy x then Some (str x) else None)
    /\ (forall x, dict_get "date" data = Some (Seq [x]) -> raw_date t = x)
    /\ (forall x, dict_get "blockheight" data = Some (Seq [x]) ->
          raw_blockheight t = x)
    /\ (dict_get "songId" data = Some (Seq []) -> raw_song_id t = None)
    /\ (dict_get "date" data = Some (Seq []) -> raw_date t = PNone)
    /\ (dict_get "blockheight" data = Some (Seq []) ->
          raw_blockheight t = PNone)
    /\ (forall v, dict_get "songId" data = Some (Scalar v) ->
          raw_song_id t = if truthy v then Some (str v) else None)
    /\ (forall v, dict_get "date" data = Some (Scalar v) -> raw_date t = v)
    /\ (forall v, dict_get "blockheight" data = Some (Scalar v) ->
          raw_blockheight t = v)
    /\ (dict_get "songId" data = None -> raw_song_id t = None)
    /\ (dict_get "date" data = None -> raw_date t = PNone)
    /\ (dict_get "blockheight" data = None -> raw_blockheight t = PNone)
    /\ (forall v, dict_get "owner" data = Some v -> raw_owner t = v)
    /\ (forall v, dict_get "uri" data = Some v -> raw_uri t = v)
    /\ (forall v, dict_get "videoHash" data = Some v -> raw_video_hash t = v)
    /\ (dict_get "songId" data = Some (Scalar (PStr "0")) ->
          raw_song_id t = Some "0")
    /\ (dict_get "songId" data = Some (Scalar (PInt 0)) ->
          raw_song_id t = None).
Proof.
  intros token_id source_key data t. subst t.
  unfold parse_token, extract_value, dict_get_default; simpl.
  repeat split; intros; repeat match goal with
                               | H : dict_get _ data = _ |- _ => rewrite H
                               end; reflexivity.
Qed.

(** The record of the package's own test of the array format, with the
    owner wrapped as well. *)
Lemma C4_parse_token_witness :
  let t := parse_token "1"
             [ ("owner", Seq [PStr "0x123"]);
               ("songId", Seq [PStr "5"]);
               ("date", Seq [PInt 20260113]);
               ("blockheight", Seq []) ]
             "blueRailroads" in
  raw_song_id t = Some "5"
  /\ raw_date t = PInt 20260113
  /\ raw_blockheight t = PNone
  /\ raw_owner t = Seq [PStr "0x123"].
Proof.
  intros t.
  destruct (C4_parse_token_unwraps_and_coerces "1" "blueRailroads"
              [ ("owner", Seq [PStr "0x123"]);
                ("songId", Seq [PStr "5"]);
                ("date", Seq [PInt 20260113]);
                ("blockheight", Seq []) ])
    as (Hsong & Hdate & _ & _ & _ & Hbh & _ & _ & _ & _ & _ & _ & Hown & _).
  split; [exact (Hsong (PStr "5") eq_refl)|].
  split; [exact (Hdate (PInt 20260113) eq_refl)|].
  split; [exact (Hbh eq_refl)|].
  exact (Hown (Seq [PStr "0x123"]) eq_refl).
Defined.

(** ** The IPFS content identifier *)

Example ipfs_cid_legacy :
  ipfs_cid (token_with None (Some "ipfs://QmXyz123abc") None None)
  = Some "QmXyz123abc".
Proof. reflexivity. Qed.

Example ipfs_cid_zero_hash :
  ipfs_cid (token_with None None (Some 12345678) (Some ZERO_HASH)) = None.
Proof. reflexivity. Qed.

Example ipfs_cid_video_hash :
  ipfs_cid (token_with None None (Some 12345678) (Some "0xabc123"))
  = Some "abc123".
Proof. reflexivity. Qed.

(** C6, as stated, fails: a current-schema token whose video hash is the
    empty string has no CID, where the stated rule gives the empty
    string. *)
Lemma C6_ipfs_cid_counterexample :
  ipfs_cid (token_with None None (Some 12345678) (Some EmptyString)) = None
  /\ claimed_ipfs_cid (token_with None None (Some 12345678) (Some EmptyString))
     = Some EmptyString.
Proof. split; reflexivity. Qed.

(** C6, amended.  The CID of a current-schema token is [None] also when the
    video hash is the empty string; in every other case it is as stated:
    the video hash without its [0x] prefix, [None] when the hash is absent
    or all zero, for a current-schema token; the text after [ipfs://], or
    [None] when the URI does not start with it, for a legacy token. *)
Theorem C6_ipfs_cid_amended :
  forall t : Token,
    (is_v2 t = true -> video_hash t = Some EmptyString -> ipfs_cid t = None)
    /\ (~ (is_v2 t = true /\ video_hash t = Some EmptyString) ->
        ipfs_cid t = claimed_ipfs_cid t).
Proof.
  intros t. unfold ipfs_cid, claimed_ipfs_cid, is_v2. split.
  - intros Hv Hh. destruct (blockheight t); [|discriminate].
    now rewrite Hh.
  - intros Hn. destruct (blockheight t) as [b|].
    + destruct (video_hash t) as [h|]; [|reflexivity].
      destruct h as [|c h]; [exfalso; apply Hn; auto|].
      cbn [truthy_str andb].
      now destruct (String.eqb (String c h) ZERO_HASH).
    + destruct (uri t) as [u|]; [|reflexivity].
      destruct (startswith "ipfs://" u) eqn:E.
      * unfold startswith in E.
        rewrite (prefix_truthy "ipfs://" u eq_refl E). reflexivity.
      * now rewrite andb_false_r.
Qed.

Lemma C6_ipfs_cid_amended_witness :
  ipfs_cid (token_with None None (Some 12345678) (Some EmptyString)) = None
  /\ ipfs_cid (token_with None None (Some 12345678) (Some "0xabc123"))
     = claimed_ipfs_cid
         (token_with None None (Some 12345678) (Some "0xabc123")).
Proof.
  split.
  - apply (proj1 (C6_ipfs_cid_amended
                    (token_with None None (Some 12345678) (Some EmptyString))));
      reflexivity.
  - apply (proj2 (C6_ipfs_cid_amended
                    (token_with None None (Some 12345678) (Some "0xabc123")))).
    intros [_ H]. discriminate H.
Defined.

(** ** Synchronisation of one page *)

Lemma get_page_content_inv (site : Site) (title : string)
    (current : option string) :
  MWClientWrapper.get_page_content site title = Ok current ->
  site_page_exists site title
  = Ok (match current with Some _ => true | None => false end)
  /\ (forall text, current = Some text -> page_text site title = Ok text).
Proof.
  unfold MWClientWrapper.get_page_content.
  destruct (site_page_exists site title) as [existed|e]; simpl; [|discriminate].
  destruct existed.
  - destruct (page_text site title) as [text|e]; simpl; [|discriminate].
    intros [= <-]. split; [reflexivity|]. now intros text' [= ->].
  - intros [= <-]. split; [reflexivity | discriminate].
Qed.

(** C2, as stated, fails: when the request for the page's current state
    fails in transport, [save_page] raises instead of returning an
    [error] result. *)
Lemma C2_save_page_counterexample :
  MWClientWrapper.save_page unreachable_site
    "Blue Railroad Token 1" "text" "Imported"
  = Raise (TransportError "connection refused")
  /\ ~ (forall site title content summary,
          exists r site',
            MWClientWrapper.save_page site title content summary
            = Ok (r, site')).
Proof.
  split; [reflexivity|].
  intros H.
  destruct (H unreachable_site "Blue Railroad Token 1" "text" "Imported")
    as (r & site' & Hr).
  discriminate Hr.
Qed.

(** C2, amended.  Once the current content of the page has been read:
    [save_page] returns [unchanged] and leaves the site as it is, whatever
    a write would have done, when the current content equals the new
    content; otherwise it attempts the write and returns [created] if the
    page did not exist and [updated] if it did; and when the write fails
    it returns [error] with the failure description as message, without
    raising.  A transport failure while the current state of the page is
    read, be it the request for the page's info or the request for its
    text, propagates to the caller as that exception, and [save_page]
    raises in no other case.  The dry-run client never raises and never
    changes its pages; it classifies in the same way. *)
Theorem C2_save_page_amended :
  (forall (site : Site) (title content summary : string)
          (current : option string),
      MWClientWrapper.get_page_content site title = Ok current ->
      (current = Some content ->
       MWClientWrapper.save_page site title content summary
       = Ok (mkSaveResult title "unchanged" "Content identical", site))
      /\ (current <> Some content ->
          save_fault site title content = None ->
          MWClientWrapper.save_page site title content summary
          = Ok (mkSaveResult title
                  (match current with
                   | Some _ => "updated"
                   | None => "created"
                   end) EmptyString,
                site_with site title content))
      /\ (current <> Some content ->
          forall d, save_fault site title content = Some d ->
          MWClientWrapper.save_page site title content summary
          = Ok (mkSaveResult title "error" d, site)))
  /\ (forall (site : Site) (title content summary : string) (e : exn),
        (MWClientWrapper.get_page_content site title = Raise e ->
         MWClientWrapper.save_page site title content summary = Raise e)
        /\ (MWClientWrapper.save_page site title content summary = Raise e ->
            MWClientWrapper.get_page_content site title = Raise e)
        /\ (forall d, info_fault site title = Some d ->
            MWClientWrapper.save_page site title content summary
            = Raise (TransportError d))
        /\ (forall d, info_fault site title = None ->
            dict_mem title (wiki_pages site) = true ->
            text_fault site title = Some d ->
            MWClientWrapper.save_page site title content summary
            = Raise (TransportError d)))
  /\ (forall (c : DryRun) (title content summary : string),
        exists r c',
          DryRunClient.save_page c title content summary = Ok (r, c')
          /\ existing_pages c' = existing_pages c
          /\ page_title r = title
          /\ action r
             = match dict_get title (existing_pages c) with
               | Some text =>
                   if String.eqb text content then "unchanged" else "updated"
               | None => "created"
               end).
Proof.
  split; [|split].
  - intros site title content summary current Hget.
    destruct (get_page_content_inv _ _ _ Hget) as [Hex Htext].
    unfold MWClientWrapper.save_page. rewrite Hex. simpl.
    assert (Hcur :
      (if match current with Some _ => true | None => false end
       then Py.bind (page_text site title) (fun text => Ok (Some text))
       else Ok None) = Ok current).
    { destruct current as [text|]; [|reflexivity].
      now rewrite (Htext text eq_refl). }
    rewrite Hcur. simpl.
    assert (Heq : content_equal current content = true <-> current = Some content).
    { unfold content_equal. destruct current as [c|].
      - rewrite String.eqb_eq. split; congruence.
      - split; discriminate. }
    repeat split.
    + intros Hc. apply Heq in Hc. now rewrite Hc.
    + intros Hne Hsave.
      destruct (content_equal current content) eqn:E;
        [exfalso; apply Hne, Heq; reflexivity|].
      unfold page_save. rewrite Hsave. unfold site_with.
      now destruct current.
    + intros Hne d Hsave.
      destruct (content_equal current content) eqn:E;
        [exfalso; apply Hne, Heq; reflexivity|].
      unfold page_save. rewrite Hsave. reflexivity.
  - intros site title content summary e.
    unfold MWClientWrapper.save_page, MWClientWrapper.get_page_content,
      site_page_exists, page_text, page_save.
    destruct (info_fault site title) as [d0|]; cbn [Py.bind].
    + split; [intros [= <-]; reflexivity|].
      split; [intros [= <-]; reflexivity|].
      split; [intros d [= <-]; reflexivity | intros d [=]].
    + destruct (dict_mem title (wiki_pages site)).
      * destruct (text_fault site title) as [d1|]; cbn [Py.bind].
        -- split; [intros [= <-]; reflexivity|].
           split; [intros [= <-]; reflexivity|].
           split; [intros d [=] | intros d _ _ [= <-]; reflexivity].
        -- split; [intros [=]|]. split.
           ++ cbn [Py.bind].
              match goal with
              | |- context [content_equal ?a ?b] =>
                  destruct (content_equal a b)
              end; [intros [=]|].
              destruct (save_fault site title content); intros [=].
           ++ split; [intros d [=] | intros d _ _ [=]].
      * split; [intros [=]|]. split.
        -- cbn [Py.bind].
           match goal with
           | |- context [content_equal ?a ?b] =>
               destruct (content_equal a b)
           end; [intros [=]|].
           destruct (save_fault site title content); intros [=].
        -- split; [intros d [=] | intros d _ [=]].
  - intros c title content summary.
    unfold DryRunClient.save_page, dict_mem, content_equal.
    destruct (dict_get title (existing_pages c)) as [text|].
    + destruct (String.eqb text content); eexists; eexists;
        (split; [reflexivity|]); simpl; auto.
    + eexists; eexists; (split; [reflexivity|]); simpl; auto.
Qed.

(** A page that exists with another text is updated; on a wiki that
    refuses writes the same call reports the error; and on a wiki that
    reports the page but fails to deliver its text the call raises. *)
Lemma C2_save_page_amended_witness :
  MWClientWrapper.save_page
    (reliable_site [("Blue Railroad Token 1", "old")])
    "Blue Railroad Token 1" "new" "Updated"
  = Ok (mkSaveResult "Blue Railroad Token 1" "updated" EmptyString,
        reliable_site [("Blue Railroad Token 1", "new")])
  /\ MWClientWrapper.save_page
       (readonly_site [("Blue Railroad Token 1", "old")])
       "Blue Railroad Token 1" "new" "Updated"
     = Ok (mkSaveResult "Blue Railroad Token 1" "error" "read-only wiki",
           readonly_site [("Blue Railroad Token 1", "old")])
  /\ MWClientWrapper.save_page
       (unreadable_site [("Blue Railroad Token 1", "old")])
       "Blue Railroad Token 1" "new" "Updated"
     = Raise (TransportError "read timed out").
Proof.
  split; [|split].
  - refine (proj1 (proj2 (proj1 C2_save_page_amended
                            (reliable_site [("Blue Railroad Token 1", "old")])
                            "Blue Railroad Token 1" "new" "Updated"
                            (Some "old") eq_refl)) _ eq_refl).
    discriminate.
  - refine (proj2 (proj2 (proj1 C2_save_page_amended
                            (readonly_site [("Blue Railroad Token 1", "old")])
                            "Blue Railroad Token 1" "new" "Updated"
                            (Some "old") eq_refl)) _ "read-only wiki" eq_refl).
    discriminate.
  - exact (proj1 (proj1 (proj2 C2_save_page_amended)
                    (unreadable_site [("Blue Railroad Token 1", "old")])
                    "Blue Railroad Token 1" "new" "Updated"
                    (TransportError "read timed out"))
             eq_refl).
Defined.

(** ** The formatted date *)

Lemma all_digits_string_of_uint (d : Decimal.uint) :
  all_digits (NilEmpty.string_of_uint d) = true.
Proof. induction d; simpl; auto. Qed.

Lemma isdigit_str_int_nonneg (z : Z) : 0 <= z -> isdigit (str_int z) = true.
Proof.
  intros Hz. unfold str_int, isdigit.
  destruct z as [|p|p]; [reflexivity | | lia].
  simpl. unfold NilZero.string_of_uint.
  pose proof (all_digits_string_of_uint (Pos.to_uint p)) as Hall.
  pose proof (DecimalPos.Unsigned.to_uint_nonnil p) as Hnn.
  destruct (Pos.to_uint p); try congruence; simpl in *; exact Hall.
Qed.

Lemma str_int_neg (z : Z) : z < 0 -> exists s, str_int z = String "-" s.
Proof.
  intros Hz. destruct z as [|p|p]; try lia.
  unfold str_int. simpl. eauto.
Qed.

Lemma begins_with_2_nonneg (z : Z) :
  begins_with_2 (str_int z) = true -> 0 <= z.
Proof.
  intros H. destruct (Z.lt_ge_cases z 0) as [Hneg | Hpos]; [|lia].
  destruct (str_int_neg z Hneg) as [s Hs]. rewrite Hs in H. discriminate.
Qed.

Lemma isdigit_str_int (z : Z) : isdigit (str_int z) = (0 <=? z).
Proof.
  destruct (Z.leb_spec 0 z) as [Hpos | Hneg].
  - now apply isdigit_str_int_nonneg.
  - destruct (str_int_neg z Hneg) as [s Hs]. now rewrite Hs.
Qed.

Lemma get_0_begins_with_2 (s : string) :
  match String.get 0 s with
  | Some c => Ascii.eqb c "2"
  | None => false
  end = begins_with_2 s.
Proof. now destruct s. Qed.

Lemma of_uint_acc_bounds (d : Decimal.uint) (acc : positive) :
  Z.pos acc * 10 ^ Z.of_nat (Decimal.nb_digits d)
  <= Z.pos (Pos.of_uint_acc d acc)
  < (Z.pos acc + 1) * 10 ^ Z.of_nat (Decimal.nb_digits d).
Proof.
  revert acc.
  induction d as [|d IHd|d IHd|d IHd|d IHd|d IHd|d IHd|d IHd|d IHd|d IHd|d IHd];
    intros acc; cbn [Decimal.nb_digits Pos.of_uint_acc].
  1: { simpl. lia. }
  all: rewrite Nat2Z.inj_succ, Z.pow_succ_r by lia.
  all: match goal with
       | IH : forall _, _ |- context [Pos.of_uint_acc ?u ?a] =>
           specialize (IH a);
           assert (0 < 10 ^ Z.of_nat (Decimal.nb_digits u))
             by (apply Z.pow_pos_nonneg; lia);
           rewrite ?Pos2Z.inj_add, ?Pos2Z.inj_mul in IH
       end.
  all: nia.
Qed.

Lemma length_string_of_uint (d : Decimal.uint) :
  String.length (NilEmpty.string_of_uint d) = Decimal.nb_digits d.
Proof. induction d; simpl; auto. Qed.

Lemma to_uint_head (p : positive) :
  forall d, Pos.to_uint p <> Decimal.D0 d.
Proof.
  intros d Heq.
  pose proof (DecimalPos.Unsigned.to_of (Pos.to_uint p)) as H.
  rewrite DecimalPos.Unsigned.of_to in H. simpl in H.
  pose proof (DecimalPos.Unsigned.to_uint_nonzero p) as Hnz.
  assert (Hu : Decimal.unorm (Pos.to_uint p) = Decimal.nzhead (Pos.to_uint p)).
  { apply DecimalFacts.unorm_nzhead. intros Hn.
    apply DecimalFacts.unorm_0 in Hn. congruence. }
  rewrite Hu in H. rewrite Heq in H at 1.
  symmetry in H. revert H. apply DecimalFacts.nzhead_nonzero.
Qed.

(** The decimal representation of a positive number: a first digit [c]
    that is not zero, and [k] more digits, for a number from [c * 10 ^ k]
    to [(c + 1) * 10 ^ k - 1]. *)
Lemma str_int_pos_shape (p : positive) :
  exists (c : Z) (rest : string),
    str_int (Z.pos p)
    = String (ascii_of_nat (48 + Z.to_nat c)) rest
    /\ 1 <= c <= 9
    /\ c * 10 ^ Z.of_nat (String.length rest) <= Z.pos p
       < (c + 1) * 10 ^ Z.of_nat (String.length rest).
Proof.
  unfold str_int. simpl Z.to_int. simpl NilZero.string_of_int.
  pose proof (DecimalPos.Unsigned.of_to p) as Hof.
  pose proof (to_uint_head p) as Hhead.
  pose proof (DecimalPos.Unsigned.to_uint_nonnil p) as Hnil.
  unfold NilZero.string_of_uint.
  destruct (Pos.to_uint p) as [|d|d|d|d|d|d|d|d|d|d];
    [congruence | exfalso; eapply Hhead; reflexivity | ..];
    simpl in Hof; injection Hof as Hof;
    pose proof (of_uint_acc_bounds d) as Hb;
    simpl NilEmpty.string_of_uint;
    [exists 1 | exists 2 | exists 3 | exists 4 | exists 5 | exists 6
     | exists 7 | exists 8 | exists 9];
    eexists; (split; [reflexivity|]); (split; [lia|]);
    rewrite length_string_of_uint, <- Hof;
    match goal with
    | |- context [Pos.of_uint_acc _ ?a] => specialize (Hb a)
    end; lia.
Qed.

Lemma pow10_le (a b : nat) : (a <= b)%nat -> 10 ^ Z.of_nat a <= 10 ^ Z.of_nat b.
Proof. intros. apply Z.pow_le_mono_r; lia. Qed.

Lemma shape_upper (c : Z) (k n : nat) :
  1 <= c <= 9 -> (k <= n)%nat ->
  (c + 1) * 10 ^ Z.of_nat k <= 10 * 10 ^ Z.of_nat n.
Proof.
  intros Hc Hk. pose proof (pow10_le k n Hk).
  assert (0 < 10 ^ Z.of_nat k) by (apply Z.pow_pos_nonneg; lia).
  apply Z.mul_le_mono_nonneg; lia.
Qed.

Lemma shape_lower (c : Z) (k n : nat) :
  1 <= c -> (n <= k)%nat -> 10 ^ Z.of_nat n <= c * 10 ^ Z.of_nat k.
Proof.
  intros Hc Hk. pose proof (pow10_le n k Hk).
  assert (0 < 10 ^ Z.of_nat n) by (apply Z.pow_pos_nonneg; lia).
  rewrite <- (Z.mul_1_l (10 ^ Z.of_nat n)).
  apply Z.mul_le_mono_nonneg; lia.
Qed.

Lemma eight_digits_from_2 (z : Z) :
  (String.length (str_int z) = 8%nat /\ begins_with_2 (str_int z) = true)
  <-> 20000000 <= z <= 29999999.
Proof.
  destruct z as [|p|p].
  - split; [intros [H _]; discriminate H | lia].
  - destruct (str_int_pos_shape p) as (c & rest & Hs & Hc & Hb).
    rewrite Hs. cbn [String.length begins_with_2]. split.
    + intros [Hlen H2]. injection Hlen as Hlen. rewrite Hlen in Hb.
      assert (c = 2).
      { assert (Hcases : c = 1 \/ c = 2 \/ c = 3 \/ c = 4 \/ c = 5 \/ c = 6
                         \/ c = 7 \/ c = 8 \/ c = 9) by lia.
        destruct Hcases as [-> | [-> | [-> | [-> | [-> | [-> | [-> | [-> | ->]]]]]]]];
          try discriminate H2; reflexivity. }
      subst c. change (10 ^ Z.of_nat 7) with 10000000 in Hb. lia.
    + intros Hz.
      assert (Hk : String.length rest = 7%nat).
      { destruct (Nat.lt_trichotomy (String.length rest) 7) as [Hlt | [He | Hgt]];
          [|exact He|].
        - pose proof (shape_upper c (String.length rest) 6 Hc ltac:(lia)) as Hp.
          change (10 ^ Z.of_nat 6) with 1000000 in Hp. lia.
        - pose proof (shape_lower c (String.length rest) 8 ltac:(lia) ltac:(lia))
            as Hp.
          change (10 ^ Z.of_nat 8) with 100000000 in Hp. lia. }
      rewrite Hk in Hb. change (10 ^ Z.of_nat 7) with 10000000 in Hb.
      assert (c = 2) by lia. subst c. rewrite Hk. split; reflexivity.
  - destruct (str_int_neg (Z.neg p) ltac:(lia)) as [s Hs]. rewrite Hs.
    split; [intros [_ H]; discriminate H | lia].
Qed.

Lemma ten_digits_or_more (z : Z) :
  ((10 <=? String.length (str_int z))%nat && isdigit (str_int z) = true)
  <-> 1000000000 <= z.
Proof.
  rewrite isdigit_str_int, andb_true_iff, Nat.leb_le, Z.leb_le.
  destruct z as [|p|p].
  - change (String.length (str_int 0)) with 1%nat. lia.
  - destruct (str_int_pos_shape p) as (c & rest & Hs & Hc & Hb).
    rewrite Hs. cbn [String.length]. split.
    + intros [Hlen _].
      pose proof (shape_lower c (String.length rest) 9 ltac:(lia) ltac:(lia))
        as Hp.
      change (10 ^ Z.of_nat 9) with 1000000000 in Hp. lia.
    + intros Hz. split; [|lia].
      destruct (le_lt_dec 9 (String.length rest)) as [Hge | Hlt]; [lia|].
      pose proof (shape_upper c (String.length rest) 8 Hc ltac:(lia)) as Hp.
      change (10 ^ Z.of_nat 8) with 100000000 in Hp. lia.
  - lia.
Qed.

Example formatted_date_yyyymmdd :
  formatted_date utc (token_with (Some 20260113) None None None)
  = Ok (Some "2026-01-13").
Proof. reflexivity. Qed.

Example formatted_date_timestamp_utc :
  formatted_date utc (token_with (Some 1705685808) None None None)
  = Ok (Some "2024-01-19").
Proof. reflexivity. Qed.

Example formatted_date_missing :
  formatted_date utc (token_with None None None None) = Ok None.
Proof. reflexivity. Qed.

(** [datetime.fromtimestamp] gives the date of the process's time zone:
    seven hours east of Greenwich the timestamp [1705685808] falls on the
    20th of January.  The package's test of this date expects the 19th
    and names no time zone. *)
Example formatted_date_timestamp_east :
  formatted_date utc_plus_7 (token_with (Some 1705685808) None None None)
  = Ok (Some "2024-01-20").
Proof. reflexivity. Qed.

(** C5, as stated, fails: the timestamp of the first second of the year
    10000 has 12 digits, all numeric, and its formatted date is [None],
    not the calendar date. *)
Lemma C5_formatted_date_counterexample :
  formatted_date utc (token_with (Some 253402300800) None None None)
  = Ok None
  /\ claimed_formatted_date (Some 253402300800) = Some "10000-01-01".
Proof. split; reflexivity. Qed.

(** What the code computes for a date that fits the platform's time
    type. *)
Lemma formatted_date_local_rule (utcoffset : Z -> Z) (t : Token) (z : Z) :
  date t = Some z -> z <= TIME_T_MAX ->
  formatted_date utcoffset t
  = Ok (date_rule (local_calendar utcoffset) (Some z)).
Proof.
  unfold formatted_date, date_rule. intros -> Hz.
  rewrite get_0_begins_with_2, isdigit_str_int.
  destruct ((String.length (str_int z) =? 8)%nat) eqn:E8; cbn [andb].
  + destruct (begins_with_2 (str_int z)) eqn:E2.
    * apply begins_with_2_nonneg in E2.
      destruct (Z.leb_spec 0 z); [reflexivity | lia].
    * rewrite andb_false_r.
      apply Nat.eqb_eq in E8. rewrite E8. reflexivity.
  + destruct ((10 <=? String.length (str_int z))%nat) eqn:E10; cbn [andb];
      [|reflexivity].
    destruct (Z.leb_spec 0 z) as [Hpos | Hneg]; [|reflexivity].
    rewrite int_of_str_str_int. unfold fromtimestamp, local_calendar.
    assert (Hlo : (z <? - TIME_T_MAX - 1) = false)
      by (apply Z.ltb_ge; unfold TIME_T_MAX; lia).
    assert (Hhi : (TIME_T_MAX <? z) = false) by (apply Z.ltb_ge; lia).
    rewrite Hlo, Hhi. cbn [orb].
    destruct (civil_from_days ((z + utcoffset z) / 86400)) as [[y m] d].
    destruct (Z.ltb_spec y MINYEAR), (Z.leb_spec MINYEAR y); try lia;
      cbn [orb andb]; try reflexivity.
    destruct (Z.ltb_spec MAXYEAR y), (Z.leb_spec y MAXYEAR); try lia;
      reflexivity.
Qed.

Lemma civil_year_from_1970 (days y m d : Z) :
  0 <= days -> civil_from_days days = (y, m, d) -> MINYEAR <= y.
Proof.
  intros Hdays. unfold civil_from_days, MINYEAR.
  set (z := days + 719468).
  set (era := z / 146097).
  set (doe := z - era * 146097).
  set (yoe := (doe - doe / 1460 + doe / 36524 - doe / 146096) / 365).
  assert (Hera : 4 <= era).
  { subst era. apply Z.div_le_lower_bound; [lia|]. subst z. lia. }
  assert (Hdoe : 0 <= doe).
  { subst doe era. pose proof (Z.mul_div_le z 146097 ltac:(lia)). lia. }
  assert (Hyoe : 0 <= yoe).
  { subst yoe. apply Z.div_pos; [|lia].
    pose proof (Z.mul_div_le doe 1460 ltac:(lia)) as H1.
    pose proof (Z.mul_div_le doe 146096 ltac:(lia)) as H2.
    assert (0 <= doe / 1460) by (apply Z.div_pos; lia).
    assert (0 <= doe / 36524) by (apply Z.div_pos; lia).
    assert (0 <= doe / 146096) by (apply Z.div_pos; lia).
    lia. }
  intros [= <- _ _].
  match goal with
  | |- 1 <= (if ?c then _ else _) => destruct c
  end; lia.
Qed.

Lemma local_calendar_same_day (utcoffset : Z -> Z) (z : Z) :
  0 <= z -> same_day_as_utc utcoffset z ->
  local_calendar utcoffset z = calendar_to_9999 z.
Proof.
  intros Hz Hday. unfold local_calendar, calendar_to_9999.
  unfold same_day_as_utc in Hday. rewrite Hday.
  destruct (civil_from_days (z / 86400)) as [[y m] d] eqn:E.
  assert (Hy : MINYEAR <= y).
  { apply (civil_year_from_1970 (z / 86400) y m d); [|exact E].
    apply Z.div_pos; lia. }
  destruct (Z.leb_spec MINYEAR y); [reflexivity | lia].
Qed.

Lemma date_rule_same_day (utcoffset : Z -> Z) (z : Z) :
  (1000000000 <= z -> same_day_as_utc utcoffset z) ->
  date_rule (local_calendar utcoffset) (Some z)
  = amended_formatted_date (Some z).
Proof.
  intros Hday. unfold amended_formatted_date, date_rule.
  destruct (_ && _ && _); [reflexivity|].
  destruct ((10 <=? String.length (str_int z))%nat && isdigit (str_int z))
    eqn:E10; [|reflexivity].
  apply ten_digits_or_more in E10.
  apply local_calendar_same_day; [lia | auto].
Qed.

Lemma calendar_to_9999_cases (z : Z) :
  calendar_to_9999 z = utc_calendar z \/ calendar_to_9999 z = None.
Proof.
  unfold calendar_to_9999, utc_calendar.
  destruct (civil_from_days (z / 86400)) as [[y m] d].
  destruct (y <=? MAXYEAR); auto.
Qed.

(** C5, amended.  The formatted date is: the text [YYYY-MM-DD] cut from
    the decimal representation when it has exactly 8 digits and begins
    with [2], that is for a date from 20000000 to 29999999; the calendar
    date of the value read as a Unix timestamp when the representation
    has 10 digits or more, that is for a date from 1000000000 on, and the
    year of that date is at most 9999; and [None] otherwise, also when
    the date is [None] and when the year of the timestamp is beyond 9999.
    The rule differs from the one of the claim in that last case only.
    The statement covers every date but two kinds of timestamp, of which
    it says nothing: one that does not fit the platform's time type, and
    one whose calendar day in the time zone of the process is not its
    calendar day in UTC. *)
Theorem C5_formatted_date_amended :
  forall (utcoffset : Z -> Z) (t : Token),
    ((forall z, date t = Some z -> 1000000000 <= z ->
        z <= TIME_T_MAX /\ same_day_as_utc utcoffset z) ->
     formatted_date utcoffset t = Ok (amended_formatted_date (date t)))
    /\ (date t = None -> formatted_date utcoffset t = Ok None)
    /\ (forall z, date t = Some z -> 20000000 <= z <= 29999999 ->
        formatted_date utcoffset t
        = Ok (Some (slice 0 4 (str_int z) ++ "-" ++ slice 4 6 (str_int z)
                    ++ "-" ++ slice 6 8 (str_int z))))
    /\ (forall z, date t = Some z -> 1000000000 <= z <= TIME_T_MAX ->
        same_day_as_utc utcoffset z ->
        formatted_date utcoffset t = Ok (calendar_to_9999 z))
    /\ (forall z, date t = Some z ->
        z < 20000000 \/ 30000000 <= z < 1000000000 ->
        formatted_date utcoffset t = Ok None)
    /\ (forall d,
          amended_formatted_date d = claimed_formatted_date d
          \/ (amended_formatted_date d = None
              /\ exists z y m dd,
                   d = Some z /\ 1000000000 <= z
                   /\ civil_from_days (z / 86400) = (y, m, dd)
                   /\ MAXYEAR < y)).
Proof.
  intros utcoffset t.
  assert (Hmax : 1000000000 < TIME_T_MAX) by (unfold TIME_T_MAX; lia).
  assert (Hrule : forall z, date t = Some z ->
            (1000000000 <= z ->
             z <= TIME_T_MAX /\ same_day_as_utc utcoffset z) ->
            formatted_date utcoffset t = Ok (amended_formatted_date (Some z))).
  { intros z Hd Hz.
    rewrite (formatted_date_local_rule utcoffset t z Hd).
    - f_equal. apply date_rule_same_day. intros Hbig. now apply Hz.
    - destruct (Z.le_gt_cases 1000000000 z) as [Hbig | Hsmall];
        [now apply Hz | lia]. }
  split; [|split; [|split; [|split; [|split]]]].
  - intros Hz. destruct (date t) as [z|] eqn:Hd.
    + apply Hrule; [reflexivity|]. intros Hbig. now apply Hz.
    + unfold formatted_date. now rewrite Hd.
  - unfold formatted_date. now intros ->.
  - intros z Hd Hz. rewrite (Hrule z Hd) by lia.
    unfold amended_formatted_date, date_rule.
    destruct (proj2 (eight_digits_from_2 z) Hz) as [Hlen H2].
    rewrite Hlen, H2, isdigit_str_int.
    destruct (Z.leb_spec 0 z); [reflexivity | lia].
  - intros z Hd Hz Hday. rewrite (Hrule z Hd) by (intros _; split; [lia | exact Hday]).
    unfold amended_formatted_date, date_rule.
    destruct ((String.length (str_int z) =? 8)%nat
              && isdigit (str_int z) && begins_with_2 (str_int z)) eqn:E8.
    + apply andb_true_iff in E8. destruct E8 as [E8 H2].
      apply andb_true_iff in E8. destruct E8 as [Hlen _].
      apply Nat.eqb_eq in Hlen.
      pose proof (proj1 (eight_digits_from_2 z) (conj Hlen H2)). lia.
    + now rewrite (proj2 (ten_digits_or_more z)) by lia.
  - intros z Hd Hz. rewrite (Hrule z Hd) by lia.
    unfold amended_formatted_date, date_rule.
    destruct ((String.length (str_int z) =? 8)%nat
              && isdigit (str_int z) && begins_with_2 (str_int z)) eqn:E8.
    + apply andb_true_iff in E8. destruct E8 as [E8 H2].
      apply andb_true_iff in E8. destruct E8 as [Hlen _].
      apply Nat.eqb_eq in Hlen.
      pose proof (proj1 (eight_digits_from_2 z) (conj Hlen H2)). lia.
    + destruct ((10 <=? String.length (str_int z))%nat
                && isdigit (str_int z)) eqn:E10; [|reflexivity].
      pose proof (proj1 (ten_digits_or_more z) E10). lia.
  - intros [z|]; [|now left].
    unfold amended_formatted_date, claimed_formatted_date, date_rule.
    destruct (_ && _ && _); [now left|].
    destruct ((10 <=? String.length (str_int z))%nat && isdigit (str_int z))
      eqn:E10; [|now left].
    apply ten_digits_or_more in E10.
    unfold calendar_to_9999, utc_calendar.
    destruct (civil_from_days (z / 86400)) as [[y m] dd] eqn:E.
    destruct (Z.leb_spec y MAXYEAR); [now left|].
    right. split; [reflexivity|]. exists z, y, m, dd. auto.
Qed.

(** The timestamp [1705685808] formats as [2024-01-19] in UTC, and so
    does a timestamp of the morning of that day seven hours east of
    Greenwich; [20260113] formats as [2026-01-13] in any zone; the first
    second of the year 10000 has no formatted date. *)
Lemma C5_formatted_date_amended_witness :
  formatted_date utc (token_with (Some 1705685808) None None None)
  = Ok (Some "2024-01-19")
  /\ formatted_date utc_plus_7 (token_with (Some 1705626000) None None None)
     = Ok (Some "2024-01-19")
  /\ formatted_date utc_plus_7 (token_with (Some 20260113) None None None)
     = Ok (Some "2026-01-13")
  /\ formatted_date utc (token_with (Some 253402300800) None None None)
     = Ok None.
Proof.
  split; [|split; [|split]].
  - refine (eq_trans
              (proj1 (C5_formatted_date_amended utc
                        (token_with (Some 1705685808) None None None)) _) _).
    + intros z [= <-] _. split; [unfold TIME_T_MAX; lia | reflexivity].
    + reflexivity.
  - refine (eq_trans
              (proj1 (C5_formatted_date_amended utc_plus_7
                        (token_with (Some 1705626000) None None None)) _) _).
    + intros z [= <-] _. split; [unfold TIME_T_MAX; lia | reflexivity].
    + reflexivity.
  - refine (eq_trans
              (proj1 (C5_formatted_date_amended utc_plus_7
                        (token_with (Some 20260113) None None None)) _) _).
    + intros z [= <-] Hbig. lia.
    + reflexivity.
  - refine (eq_trans
              (proj1 (C5_formatted_date_amended utc
                        (token_with (Some 253402300800) None None None)) _) _).
    + intros z [= <-] _. split; [unfold TIME_T_MAX; lia | reflexivity].
    + reflexivity.
Defined.

(** ** Aggregation of the sources *)

Lemma length_append (s1 s2 : string) :
  String.length (s1 ++ s2) = (String.length s1 + String.length s2)%nat.
Proof. induction s1 as [|c s1 IH]; simpl; auto. Qed.

Lemma append_inj_l (s1 s2 t : string) : s1 ++ t = s2 ++ t -> s1 = s2.
Proof.
  revert s2. induction s1 as [|c s1 IH]; intros [|c2 s2] Heq; simpl in Heq.
  - reflexivity.
  - apply (f_equal String.length) in Heq. simpl in Heq.
    rewrite length_append in Heq. lia.
  - apply (f_equal String.length) in Heq. simpl in Heq.
    rewrite length_append in Heq. lia.
  - injection Heq as -> Heq. f_equal. now apply IH.
Qed.

Lemma In_dict_set {V : Type} (k k0 : string) (v v0 : V) (d : pydict V) :
  In (k, v) (dict_set k0 v0 d) -> (k = k0 /\ v = v0) \/ In (k, v) d.
Proof.
  induction d as [|[k' v'] d IH]; simpl.
  - intros [[= <- <-] | []]. now left.
  - destruct (String.eqb k0 k') eqn:E; simpl.
    + apply String.eqb_eq in E. subst k'.
      intros [[= <- <-] | Hin]; [now left | right; now right].
    + intros [Heq | Hin]; [right; now left|].
      destruct (IH Hin) as [? | ?]; [now left | right; now right].
Qed.

Lemma aggregate_as_fold (cd : chain_data) (sources : list Source) :
  aggregate_tokens_from_sources cd sources
  = fold_left set_token (all_yielded cd sources) [].
Proof.
  unfold aggregate_tokens_from_sources, all_yielded.
  generalize (@nil (string * RawToken)) as acc.
  induction sources as [|s sources IH]; intros acc; simpl; [reflexivity|].
  rewrite fold_left_app. apply IH.
Qed.

Lemma fold_set_token_keys (l : list RawToken) (acc : pydict RawToken) :
  (forall k t, In (k, t) acc -> k = aggregate_key t) ->
  forall k t, In (k, t) (fold_left set_token l acc) -> k = aggregate_key t.
Proof.
  revert acc. induction l as [|x l IH]; intros acc Hacc; simpl; [exact Hacc|].
  apply IH. intros k t Hin. unfold set_token in Hin.
  apply In_dict_set in Hin. destruct Hin as [[-> ->] | Hin]; auto.
Qed.

Lemma fold_set_token_get (l : list RawToken) (acc : pydict RawToken)
    (t0 : RawToken) :
  In t0 l ->
  (forall t, In t l -> aggregate_key t = aggregate_key t0 -> t = t0) ->
  dict_get (aggregate_key t0) (fold_left set_token l acc) = Some t0.
Proof.
  induction l as [|x l IH] using rev_ind; intros Hin Huniq; [destruct Hin|].
  rewrite fold_left_app. simpl. unfold set_token at 1.
  destruct (string_dec (aggregate_key x) (aggregate_key t0)) as [Hk | Hk].
  - rewrite Hk, dict_get_set_eq. f_equal. apply Huniq; auto.
    apply in_or_app. right. now left.
  - rewrite dict_get_set_ne by assumption. apply IH.
    + apply in_app_or in Hin. destruct Hin as [Hin | [-> | []]]; congruence.
    + intros t Ht. apply Huniq. apply in_or_app. now left.
Qed.

Lemma In_all_yielded (cd : chain_data) (sources : list Source) (t : RawToken) :
  In t (all_yielded cd sources) <->
  exists sk id rec,
    present cd sources sk id rec /\ t = parse_token id rec sk.
Proof.
  unfold all_yielded, present, iter_tokens_from_source.
  rewrite in_flat_map. split.
  - intros (s & Hs & Hin). apply in_map_iff in Hin.
    destruct Hin as ([id rec] & <- & Hin).
    exists (chain_data_key s), id, rec. split; [|reflexivity].
    exists s. auto.
  - intros (sk & id & rec & (s & Hs & <- & Hin) & ->).
    exists s. split; [assumption|]. apply in_map_iff.
    exists (id, rec). auto.
Qed.

(** C3, as stated, fails: with three sources of distinct keys, the token
    [v2_7] of the source [rail] has the same raw id as a token of the
    source [other], and is not retrievable: its composite key holds the
    token [7] of the source [rail_v2]. *)
Lemma C3_aggregate_counterexample :
  NoDup (map chain_data_key ambiguous_sources)
  /\ sources_wf ambiguous_dump ambiguous_sources
  /\ dict_get "rail_v2_7"
       (aggregate_tokens_from_sources ambiguous_dump ambiguous_sources)
     = Some (parse_token "7" (owned_by "0x222") "rail_v2")
  /\ ~ all_retrievable ambiguous_dump ambiguous_sources.
Proof.
  split; [|split; [|split]].
  - simpl. repeat constructor; simpl; intuition discriminate.
  - intros s [<- | [<- | [<- | []]]]; unfold wf_dict; simpl;
      repeat constructor; simpl; tauto.
  - reflexivity.
  - intros H.
    specialize (H (mkSource "Rail" "rail" "10" EmptyString)
                  [("v2_7", owned_by "0x111")] "v2_7" (owned_by "0x111")
                  (or_introl eq_refl) eq_refl eq_refl).
    discriminate H.
Qed.

(** C3, amended.  When no two tokens of the dump have the same composite
    key without having the same source key and the same id: the aggregated
    mapping keys every token by [sourceKey + "_" + tokenId]; two tokens
    with the same raw id from sources with different keys have different
    composite keys; every token of every source is retrievable under its
    own composite key, so none overwrites another; and a source whose key
    is missing from the dump yields no token. *)
Theorem C3_aggregate_amended :
  forall (cd : chain_data) (sources : list Source),
    sources_wf cd sources ->
    unambiguous_keys cd sources ->
    (forall k t,
       In (k, t) (aggregate_tokens_from_sources cd sources) ->
       k = raw_source_key t ++ "_" ++ raw_token_id t)
    /\ (forall s1 s2 id,
          chain_data_key s1 <> chain_data_key s2 ->
          chain_data_key s1 ++ "_" ++ id <> chain_data_key s2 ++ "_" ++ id)
    /\ all_retrievable cd sources
    /\ (forall s, dict_get (chain_data_key s) cd = None ->
          iter_tokens_from_source cd s = []).
Proof.
  intros cd sources Hwf Hunamb. split; [|split; [|split]].
  - rewrite aggregate_as_fold. apply fold_set_token_keys. intros k t [].
  - intros s1 s2 id Hne Heq. apply Hne. eapply append_inj_l. exact Heq.
  - intros s sd id rec Hs Hsd Hrec.
    assert (Hpresent : present cd sources (chain_data_key s) id rec).
    { exists s. repeat split; auto.
      unfold dict_get_default, chain_data, record, pydict in *.
      rewrite Hsd. now apply dict_get_In. }
    rewrite aggregate_as_fold.
    change (chain_data_key s ++ "_" ++ id)
      with (aggregate_key (parse_token id rec (chain_data_key s))).
    apply fold_set_token_get.
    + apply In_all_yielded. eauto.
    + intros t Ht Hkey. apply In_all_yielded in Ht.
      destruct Ht as (sk' & id' & rec' & Hp' & ->).
      unfold aggregate_key in Hkey. simpl in Hkey.
      destruct (Hunamb _ _ _ _ _ _ Hp' Hpresent Hkey) as [-> ->].
      f_equal.
      destruct Hp' as (s' & Hs' & Hk' & Hin').
      specialize (Hwf s' Hs'). rewrite Hk' in Hwf.
      apply (In_dict_get _ _ _ Hwf) in Hin'.
      unfold dict_get_default, chain_data, record, pydict in *.
      rewrite Hsd in Hin'. congruence.
  - intros s Hnone.
    unfold iter_tokens_from_source, dict_get_default, chain_data, record,
      pydict in *.
    now rewrite Hnone.
Qed.

Lemma has_underscore_app (s1 s2 : string) :
  has_underscore (s1 ++ String "_" s2) = true.
Proof.
  induction s1 as [|c s1 IH]; simpl; [reflexivity|].
  rewrite IH. apply orb_true_r.
Qed.

Lemma composite_key_inj (sk sk' id id' : string) :
  has_underscore id = false ->
  has_underscore id' = false ->
  sk ++ "_" ++ id = sk' ++ "_" ++ id' ->
  sk = sk' /\ id = id'.
Proof.
  intros Hid Hid'. revert sk'.
  induction sk as [|c sk IH]; intros [|c' sk'] Heq; simpl in Heq.
  - injection Heq as Heq. auto.
  - injection Heq as <- Heq. rewrite Heq, has_underscore_app in Hid.
    discriminate.
  - injection Heq as -> Heq. rewrite <- Heq, has_underscore_app in Hid'.
    discriminate.
  - injection Heq as -> Heq. destruct (IH _ Heq) as [-> ->]. auto.
Qed.

(** The keys are unambiguous when no token id has an underscore. *)
Lemma no_underscore_unambiguous (cd : chain_data) (sources : list Source) :
  (forall sk id rec, present cd sources sk id rec -> has_underscore id = false) ->
  unambiguous_keys cd sources.
Proof.
  intros Hno sk id rec sk' id' rec' Hp Hp' Heq.
  eapply composite_key_inj; eauto.
Qed.

Lemma same_id_unambiguous : unambiguous_keys same_id_dump same_id_sources.
Proof.
  apply no_underscore_unambiguous.
  intros sk id rec (s & Hs & <- & Hin). simpl in Hs.
  destruct Hs as [<- | [<- | []]]; simpl in Hin;
    destruct Hin as [[= <- <-] | []]; reflexivity.
Qed.

Lemma same_id_wf : sources_wf same_id_dump same_id_sources.
Proof.
  intros s [<- | [<- | []]]; unfold wf_dict; simpl;
    repeat constructor; simpl; tauto.
Qed.

(** The package's own collision test: both tokens with id [1] are found. *)
Lemma C3_aggregate_amended_witness :
  dict_get "blueRailroads_1"
    (aggregate_tokens_from_sources same_id_dump same_id_sources)
  = Some (parse_token "1" (owned_by "0x111") "blueRailroads")
  /\ iter_tokens_from_source same_id_dump
       (mkSource "V3" "blueRailroadV3s" "10" EmptyString) = [].
Proof.
  destruct (C3_aggregate_amended same_id_dump same_id_sources
              same_id_wf same_id_unambiguous) as (_ & _ & Hget & Hmissing).
  split.
  - exact (Hget (mkSource "V1" "blueRailroads" "10" EmptyString)
             [("1", owned_by "0x111")] "1" (owned_by "0x111")
             (or_introl eq_refl) eq_refl eq_refl).
  - exact (Hmissing (mkSource "V3" "blueRailroadV3s" "10" EmptyString)
             eq_refl).
Defined.

(** ** Sorting *)

Section SortedFacts.
Context {A K : Type}.
Variable leb : K -> K -> bool.
Variable key : A -> K.
Variable reverse : bool.
Hypothesis leb_total : forall x y, leb x y = true \/ leb y x = true.
Hypothesis leb_trans :
  forall x y z, leb x y = true -> leb y z = true -> leb x z = true.

Local Abbreviation before := (sorted_before leb key reverse).

Lemma before_total (x y : A) :
  goes_before leb key reverse x y = false -> before y x.
Proof.
  unfold sorted_before, goes_before. destruct reverse; intros Hf.
  - destruct (leb_total (key y) (key x)); congruence.
  - destruct (leb_total (key x) (key y)); congruence.
Qed.

Lemma before_trans (x y z : A) : before x y -> before y z -> before x z.
Proof.
  unfold sorted_before, goes_before. destruct reverse; eauto.
Qed.

Lemma insert_sorted_perm (x : A) (l : list A) :
  Permutation (x :: l) (insert_sorted leb key reverse x l).
Proof.
  induction l as [|y l IH]; simpl; [reflexivity|].
  destruct (goes_before leb key reverse x y); [reflexivity|].
  rewrite perm_swap. now apply perm_skip.
Qed.

Lemma py_sorted_perm (l : list A) :
  Permutation l (py_sorted leb key reverse l).
Proof.
  induction l as [|x l IH]; simpl; [reflexivity|].
  rewrite <- insert_sorted_perm. now apply perm_skip.
Qed.

Lemma insert_sorted_sorted (x : A) (l : list A) :
  StronglySorted before l ->
  StronglySorted before (insert_sorted leb key reverse x l).
Proof.
  induction 1 as [|y l Hl IH Hy]; simpl.
  - repeat constructor.
  - destruct (goes_before leb key reverse x y) eqn:E.
    + constructor; [now constructor|].
      constructor; [exact E|].
      eapply Forall_impl; [|exact Hy].
      intros z Hz. eapply before_trans; eauto.
    + constructor; [exact IH|].
      eapply Permutation_Forall; [apply insert_sorted_perm|].
      constructor; [now apply before_total | exact Hy].
Qed.

Lemma py_sorted_sorted (l : list A) :
  StronglySorted before (py_sorted leb key reverse l).
Proof.
  induction l as [|x l IH]; simpl; [constructor|].
  now apply insert_sorted_sorted.
Qed.
End SortedFacts.

Lemma StronglySorted_weaken {A : Type} (R R' : A -> A -> Prop) (l : list A) :
  (forall a b, R a b -> R' a b) -> StronglySorted R l -> StronglySorted R' l.
Proof.
  intros Himp. induction 1 as [|a l Hl IH Ha]; constructor; auto.
  eapply Forall_impl; [|exact Ha]. auto.
Qed.

Lemma StronglySorted_suffix {A : Type} (R : A -> A -> Prop) (l1 l2 : list A) :
  StronglySorted R (l1 ++ l2) -> StronglySorted R l2.
Proof.
  induction l1 as [|a l1 IH]; simpl; [auto|].
  intros H. apply StronglySorted_inv in H. now apply IH.
Qed.

Lemma Zleb_total (x y : Z) : (x <=? y) = true \/ (y <=? x) = true.
Proof. rewrite !Z.leb_le. lia. Qed.

Lemma Zleb_trans (x y z : Z) :
  (x <=? y) = true -> (y <=? z) = true -> (x <=? z) = true.
Proof. rewrite !Z.leb_le. lia. Qed.

Lemma number_leb_total (x y : number) :
  number_leb x y = true \/ number_leb y x = true.
Proof. destruct x, y; simpl; auto. apply Zleb_total. Qed.

Lemma number_leb_trans (x y z : number) :
  number_leb x y = true -> number_leb y z = true -> number_leb x z = true.
Proof.
  destruct x, y, z; simpl; auto; try discriminate. apply Zleb_trans.
Qed.

Lemma oldest_key_order (stats : pydict OwnerStats) (a b : string) :
  number_leb (oldest_key stats a) (oldest_key stats b) = true
  <-> by_oldest_asc stats a b.
Proof.
  unfold oldest_key, by_oldest_asc.
  destruct (Z.eqb_spec (oldest_date (stats_at stats a)) 0) as [Ha | Ha];
    destruct (Z.eqb_spec (oldest_date (stats_at stats b)) 0) as [Hb | Hb];
    simpl; rewrite ?Z.leb_le; intuition (try lia; try discriminate).
Qed.

(** C8.  [sort_owners] returns the owner addresses, each once, ordered by
    descending token count in the mode [count] and in any mode that is
    neither [newest] nor [oldest], by descending newest date in the mode
    [newest], and by ascending oldest date in the mode [oldest], where an
    owner whose oldest date is zero comes after every owner that has
    one. *)
Theorem C8_sort_owners :
  forall (stats : pydict OwnerStats) (sort_by : string),
    Permutation (dict_keys stats) (sort_owners stats sort_by)
    /\ (sort_by = "newest" ->
        StronglySorted (by_newest_desc stats) (sort_owners stats sort_by))
    /\ (sort_by = "oldest" ->
        StronglySorted (by_oldest_asc stats) (sort_owners stats sort_by))
    /\ (sort_by <> "newest" -> sort_by <> "oldest" ->
        StronglySorted (by_count_desc stats) (sort_owners stats sort_by)
        /\ sort_owners stats sort_by = sort_owners stats "count")
    /\ (forall a b before between after,
          sort_owners stats "oldest"
          = (before ++ a :: between ++ b :: after)%list ->
          oldest_date (stats_at stats a) = 0 ->
          oldest_date (stats_at stats b) = 0).
Proof.
  intros stats sort_by.
  assert (Hold : StronglySorted (by_oldest_asc stats)
                   (sort_owners stats "oldest")).
  { unfold sort_owners. simpl.
    eapply StronglySorted_weaken;
      [|apply (py_sorted_sorted number_leb (oldest_key stats) false
                 number_leb_total number_leb_trans)].
    intros a b Hab. apply oldest_key_order. exact Hab. }
  split; [|split; [|split; [|split]]].
  - unfold sort_owners.
    destruct (String.eqb sort_by "newest");
      [|destruct (String.eqb sort_by "oldest")]; apply py_sorted_perm.
  - intros ->. unfold sort_owners. simpl.
    eapply StronglySorted_weaken;
      [|apply (py_sorted_sorted Z.leb
                 (fun a => newest_date (stats_at stats a)) true
                 Zleb_total Zleb_trans)].
    intros a b Hab. unfold by_newest_desc. apply Z.leb_le. exact Hab.
  - intros ->. exact Hold.
  - intros Hn Ho. apply String.eqb_neq in Hn, Ho.
    unfold sort_owners. rewrite Hn, Ho. simpl. split; [|reflexivity].
    eapply StronglySorted_weaken;
      [|apply (py_sorted_sorted Z.leb
                 (fun a => token_count (stats_at stats a)) true
                 Zleb_total Zleb_trans)].
    intros a b Hab. unfold by_count_desc. apply Z.leb_le. exact Hab.
  - intros a b before between after Heq Ha.
    rewrite Heq in Hold.
    apply StronglySorted_suffix in Hold.
    apply StronglySorted_inv in Hold. destruct Hold as [_ Hall].
    rewrite Forall_forall in Hall.
    assert (Hb : by_oldest_asc stats a b).
    { apply Hall. apply in_or_app. right. now left. }
    unfold by_oldest_asc in Hb. simpl in Hb. lia.
Qed.

Example sort_owners_sample :
  sort_owners sample_stats "count" = ["0xAlice"; "0xCarol"; "0xBob"]
  /\ sort_owners sample_stats "newest" = ["0xAlice"; "0xBob"; "0xCarol"]
  /\ sort_owners sample_stats "oldest" = ["0xAlice"; "0xBob"; "0xCarol"]
  /\ sort_owners sample_stats "score" = ["0xAlice"; "0xCarol"; "0xBob"].
Proof. repeat split; reflexivity. Qed.

Lemma C8_sort_owners_witness :
  StronglySorted (by_newest_desc sample_stats)
    (sort_owners sample_stats "newest")
  /\ StronglySorted (by_oldest_asc sample_stats)
       (sort_owners sample_stats "oldest")
  /\ StronglySorted (by_count_desc sample_stats)
       (sort_owners sample_stats "score")
  /\ oldest_date (stats_at sample_stats "0xCarol") = 0.
Proof.
  split; [|split; [|split]].
  - exact (proj1 (proj2 (C8_sort_owners sample_stats "newest")) eq_refl).
  - exact (proj1 (proj2 (proj2 (C8_sort_owners sample_stats "oldest")))
             eq_refl).
  - refine (proj1 (proj1 (proj2 (proj2 (proj2
              (C8_sort_owners sample_stats "score")))) _ _));
      discriminate.
  - reflexivity.
Defined.

(** ** Owner statistics *)

Lemma stats_step_get (a : string) (stats : pydict OwnerStats)
    (item : string * Token) :
  a <> EmptyString ->
  dict_get a (stats_step stats item)
  = if String.eqb (owner (snd item)) a
    then bucket_step a (dict_get a stats) (snd item)
    else dict_get a stats.
Proof.
  intros Ha. destruct item as [key t]. unfold stats_step; simpl.
  destruct (truthy_str (owner t)) eqn:Etr; simpl.
  - destruct (String.eqb_spec (owner t) a) as [Heq | Hne].
    + rewrite Heq. rewrite dict_get_alter_eq. unfold bucket_step, dict_mem.
      destruct (dict_get a stats) as [s|] eqn:Eg; simpl.
      * now rewrite Eg.
      * now rewrite dict_get_set_eq.
    + rewrite dict_get_alter_ne by assumption.
      destruct (dict_mem (owner t) stats); simpl; [reflexivity|].
      now rewrite dict_get_set_ne.
  - apply truthy_str_false in Etr.
    destruct (String.eqb_spec (owner t) a); [congruence | reflexivity].
Qed.

Lemma stats_step_get_empty (stats : pydict OwnerStats)
    (item : string * Token) :
  dict_get EmptyString (stats_step stats item) = dict_get EmptyString stats.
Proof.
  destruct item as [key t]. unfold stats_step.
  destruct (truthy_str (owner t)) eqn:Etr; simpl; [|reflexivity].
  assert (Hne : owner t <> EmptyString)
    by (intros H; rewrite H in Etr; discriminate).
  rewrite dict_get_alter_ne by assumption.
  destruct (dict_mem (owner t) stats); simpl; [reflexivity|].
  now rewrite dict_get_set_ne.
Qed.

Lemma fold_stats_step_get (a : string) (tokens : pydict Token)
    (stats : pydict OwnerStats) :
  a <> EmptyString ->
  dict_get a (fold_left stats_step tokens stats)
  = fold_left (bucket_step a) (tokens_of_owner a tokens) (dict_get a stats).
Proof.
  intros Ha. revert stats.
  induction tokens as [|[key t] tokens IH]; intros stats; [reflexivity|].
  change (fold_left stats_step ((key, t) :: tokens) stats)
    with (fold_left stats_step tokens (stats_step stats (key, t))).
  rewrite IH, stats_step_get by assumption.
  unfold tokens_of_owner. cbn [dict_values map filter snd].
  destruct (String.eqb (owner t) a); reflexivity.
Qed.

Lemma fold_stats_step_get_empty (tokens : pydict Token)
    (stats : pydict OwnerStats) :
  dict_get EmptyString (fold_left stats_step tokens stats)
  = dict_get EmptyString stats.
Proof.
  revert stats. induction tokens as [|item tokens IH]; intros stats;
    [reflexivity|].
  simpl. now rewrite IH, stats_step_get_empty.
Qed.

Lemma add_token_fields (id : string) (d : Z) (s : OwnerStats) :
  address (add_token id (Some d) s) = address s
  /\ display_name (add_token id (Some d) s) = display_name s
  /\ token_count (add_token id (Some d) s) = token_count s + 1
  /\ token_ids (add_token id (Some d) s) = (token_ids s ++ [id])%list
  /\ newest_date (add_token id (Some d) s)
     = (if d =? 0 then newest_date s else Z.max (newest_date s) d)
  /\ oldest_date (add_token id (Some d) s) = oldest_step (oldest_date s) d.
Proof.
  unfold add_token, oldest_step, truthy_int.
  destruct (Z.eqb_spec d 0); simpl; repeat split; try reflexivity.
  destruct (Z.ltb_spec (newest_date s) d); lia.
Qed.

Lemma fold_bucket_step (a : string) (ts : list Token) (s0 : OwnerStats) :
  exists s,
    fold_left (bucket_step a) ts (Some s0) = Some s
    /\ address s = address s0
    /\ display_name s = display_name s0
    /\ token_count s = token_count s0 + Z.of_nat (List.length ts)
    /\ token_ids s = (token_ids s0 ++ map token_id ts)%list
    /\ newest_date s
       = fold_left Z.max (truthy_dates (map date_val ts)) (newest_date s0)
    /\ oldest_date s = fold_left oldest_step (map date_val ts) (oldest_date s0).
Proof.
  revert s0. induction ts as [|t ts IH]; intros s0.
  - exists s0. simpl. rewrite app_nil_r. repeat split; lia.
  - simpl fold_left at 1. unfold bucket_step at 2.
    destruct (IH (add_token (token_id t) (Some (date_val t)) s0))
      as (s & Hs & Haddr & Hname & Hcount & Hids & Hnew & Hold).
    destruct (add_token_fields (token_id t) (date_val t) s0)
      as (Ea & En & Ec & Ei & Enew & Eold).
    exists s. split; [exact Hs|].
    rewrite Haddr, Hname, Hcount, Hids, Hnew, Hold, Ea, En, Ec, Ei, Enew, Eold.
    repeat split.
    + change (List.length (t :: ts)) with (S (List.length ts)). lia.
    + simpl. now rewrite <- app_assoc.
    + simpl. destruct (Z.eqb_spec (date_val t) 0); reflexivity.
Qed.

Lemma fold_oldest_step_from (dates : list Z) (o : Z) :
  o <> 0 ->
  fold_left oldest_step dates o = fold_left Z.min (truthy_dates dates) o.
Proof.
  revert o. induction dates as [|d dates IH]; intros o Ho; [reflexivity|].
  simpl. unfold oldest_step at 2.
  destruct (Z.eqb_spec d 0) as [Hd | Hd]; simpl; [now apply IH|].
  destruct (Z.eqb_spec o 0) as [|_]; [contradiction|]. simpl.
  destruct (Z.ltb_spec d o).
  - rewrite IH by assumption. f_equal. lia.
  - rewrite IH by assumption. f_equal. lia.
Qed.

Lemma fold_oldest_step_0 (dates : list Z) :
  fold_left oldest_step dates 0 = oldest_of dates.
Proof.
  unfold oldest_of. induction dates as [|d dates IH]; [reflexivity|].
  simpl. unfold oldest_step at 2.
  destruct (Z.eqb_spec d 0) as [Hd | Hd]; simpl; [exact IH|].
  now apply fold_oldest_step_from.
Qed.

Lemma truthy_dates_all_zero (dates : list Z) :
  Forall (fun d => d = 0) dates -> truthy_dates dates = [].
Proof.
  induction 1 as [|d dates Hd _ IH]; [reflexivity|].
  simpl. subst d. exact IH.
Qed.

Lemma truthy_dates_snoc_zero (dates : list Z) :
  truthy_dates (dates ++ [0]) = truthy_dates dates.
Proof.
  unfold truthy_dates. rewrite filter_app. simpl. apply app_nil_r.
Qed.

Lemma owner_bucket (tokens : pydict Token) (a : string) (t : Token)
    (rest : list Token) :
  a <> EmptyString ->
  tokens_of_owner a tokens = t :: rest ->
  exists s,
    dict_get a (calculate_owner_stats tokens) = Some s
    /\ address s = a
    /\ display_name s = owner_display t
    /\ token_count s = Z.of_nat (List.length (t :: rest))
    /\ token_ids s = map token_id (t :: rest)
    /\ newest_date s = newest_of (map date_val (t :: rest))
    /\ oldest_date s = oldest_of (map date_val (t :: rest)).
Proof.
  intros Ha Hts. unfold calculate_owner_stats.
  rewrite fold_stats_step_get by assumption. rewrite Hts.
  simpl fold_left at 1. unfold bucket_step at 2. simpl dict_get.
  destruct (fold_bucket_step a rest
              (add_token (token_id t) (Some (date_val t))
                 (OwnerStats_init a (owner_display t))))
    as (s & Hs & Haddr & Hname & Hcount & Hids & Hnew & Hold).
  destruct (add_token_fields (token_id t) (date_val t)
              (OwnerStats_init a (owner_display t)))
    as (Ea & En & Ec & Ei & Enew & Eold).
  exists s. split; [exact Hs|].
  rewrite Haddr, Hname, Hcount, Hids, Hnew, Hold, Ea, En, Ec, Ei, Enew, Eold.
  simpl address. simpl display_name. simpl token_count. simpl token_ids.
  simpl newest_date. simpl oldest_date.
  repeat split.
  - change (List.length (t :: rest)) with (S (List.length rest)). lia.
  - unfold newest_of. simpl.
    destruct (Z.eqb_spec (date_val t) 0); reflexivity.
  - change (fold_left oldest_step (map date_val rest)
              (oldest_step 0 (date_val t)))
      with (fold_left oldest_step (map date_val (t :: rest)) 0).
    apply fold_oldest_step_0.
Qed.

(** C7.  [calculate_owner_stats] makes no bucket for a token whose owner is
    empty, and one bucket for each other owner address; the bucket takes
    its display name from the first token of the address in iteration
    order, whatever the later ones carry, counts every token of the address
    and lists its id, in order.  The date value of a token is its date if
    truthy, else its block height, else 0; the newest date is the running
    maximum and the oldest date the minimum of the truthy date values, so
    a zero value moves neither, and both are 0 when no value was truthy.
    [add_token] itself increments the count and appends the id whatever
    the date, and leaves both extremes alone for a date that is [None] or
    zero. *)
Theorem C7_owner_stats :
  forall (tokens : pydict Token) (a : string),
    let stats := calculate_owner_stats tokens in
    let ts := tokens_of_owner a tokens in
    dict_get EmptyString stats = None
    /\ (ts = [] -> dict_get a stats = None)
    /\ (forall t rest, a <> EmptyString -> ts = t :: rest ->
        exists s,
          dict_get a stats = Some s
          /\ address s = a
          /\ display_name s = owner_display t
          /\ token_count s = Z.of_nat (List.length ts)
          /\ token_ids s = map token_id ts
          /\ newest_date s = newest_of (map date_val ts)
          /\ oldest_date s = oldest_of (map date_val ts))
    /\ (forall dates,
          newest_of (dates ++ [0]) = newest_of dates
          /\ oldest_of (dates ++ [0]) = oldest_of dates
          /\ (Forall (fun d => d = 0) dates ->
              newest_of dates = 0 /\ oldest_of dates = 0))
    /\ (forall id date s,
          token_count (add_token id date s) = token_count s + 1
          /\ token_ids (add_token id date s) = (token_ids s ++ [id])%list
          /\ (date = None \/ date = Some 0 ->
              newest_date (add_token id date s) = newest_date s
              /\ oldest_date (add_token id date s) = oldest_date s))
    /\ (forall t,
          date_val t
          = match date t, blockheight t with
            | Some d, Some b => if d =? 0 then b else d
            | Some d, None => d
            | None, Some b => b
            | None, None => 0
            end).
Proof.
  intros tokens a stats ts. subst stats ts. unfold calculate_owner_stats.
  split; [|split; [|split; [|split; [|split]]]].
  - now rewrite fold_stats_step_get_empty.
  - intros Hts. destruct (string_dec a EmptyString) as [-> | Ha].
    + now rewrite fold_stats_step_get_empty.
    + rewrite fold_stats_step_get by assumption. now rewrite Hts.
  - intros t rest Ha Hts. fold (calculate_owner_stats tokens).
    rewrite Hts. now apply owner_bucket.
  - intros dates. unfold newest_of, oldest_of.
    rewrite truthy_dates_snoc_zero.
    split; [reflexivity|]. split; [reflexivity|].
    intros Hall. now rewrite truthy_dates_all_zero.
  - intros id date s. unfold add_token.
    split; [now destruct (truthy_int date)|].
    split; [now destruct (truthy_int date)|].
    intros [-> | ->]; split; reflexivity.
  - intros t. unfold date_val.
    destruct (date t) as [d|], (blockheight t) as [b|]; simpl;
      repeat match goal with
             | |- context [Z.eqb ?x 0] => destruct (Z.eqb_spec x 0)
             end; simpl; congruence.
Qed.

(** Alice's bucket in the sample: the display name of her first token, her
    four tokens, and extremes that her undated token did not move. *)
Lemma C7_owner_stats_witness :
  exists s,
    dict_get "0xAlice" (calculate_owner_stats sample_tokens) = Some s
    /\ display_name s = "alice.eth"
    /\ token_count s = 4
    /\ token_ids s = ["1"; "2"; "5"; "6"]
    /\ newest_date s = 300
    /\ oldest_date s = 100.
Proof.
  destruct (proj1 (proj2 (proj2 (C7_owner_stats sample_tokens "0xAlice")))
              (mkToken "1" "blueRailroads" "0xAlice" "alice.eth" (Some "5")
                 (Some 100) None None None)
              (tl (tokens_of_owner "0xAlice" sample_tokens)))
    as (s & Hs & _ & Hname & Hcount & Hids & Hnew & Hold).
  - discriminate.
  - reflexivity.
  - exists s. split; [exact Hs|].
    split; [exact Hname|]. split; [exact Hcount|]. split; [exact Hids|].
    split; [exact Hnew | exact Hold].
Defined.

(** ** Filtering *)

Lemma filter_step_passes (fs fo : option string) (result : pydict Token)
    (item : string * Token) :
  filter_step fs fo result item
  = if passes fs fo item then dict_set (fst item) (snd item) result
    else result.
Proof.
  destruct item as [key t].
  unfold filter_step, passes, song_passes, owner_passes, truthy_opt,
    song_differs; simpl.
  destruct fs as [f|]; [destruct (truthy_str f)|];
    destruct fo as [g|]; try destruct (truthy_str g); simpl;
    try destruct (song_id t) as [sg|]; simpl;
    try destruct (String.eqb sg f); simpl;
    try destruct (String.eqb (lower (owner t)) (lower g)); reflexivity.
Qed.

Lemma fold_filter_step (fs fo : option string) (tokens acc : pydict Token) :
  NoDup (dict_keys acc ++ dict_keys tokens) ->
  fold_left (filter_step fs fo) tokens acc
  = (acc ++ filter (passes fs fo) tokens)%list.
Proof.
  revert acc. induction tokens as [|[key t] tokens IH]; intros acc Hnd.
  - simpl. now rewrite app_nil_r.
  - cbn [fold_left]. rewrite filter_step_passes. cbn [filter].
    cbn [dict_keys map fst] in Hnd.
    destruct (passes fs fo (key, t)).
    + cbn [fst snd].
      assert (Habs : dict_get key acc = None).
      { apply dict_get_None_keys. intros Hin.
        apply NoDup_remove_2 in Hnd. apply Hnd. apply in_or_app. now left. }
      rewrite (dict_set_absent _ _ _ Habs), IH.
      * now rewrite <- app_assoc.
      * unfold dict_keys in *. rewrite map_app, <- app_assoc. exact Hnd.
    + apply IH. now apply NoDup_remove_1 in Hnd.
Qed.

Lemma filter_tokens_filter (fs fo : option string) (tokens : pydict Token) :
  wf_dict tokens ->
  filter_tokens tokens fs fo = filter (passes fs fo) tokens.
Proof.
  intros Hwf. unfold filter_tokens. now rewrite fold_filter_step.
Qed.

Lemma lower_truthy (s : string) : truthy_str (lower s) = truthy_str s.
Proof. now destruct s. Qed.

Lemma In_tokens_of_owner (tokens : pydict Token) (key : string) (t : Token) :
  In (key, t) tokens -> In t (tokens_of_owner (owner t) tokens).
Proof.
  intros Hin. unfold tokens_of_owner. apply filter_In. split.
  - unfold dict_values. change t with (snd (key, t)). now apply in_map.
  - apply String.eqb_refl.
Qed.

Lemma owner_has_bucket (tokens : pydict Token) (key : string) (t : Token) :
  In (key, t) tokens ->
  owner t <> EmptyString ->
  exists s,
    dict_get (owner t) (calculate_owner_stats tokens) = Some s
    /\ address s = owner t
    /\ In (token_id t) (token_ids s).
Proof.
  intros Hin Hown. pose proof (In_tokens_of_owner _ _ _ Hin) as Hts.
  destruct (tokens_of_owner (owner t) tokens) as [|t0 rest] eqn:E;
    [destruct Hts|].
  destruct (owner_bucket tokens (owner t) t0 rest Hown E)
    as (s & Hs & Haddr & _ & _ & Hids & _).
  exists s. repeat split; auto.
  rewrite Hids. now apply in_map.
Qed.

Example lower_address : lower "0xBoB" = "0xbob".
Proof. reflexivity. Qed.

(** C9.  With a non-empty owner filter, [filter_tokens] keeps exactly the
    tokens whose owner equals the filter up to letter case, in their
    order; [calculate_owner_stats] keys its buckets by the owner string as
    it is.  So two tokens whose owners differ in letter case only both
    pass the filter of either spelling, and each lands in the bucket of
    its own spelling, two buckets under two keys. *)
Theorem C9_filter_and_buckets :
  forall (tokens : pydict Token) (f : string),
    wf_dict tokens ->
    f <> EmptyString ->
    let filtered := filter_tokens tokens None (Some f) in
    filtered
    = filter (fun item => String.eqb (lower (owner (snd item))) (lower f))
        tokens
    /\ (forall key t,
          In (key, t) filtered
          <-> In (key, t) tokens /\ lower (owner t) = lower f)
    /\ (forall key1 t1 key2 t2,
          In (key1, t1) tokens -> In (key2, t2) tokens ->
          owner t1 <> owner t2 ->
          lower (owner t1) = lower f ->
          lower (owner t2) = lower f ->
          In (key1, t1) filtered /\ In (key2, t2) filtered
          /\ exists s1 s2,
               dict_get (owner t1) (calculate_owner_stats filtered) = Some s1
               /\ dict_get (owner t2) (calculate_owner_stats filtered)
                  = Some s2
               /\ address s1 = owner t1 /\ address s2 = owner t2
               /\ address s1 <> address s2
               /\ In (token_id t1) (token_ids s1)
               /\ In (token_id t2) (token_ids s2)).
Proof.
  intros tokens f Hwf Hf filtered. subst filtered.
  assert (Htr : truthy_str f = true) by (destruct f; [congruence | reflexivity]).
  assert (Hfilter :
    filter_tokens tokens None (Some f)
    = filter (fun item => String.eqb (lower (owner (snd item))) (lower f))
        tokens).
  { rewrite filter_tokens_filter by assumption.
    apply filter_ext. intros [key t].
    unfold passes, song_passes, owner_passes. simpl. now rewrite Htr. }
  assert (Hin : forall key t,
    In (key, t) (filter_tokens tokens None (Some f))
    <-> In (key, t) tokens /\ lower (owner t) = lower f).
  { intros key t. rewrite Hfilter, filter_In. simpl.
    now rewrite String.eqb_eq. }
  split; [exact Hfilter|]. split; [exact Hin|].
  intros key1 t1 key2 t2 H1 H2 Hne Hl1 Hl2.
  assert (Hin1 : In (key1, t1) (filter_tokens tokens None (Some f)))
    by (apply Hin; auto).
  assert (Hin2 : In (key2, t2) (filter_tokens tokens None (Some f)))
    by (apply Hin; auto).
  assert (Hown : forall t, lower (owner t) = lower f -> owner t <> EmptyString).
  { intros t Hl He. rewrite He in Hl. simpl in Hl.
    apply (f_equal truthy_str) in Hl. rewrite lower_truthy, Htr in Hl.
    discriminate. }
  destruct (owner_has_bucket _ _ _ Hin1 (Hown t1 Hl1)) as (s1 & Hs1 & Ha1 & Hi1).
  destruct (owner_has_bucket _ _ _ Hin2 (Hown t2 Hl2)) as (s2 & Hs2 & Ha2 & Hi2).
  split; [exact Hin1|]. split; [exact Hin2|].
  exists s1, s2. repeat split; auto. congruence.
Qed.

Lemma mixed_case_wf : wf_dict mixed_case_tokens.
Proof.
  unfold wf_dict. simpl. repeat constructor; simpl; intuition discriminate.
Qed.

(** The filter [0xBOB] keeps the tokens of [0xBob] and of [0xbob], and the
    statistics have a bucket for each spelling. *)
Lemma C9_filter_and_buckets_witness :
  filter_tokens mixed_case_tokens None (Some "0xBOB")
  = [ ("v1_1", mkToken "1" "blueRailroads" "0xBob" "bob.eth" None
                 (Some 100) None None None);
      ("v1_2", mkToken "2" "blueRailroads" "0xbob" "bob.eth" None
                 (Some 200) None None None) ]
  /\ exists s1 s2,
       dict_get "0xBob"
         (calculate_owner_stats
            (filter_tokens mixed_case_tokens None (Some "0xBOB"))) = Some s1
       /\ dict_get "0xbob"
            (calculate_owner_stats
               (filter_tokens mixed_case_tokens None (Some "0xBOB"))) = Some s2
       /\ address s1 <> address s2.
Proof.
  assert (Hf : "0xBOB" <> EmptyString) by discriminate.
  destruct (C9_filter_and_buckets mixed_case_tokens "0xBOB" mixed_case_wf Hf)
    as (Heq & _ & Hpair).
  split; [rewrite Heq; reflexivity|].
  destruct (Hpair "v1_1"
              (mkToken "1" "blueRailroads" "0xBob" "bob.eth" None
                 (Some 100) None None None)
              "v1_2"
              (mkToken "2" "blueRailroads" "0xbob" "bob.eth" None
                 (Some 200) None None None))
    as (_ & _ & s1 & s2 & Hs1 & Hs2 & _ & _ & Hne & _).
  - left. reflexivity.
  - right. left. reflexivity.
  - discriminate.
  - reflexivity.
  - reflexivity.
  - exists s1, s2. split; [exact Hs1|]. split; [exact Hs2 | exact Hne].
Defined.

(** ** The leaderboard page *)

Lemma filter_all (A : Type) (f : A -> bool) (l : list A) :
  (forall x, In x l -> f x = true) -> filter f l = l.
Proof.
  induction l as [|x l IH]; intros Hall; simpl; [reflexivity|].
  rewrite (Hall x (or_introl eq_refl)). f_equal. apply IH.
  intros y Hy. apply Hall. now right.
Qed.












Lemma sample_tokens_wf : wf_dict sample_tokens.
Proof.
  unfold wf_dict. simpl. repeat constructor; simpl; intuition discriminate.
Qed.


(** ** Runs of the importer *)

Example parse_fixture_config :
  option_map (fun c => (map chain_data_key (sources c),
                        map page (leaderboards c)))
    (parse_config_from_wikitext wiki_config_content)
  = Some (["blueRailroads"; "blueRailroadV2s"],
          ["Blue Railroad Leaderboard"; "Blue Railroad Squats Leaderboard"]).
Proof. vm_compute. reflexivity. Qed.

(** On the data of the package's own importer tests the second run writes
    nothing. *)
Example fixture_second_run_unchanged :
  two_runs fixture_dump fresh_wiki
  = Ok (mkImportStats 3 0 0 0 2 0 0 0 [], mkImportStats 0 0 3 0 0 0 2 0 []).
Proof. vm_compute. reflexivity. Qed.

(** C1 fails on the code.  With the two sources of the package's collision
    test, whose tokens both have the id [1], both token pages have the
    title [Blue Railroad Token 1]: the first run creates the page and
    updates it, and the second run, on the wiki that the first one left,
    updates it twice again. *)
Theorem C1_second_run_updates_shared_page :
  two_runs same_id_dump fresh_wiki
  = Ok (mkImportStats 1 1 0 0 2 0 0 0 [], mkImportStats 0 2 0 0 0 0 2 0 []).
Proof. vm_compute. reflexivity. Qed.

(** ** The importer on a wiki that can be read *)

Lemma fresh_wiki_reliable : reliable fresh_wiki.
Proof. split; [intros title; split; reflexivity | intros; reflexivity]. Qed.

Lemma fixture_titles_distinct :
  NoDup (page_titles fixture_tokens fixture_config).
Proof.
  vm_compute. repeat (constructor; [cbn; intuition discriminate|]).
  constructor.
Qed.

Lemma get_page_content_reads_ok (site : Site) (title : string) :
  reads_ok site ->
  MWClientWrapper.get_page_content site title
  = Ok (dict_get title (wiki_pages site)).
Proof.
  intros Hr. destruct (Hr title) as [Hi Ht].
  unfold MWClientWrapper.get_page_content, site_page_exists, page_text,
    dict_mem, dict_get_default.
  rewrite Hi. simpl. destruct (dict_get title (wiki_pages site)); simpl.
  - now rewrite Ht.
  - reflexivity.
Qed.

Lemma save_page_reads_ok (site : Site) (title content summary : string) :
  reads_ok site ->
  MWClientWrapper.save_page site title content summary
  = Ok (sync_outcome site title content).
Proof.
  intros Hr. destruct (Hr title) as [Hi Ht].
  unfold MWClientWrapper.save_page, sync_outcome, site_page_exists, page_text,
    page_save, dict_mem, dict_get_default, site_with.
  rewrite Hi. simpl.
  destruct (dict_get title (wiki_pages site)) as [text|]; simpl.
  - rewrite Ht. simpl. destruct (String.eqb text content); [reflexivity|].
    destruct (save_fault site title content); reflexivity.
  - destruct (save_fault site title content); reflexivity.
Qed.

Lemma sync_outcome_reads_ok (site : Site) (title content : string) :
  reads_ok site -> reads_ok (snd (sync_outcome site title content)).
Proof.
  intros Hr. unfold sync_outcome.
  destruct (content_equal _ _); [exact Hr|].
  destruct (save_fault site title content); exact Hr.
Qed.

Lemma load_config_reads_ok (config_page : string) (site : Site) :
  reads_ok site ->
  load_config config_page site
  = Ok (config_of (dict_get config_page (wiki_pages site))).
Proof.
  intros Hr. unfold load_config. simpl.
  rewrite get_page_content_reads_ok by assumption. simpl. unfold config_of.
  destruct (dict_get config_page (wiki_pages site)) as [text|]; [|reflexivity].
  destruct (truthy_str text); [|reflexivity].
  destruct (parse_config_from_wikitext text); reflexivity.
Qed.

Lemma import_token_reads_ok (utcoffset : Z -> Z) (site : Site) (t : Token) :
  reads_ok site ->
  import_token utcoffset site t
  = (content <- generate_token_page_content utcoffset t ;;
     Ok (sync_outcome site (token_title t) content)).
Proof.
  intros Hr. unfold import_token.
  destruct (generate_token_page_content utcoffset t) as [content|e];
    [|reflexivity].
  simpl. unfold MWClientWrapper.page_exists, site_page_exists.
  rewrite (proj1 (Hr _)). simpl. now apply save_page_reads_ok.
Qed.

Lemma generate_leaderboard_reads_ok (site : Site) (tokens : pydict Token)
    (lb : LeaderboardConfig) :
  reads_ok site ->
  generate_leaderboard site tokens lb
  = Ok (sync_outcome site (page lb) (generate_leaderboard_content tokens lb)).
Proof.
  intros Hr. unfold generate_leaderboard. simpl. now apply save_page_reads_ok.
Qed.

Lemma token_loop_reads_ok (utcoffset : Z -> Z) (tokens : pydict Token)
    (stats : ImportStats) (site : Site) :
  reads_ok site ->
  for_each
    (fun '(stats, wiki) '(key, token) =>
       '(result, wiki') <- import_token utcoffset wiki token ;;
       Ok (add_token_result result stats, wiki'))
    tokens (stats, site)
  = (jobs <- token_jobs utcoffset tokens ;;
     Ok (sync_jobs add_token_result jobs (stats, site))).
Proof.
  revert stats site. induction tokens as [|[key t] tokens IH];
    intros stats site Hr; [reflexivity|].
  cbn [for_each token_jobs]. rewrite import_token_reads_ok by assumption.
  destruct (generate_token_page_content utcoffset t) as [content|e];
    [|reflexivity].
  cbn [Py.bind].
  pose proof (sync_outcome_reads_ok site (token_title t) content Hr) as Hr'.
  destruct (sync_outcome site (token_title t) content) as [result site']
    eqn:Eo.
  cbn [Py.bind snd] in *. rewrite IH by assumption.
  destruct (token_jobs utcoffset tokens) as [jobs|e]; [|reflexivity].
  cbn [Py.bind sync_jobs snd fst]. rewrite Eo. reflexivity.
Qed.

Lemma leaderboard_loop_reads_ok (tokens : pydict Token)
    (boards : list LeaderboardConfig) (stats : ImportStats) (site : Site) :
  reads_ok site ->
  for_each
    (fun '(stats, wiki) lb_config =>
       '(result, wiki') <- generate_leaderboard wiki tokens lb_config ;;
       Ok (add_leaderboard_result result stats, wiki'))
    boards (stats, site)
  = Ok (sync_jobs add_leaderboard_result (leaderboard_jobs tokens boards)
          (stats, site)).
Proof.
  revert stats site. induction boards as [|lb boards IH];
    intros stats site Hr; [reflexivity|].
  cbn [for_each leaderboard_jobs map sync_jobs snd fst].
  rewrite generate_leaderboard_reads_ok by assumption.
  pose proof (sync_outcome_reads_ok site (page lb)
                (generate_leaderboard_content tokens lb) Hr) as Hr'.
  destruct (sync_outcome site (page lb)
              (generate_leaderboard_content tokens lb)) as [result site'].
  cbn [Py.bind snd] in *. now apply IH.
Qed.

Lemma sync_jobs_reads_ok (add : SaveResult -> ImportStats -> ImportStats)
    (jobs : list (string * string)) (state : ImportStats * Site) :
  reads_ok (snd state) -> reads_ok (snd (sync_jobs add jobs state)).
Proof.
  revert state. induction jobs as [|[title content] jobs IH];
    intros state Hr; [exact Hr|].
  cbn [sync_jobs].
  pose proof (sync_outcome_reads_ok (snd state) title content Hr) as Hr'.
  destruct (sync_outcome (snd state) title content) as [result site'].
  apply IH. exact Hr'.
Qed.

(** On a site that can be read, a run is the tokens loaded, the token
    pages generated, and the pages written in order. *)
Lemma run_reads_ok (utcoffset : Z -> Z) (cd : chain_data)
    (config_page : string) (site : Site) :
  reads_ok site ->
  run utcoffset cd config_page site
  = (let config := config_of (dict_get config_page (wiki_pages site)) in
     tokens <- load_tokens cd config ;;
     jobs <- token_jobs utcoffset tokens ;;
     Ok (sync_jobs add_leaderboard_result
           (leaderboard_jobs tokens (leaderboards config))
           (sync_jobs add_token_result jobs (ImportStats_init, site)))).
Proof.
  intros Hr. unfold run. rewrite load_config_reads_ok by assumption.
  cbn [Py.bind].
  destruct (load_tokens cd (config_of (dict_get config_page (wiki_pages site))))
    as [tokens|e]; [|reflexivity].
  cbn [Py.bind]. rewrite token_loop_reads_ok by assumption.
  destruct (token_jobs utcoffset tokens) as [jobs|e]; [|reflexivity].
  cbn [Py.bind].
  pose proof (sync_jobs_reads_ok add_token_result jobs (ImportStats_init, site)
                Hr) as Hr'.
  destruct (sync_jobs add_token_result jobs (ImportStats_init, site))
    as [stats site'].
  now apply leaderboard_loop_reads_ok.
Qed.

Lemma content_equal_iff (current : option string) (content : string) :
  content_equal current content = true <-> current = Some content.
Proof.
  unfold content_equal. destruct current as [c|].
  - rewrite String.eqb_eq. split; congruence.
  - split; discriminate.
Qed.

Lemma sync_outcome_reliable (site : Site) (title content : string) :
  reliable site ->
  let site' := snd (sync_outcome site title content) in
  reliable site'
  /\ dict_get title (wiki_pages site') = Some content
  /\ (forall other, other <> title ->
        dict_get other (wiki_pages site') = dict_get other (wiki_pages site)).
Proof.
  intros [Hr Hw]. unfold sync_outcome.
  destruct (content_equal (dict_get title (wiki_pages site)) content) eqn:E.
  - apply content_equal_iff in E. cbn [snd].
    split; [split; assumption|]. split; [exact E | reflexivity].
  - rewrite Hw. cbn [snd site_with wiki_pages].
    split; [split; assumption|]. split.
    + apply dict_get_set_eq.
    + intros other Hne. apply dict_get_set_ne. congruence.
Qed.

Lemma sync_jobs_synced (add : SaveResult -> ImportStats -> ImportStats)
    (jobs : list (string * string)) (state : ImportStats * Site) :
  reliable (snd state) ->
  NoDup (map fst jobs) ->
  let site' := snd (sync_jobs add jobs state) in
  reliable site'
  /\ (forall title content, In (title, content) jobs ->
        dict_get title (wiki_pages site') = Some content)
  /\ (forall other, ~ In other (map fst jobs) ->
        dict_get other (wiki_pages site')
        = dict_get other (wiki_pages (snd state))).
Proof.
  revert state. induction jobs as [|[title content] jobs IH];
    intros state Hrel Hnd.
  - cbn [sync_jobs]. split; [exact Hrel|]. split; [intros ? ? []|reflexivity].
  - cbn [sync_jobs].
    destruct (sync_outcome_reliable (snd state) title content Hrel)
      as (Hrel' & Hget & Hother).
    destruct (sync_outcome (snd state) title content) as [result site1].
    cbn [snd] in *. inversion Hnd as [|? ? Hnotin Hnd']; subst.
    destruct (IH (add result (fst state), site1) Hrel' Hnd')
      as (Hrel2 & Hjobs & Hrest).
    cbn [snd] in *. split; [exact Hrel2|]. split.
    + intros t c [[= <- <-] | Hin].
      * rewrite Hrest by exact Hnotin. exact Hget.
      * now apply Hjobs.
    + intros other Hout. cbn [map fst] in Hout.
      rewrite Hrest by (intros Hin; apply Hout; now right).
      apply Hother. intros ->. apply Hout. now left.
Qed.

Lemma sync_jobs_unchanged (add : SaveResult -> ImportStats -> ImportStats)
    (jobs : list (string * string)) (stats : ImportStats) (site : Site) :
  (forall title content, In (title, content) jobs ->
     dict_get title (wiki_pages site) = Some content) ->
  sync_jobs add jobs (stats, site)
  = (fold_left (fun s job => add (unchanged_result (fst job)) s) jobs stats,
     site).
Proof.
  revert stats. induction jobs as [|[title content] jobs IH]; intros stats Hs;
    [reflexivity|].
  cbn [sync_jobs fold_left snd fst]. unfold sync_outcome.
  rewrite (Hs title content (or_introl eq_refl)).
  cbn [content_equal]. rewrite String.eqb_refl.
  apply IH. intros t c Hin. apply Hs. now right.
Qed.

Lemma fold_unchanged_tokens (jobs : list (string * string)) (s : ImportStats) :
  fold_left (fun s job => add_token_result (unchanged_result (fst job)) s)
    jobs s
  = mkImportStats (tokens_created s) (tokens_updated s)
      (tokens_unchanged s + Z.of_nat (List.length jobs)) (tokens_error s)
      (leaderboards_created s) (leaderboards_updated s)
      (leaderboards_unchanged s) (leaderboards_error s) (errors s).
Proof.
  revert s. induction jobs as [|job jobs IH]; intros s.
  - destruct s. simpl. f_equal. lia.
  - cbn [fold_left]. rewrite IH. destruct s. simpl. f_equal. lia.
Qed.

Lemma fold_unchanged_leaderboards (jobs : list (string * string))
    (s : ImportStats) :
  fold_left (fun s job => add_leaderboard_result (unchanged_result (fst job)) s)
    jobs s
  = mkImportStats (tokens_created s) (tokens_updated s)
      (tokens_unchanged s) (tokens_error s)
      (leaderboards_created s) (leaderboards_updated s)
      (leaderboards_unchanged s + Z.of_nat (List.length jobs))
      (leaderboards_error s) (errors s).
Proof.
  revert s. induction jobs as [|job jobs IH]; intros s.
  - destruct s. simpl. f_equal. lia.
  - cbn [fold_left]. rewrite IH. destruct s. simpl. f_equal. lia.
Qed.

Lemma token_jobs_titles (utcoffset : Z -> Z) (tokens : pydict Token)
    (jobs : list (string * string)) :
  token_jobs utcoffset tokens = Ok jobs ->
  map fst jobs = map (fun item => token_title (snd item)) tokens.
Proof.
  revert jobs. induction tokens as [|[key t] tokens IH]; intros jobs.
  - intros [= <-]. reflexivity.
  - cbn [token_jobs].
    destruct (generate_token_page_content utcoffset t) as [content|e];
      [|discriminate].
    cbn [Py.bind]. destruct (token_jobs utcoffset tokens) as [rest|e];
      [|discriminate].
    intros [= <-]. simpl. f_equal. now apply IH.
Qed.

Lemma leaderboard_jobs_titles (tokens : pydict Token)
    (boards : list LeaderboardConfig) :
  map fst (leaderboard_jobs tokens boards) = map page boards.
Proof. unfold leaderboard_jobs. rewrite map_map. reflexivity. Qed.

Lemma NoDup_app_disjoint (A : Type) (l1 l2 : list A) :
  NoDup (l1 ++ l2) ->
  NoDup l1 /\ NoDup l2 /\ (forall x, In x l1 -> ~ In x l2).
Proof.
  induction l1 as [|a l1 IH]; simpl; intros Hnd.
  - repeat split; auto. constructor.
  - inversion Hnd as [|? ? Hnotin Hnd']; subst.
    destruct (IH Hnd') as (H1 & H2 & Hdis). repeat split; auto.
    + constructor; auto. intros Hin. apply Hnotin. apply in_or_app. now left.
    + intros x [<- | Hin] Hin2; [|now apply (Hdis x)].
      apply Hnotin. apply in_or_app. now right.
Qed.

(** X1.  A run is idempotent on a wiki that answers every request, when
    the pages that it writes have pairwise distinct titles and the
    configuration page is not one of them: the run that follows a run
    reads the same configuration, finds every token page and every
    leaderboard with the content that it would write, reports all of them
    unchanged and nothing else, and leaves the wiki as it found it. *)
Theorem X1_run_idempotent :
  forall (utcoffset : Z -> Z) (cd : chain_data) (config_page : string)
         (site : Site) (config : BotConfig) (tokens : pydict Token)
         (stats1 : ImportStats) (site1 : Site),
    reliable site ->
    load_config config_page site = Ok config ->
    load_tokens cd config = Ok tokens ->
    NoDup (page_titles tokens config) ->
    ~ In config_page (page_titles tokens config) ->
    run utcoffset cd config_page site = Ok (stats1, site1) ->
    run utcoffset cd config_page site1
    = Ok (mkImportStats 0 0 (Z.of_nat (List.length tokens)) 0
            0 0 (Z.of_nat (List.length (leaderboards config))) 0 [],
          site1).
Proof.
  intros utcoffset cd config_page site config tokens stats1 site1
    Hrel Hconfig Htokens Hnd Hcp Hrun.
  pose proof (proj1 Hrel) as Hreads.
  rewrite load_config_reads_ok in Hconfig by assumption.
  injection Hconfig as Hconfig.
  rewrite run_reads_ok in Hrun by assumption. cbn zeta in Hrun.
  rewrite Hconfig, Htokens in Hrun. cbn [Py.bind] in Hrun.
  destruct (token_jobs utcoffset tokens) as [jobs|e] eqn:Ejobs;
    [|discriminate].
  cbn [Py.bind] in Hrun.
  pose proof (token_jobs_titles _ _ _ Ejobs) as Htitles.
  unfold page_titles in Hnd, Hcp.
  destruct (NoDup_app_disjoint _ _ _ Hnd) as (Hnd1 & Hnd2 & Hdis).
  rewrite <- Htitles in Hnd1, Hdis, Hcp.
  rewrite <- (leaderboard_jobs_titles tokens) in Hnd2, Hdis, Hcp.
  destruct (sync_jobs_synced add_token_result jobs (ImportStats_init, site)
              Hrel Hnd1) as (Hrel_a & Hsync_a & Hrest_a).
  destruct (sync_jobs add_token_result jobs (ImportStats_init, site))
    as [stats_a site_a].
  cbn [snd] in *.
  destruct (sync_jobs_synced add_leaderboard_result
              (leaderboard_jobs tokens (leaderboards config))
              (stats_a, site_a) Hrel_a Hnd2) as (Hrel1 & Hsync1 & Hrest1).
  injection Hrun as Hrun.
  rewrite Hrun in Hrel1, Hsync1, Hrest1. cbn [snd] in *.
  assert (Hcfg1 : dict_get config_page (wiki_pages site1)
                  = dict_get config_page (wiki_pages site)).
  { rewrite Hrest1, Hrest_a; [reflexivity| |];
      intros Hin; apply Hcp; apply in_or_app; auto. }
  assert (Htok1 : forall title content, In (title, content) jobs ->
            dict_get title (wiki_pages site1) = Some content).
  { intros title content Hin. rewrite Hrest1.
    - now apply Hsync_a.
    - apply Hdis. change title with (fst (title, content)). now apply in_map. }
  rewrite run_reads_ok by apply Hrel1. cbn zeta.
  rewrite Hcfg1, Hconfig, Htokens. cbn [Py.bind]. rewrite Ejobs.
  cbn [Py.bind].
  rewrite (sync_jobs_unchanged add_token_result jobs _ _ Htok1).
  rewrite (sync_jobs_unchanged add_leaderboard_result _ _ _ Hsync1).
  rewrite fold_unchanged_tokens, fold_unchanged_leaderboards.
  cbn. f_equal. f_equal. f_equal.
  - apply (f_equal (@List.length string)) in Htitles.
    rewrite !length_map in Htitles. lia.
  - unfold leaderboard_jobs. now rewrite length_map.
Qed.

Lemma X1_run_idempotent_witness :
  run utc fixture_dump CONFIG_PAGE (snd fixture_first_run)
  = Ok (mkImportStats 0 0 (Z.of_nat (List.length fixture_tokens)) 0
          0 0 (Z.of_nat (List.length (leaderboards fixture_config))) 0 [],
        snd fixture_first_run).
Proof.
  apply (X1_run_idempotent utc fixture_dump CONFIG_PAGE fresh_wiki
           fixture_config fixture_tokens
           (fst fixture_first_run) (snd fixture_first_run)).
  - exact fresh_wiki_reliable.
  - vm_compute. reflexivity.
  - vm_compute. reflexivity.
  - exact fixture_titles_distinct.
  - vm_compute. intuition discriminate.
  - vm_compute. reflexivity.
Defined.

Lemma fromtimestamp_fits (utcoffset : Z -> Z) (z : Z) :
  - TIME_T_MAX - 1 <= z <= TIME_T_MAX ->
  fromtimestamp utcoffset z <> Raise OverflowError.
Proof.
  intros Hz. unfold fromtimestamp.
  destruct (Z.ltb_spec z (- TIME_T_MAX - 1)); [lia|].
  destruct (Z.ltb_spec TIME_T_MAX z); [lia|]. cbn [orb].
  destruct (civil_from_days ((z + utcoffset z) / 86400)) as [[y m] d].
  destruct ((y <? MINYEAR) || (MAXYEAR <? y)); discriminate.
Qed.

Lemma fromtimestamp_raises (utcoffset : Z -> Z) (z : Z) (e : exn) :
  fromtimestamp utcoffset z = Raise e -> e = OverflowError \/ e = ValueError.
Proof.
  unfold fromtimestamp.
  destruct ((z <? - TIME_T_MAX - 1) || (TIME_T_MAX <? z)).
  - intros [= <-]. now left.
  - destruct (civil_from_days ((z + utcoffset z) / 86400)) as [[y m] d].
    destruct ((y <? MINYEAR) || (MAXYEAR <? y)); [|discriminate].
    intros [= <-]. now right.
Qed.

Lemma formatted_date_fits (utcoffset : Z -> Z) (t : Token) :
  (forall z, date t = Some z -> z <= TIME_T_MAX) ->
  exists r, formatted_date utcoffset t = Ok r.
Proof.
  intros Hfit. unfold formatted_date.
  destruct (date t) as [z|]; [|eauto]. specialize (Hfit z eq_refl).
  destruct (_ && _); [eauto|].
  rewrite isdigit_str_int.
  destruct ((10 <=? String.length (str_int z))%nat); cbn [andb]; [|eauto].
  destruct (Z.leb_spec 0 z); [|eauto].
  rewrite int_of_str_str_int.
  destruct (fromtimestamp utcoffset z) as [ymd|e] eqn:E; [eauto|].
  destruct (fromtimestamp_raises _ _ _ E) as [-> | ->]; [|eauto].
  exfalso. revert E. apply fromtimestamp_fits. unfold TIME_T_MAX in *. lia.
Qed.

Lemma generate_token_page_content_ok (utcoffset : Z -> Z) (t : Token) :
  fits_time_t t -> exists content, generate_token_page_content utcoffset t = Ok content.
Proof.
  intros Hfit. unfold generate_token_page_content.
  destruct (is_v2 t) eqn:Ev2; cbn [Py.bind]; [eauto|].
  destruct Hfit as [Hv2 | Hfit]; [congruence|].
  destruct (formatted_date_fits utcoffset t Hfit) as [r ->].
  cbn [Py.bind]. eauto.
Qed.

Lemma token_jobs_ok (utcoffset : Z -> Z) (tokens : pydict Token) :
  (forall key t, In (key, t) tokens -> fits_time_t t) ->
  exists jobs, token_jobs utcoffset tokens = Ok jobs.
Proof.
  induction tokens as [|[key t] tokens IH]; intros Hfit; [simpl; eauto|].
  cbn [token_jobs].
  destruct (generate_token_page_content_ok utcoffset t
              (Hfit key t (or_introl eq_refl))) as [content ->].
  destruct IH as [jobs ->]; [intros k x Hin; apply (Hfit k x); now right|].
  cbn [Py.bind]. eauto.
Qed.

Lemma sync_outcome_known_action (site : Site) (title content : string) :
  known_action (action (fst (sync_outcome site title content))).
Proof.
  unfold sync_outcome, known_action.
  destruct (content_equal _ _); [simpl; auto|].
  destruct (save_fault site title content); [simpl; auto|].
  destruct (dict_mem title (wiki_pages site)); simpl; auto.
Qed.

Lemma add_token_result_counts (r : SaveResult) (s : ImportStats) :
  known_action (action r) ->
  token_pages_counted (add_token_result r s) = token_pages_counted s + 1
  /\ leaderboards_counted (add_token_result r s) = leaderboards_counted s
  /\ unreported_errors (add_token_result r s) = unreported_errors s.
Proof.
  unfold known_action, add_token_result, token_pages_counted,
    leaderboards_counted, unreported_errors.
  destruct s. intros [-> | [-> | [-> | ->]]]; cbn;
    rewrite ?length_app; cbn; repeat split; lia.
Qed.

Lemma add_leaderboard_result_counts (r : SaveResult) (s : ImportStats) :
  known_action (action r) ->
  token_pages_counted (add_leaderboard_result r s) = token_pages_counted s
  /\ leaderboards_counted (add_leaderboard_result r s)
     = leaderboards_counted s + 1
  /\ unreported_errors (add_leaderboard_result r s) = unreported_errors s.
Proof.
  unfold known_action, add_leaderboard_result, token_pages_counted,
    leaderboards_counted, unreported_errors.
  destruct s. intros [-> | [-> | [-> | ->]]]; cbn;
    rewrite ?length_app; cbn; repeat split; lia.
Qed.

Lemma sync_jobs_token_counts (jobs : list (string * string))
    (state : ImportStats * Site) :
  let stats' := fst (sync_jobs add_token_result jobs state) in
  token_pages_counted stats'
  = token_pages_counted (fst state) + Z.of_nat (List.length jobs)
  /\ leaderboards_counted stats' = leaderboards_counted (fst state)
  /\ unreported_errors stats' = unreported_errors (fst state).
Proof.
  revert state. induction jobs as [|[title content] jobs IH]; intros state.
  - cbn [sync_jobs List.length]. repeat split; lia.
  - cbn [sync_jobs].
    pose proof (sync_outcome_known_action (snd state) title content) as Hk.
    destruct (sync_outcome (snd state) title content) as [result site'].
    cbn [fst] in Hk.
    destruct (add_token_result_counts result (fst state) Hk) as (H1 & H2 & H3).
    destruct (IH (add_token_result result (fst state), site'))
      as (I1 & I2 & I3).
    cbn [fst] in *. cbn zeta. rewrite I1, I2, I3, H1, H2, H3.
    change (List.length ((title, content) :: jobs))
      with (S (List.length jobs)).
    repeat split; lia.
Qed.

Lemma sync_jobs_leaderboard_counts (jobs : list (string * string))
    (state : ImportStats * Site) :
  let stats' := fst (sync_jobs add_leaderboard_result jobs state) in
  token_pages_counted stats' = token_pages_counted (fst state)
  /\ leaderboards_counted stats'
     = leaderboards_counted (fst state) + Z.of_nat (List.length jobs)
  /\ unreported_errors stats' = unreported_errors (fst state).
Proof.
  revert state. induction jobs as [|[title content] jobs IH]; intros state.
  - cbn [sync_jobs List.length]. repeat split; lia.
  - cbn [sync_jobs].
    pose proof (sync_outcome_known_action (snd state) title content) as Hk.
    destruct (sync_outcome (snd state) title content) as [result site'].
    cbn [fst] in Hk.
    destruct (add_leaderboard_result_counts result (fst state) Hk)
      as (H1 & H2 & H3).
    destruct (IH (add_leaderboard_result result (fst state), site'))
      as (I1 & I2 & I3).
    cbn [fst] in *. cbn zeta. rewrite I1, I2, I3, H1, H2, H3.
    change (List.length ((title, content) :: jobs))
      with (S (List.length jobs)).
    repeat split; lia.
Qed.

(** X2.  On a wiki that can be read, with tokens whose dates fit the
    platform's [time_t], a run returns its statistics whatever the writes
    do: a failed write is counted, not raised.  The four token counters
    add up to the number of tokens, the four leaderboard counters to the
    number of configured leaderboards, and the list of error messages has
    one message for each counted error. *)
Theorem X2_run_accounts_for_every_page :
  forall (utcoffset : Z -> Z) (cd : chain_data) (config_page : string)
         (site : Site) (config : BotConfig) (tokens : pydict Token),
    reads_ok site ->
    load_config config_page site = Ok config ->
    load_tokens cd config = Ok tokens ->
    (forall key t, In (key, t) tokens -> fits_time_t t) ->
    exists stats site',
      run utcoffset cd config_page site = Ok (stats, site')
      /\ token_pages_counted stats = Z.of_nat (List.length tokens)
      /\ leaderboards_counted stats
         = Z.of_nat (List.length (leaderboards config))
      /\ Z.of_nat (List.length (errors stats))
         = tokens_error stats + leaderboards_error stats.
Proof.
  intros utcoffset cd config_page site config tokens Hr Hconfig Htokens Hfit.
  rewrite load_config_reads_ok in Hconfig by assumption.
  injection Hconfig as Hconfig.
  rewrite run_reads_ok by assumption. cbn zeta.
  rewrite Hconfig, Htokens. cbn [Py.bind].
  destruct (token_jobs_ok utcoffset tokens Hfit) as [jobs Ejobs].
  rewrite Ejobs. cbn [Py.bind].
  pose proof (token_jobs_titles _ _ _ Ejobs) as Htitles.
  apply (f_equal (@List.length string)) in Htitles.
  rewrite !length_map in Htitles.
  destruct (sync_jobs_token_counts jobs (ImportStats_init, site))
    as (T1 & T2 & T3).
  destruct (sync_jobs_leaderboard_counts
              (leaderboard_jobs tokens (leaderboards config))
              (sync_jobs add_token_result jobs (ImportStats_init, site)))
    as (L1 & L2 & L3).
  cbn zeta in *. cbn [fst] in T1, T2, T3.
  destruct (sync_jobs add_leaderboard_result _ _) as [stats site'] eqn:E.
  cbn [fst] in *. exists stats, site'. split; [reflexivity|].
  unfold leaderboard_jobs in L2. rewrite length_map in L2.
  rewrite L1, L2, T1, T2. unfold unreported_errors in L3 at 1.
  rewrite T3 in L3. cbn in L3. cbn. repeat split; lia.
Qed.

Lemma X2_run_accounts_for_every_page_witness :
  exists stats site',
    run utc fixture_dump CONFIG_PAGE fresh_wiki = Ok (stats, site')
    /\ token_pages_counted stats = Z.of_nat (List.length fixture_tokens)
    /\ leaderboards_counted stats
       = Z.of_nat (List.length (leaderboards fixture_config))
    /\ Z.of_nat (List.length (errors stats))
       = tokens_error stats + leaderboards_error stats.
Proof.
  apply (X2_run_accounts_for_every_page utc fixture_dump CONFIG_PAGE
           fresh_wiki fixture_config fixture_tokens).
  - exact (proj1 fresh_wiki_reliable).
  - vm_compute. reflexivity.
  - vm_compute. reflexivity.
  - intros key t Hin. vm_compute in Hin.
    destruct Hin as [Hin | [Hin | [Hin | []]]]; injection Hin as <- <-;
      first [ left; reflexivity
            | right; intros z Hz; injection Hz as <-; vm_compute;
              intros Hc; discriminate Hc ].
Defined.

(** ** Dry runs *)

Lemma for_each_preserves {A S : Type} (body : S -> A -> exc S)
    (P : S -> Prop) (l : list A) (s s' : S) :
  (forall s x s1, P s -> body s x = Ok s1 -> P s1) ->
  P s -> for_each body l s = Ok s' -> P s'.
Proof.
  intros Hstep. revert s. induction l as [|x l IH]; intros s Hs.
  - intros [= <-]. exact Hs.
  - cbn [for_each]. destruct (body s x) as [s1|e] eqn:E; [|discriminate].
    cbn [Py.bind]. apply IH. eapply Hstep; eauto.
Qed.

Lemma dry_save_page_inv (c : DryRun) (title content summary : string)
    (r : SaveResult) (c' : DryRun) :
  DryRunClient.save_page c title content summary = Ok (r, c') ->
  existing_pages c' = existing_pages c
  /\ saved_pages c' = (saved_pages c ++ [(title, content, summary)])%list
  /\ (action r = "created" \/ action r = "updated" \/ action r = "unchanged").
Proof.
  unfold DryRunClient.save_page.
  destruct (content_equal _ _).
  - intros [= <- <-]. simpl. auto.
  - intros [= <- <-]. simpl. destruct (dict_mem _ _); auto.
Qed.

Lemma dry_token_step (c : DryRun) (s : ImportStats) (w : DryRun)
    (r : SaveResult) (w' : DryRun) (title content summary : string) :
  dry_run_invariant c (s, w) ->
  DryRunClient.save_page w title content summary = Ok (r, w') ->
  dry_run_invariant c (add_token_result r s, w').
Proof.
  intros (He & Herr & Hte & Hle & Hlen) Es.
  destruct (dry_save_page_inv _ _ _ _ _ _ Es) as (He2 & Hs2 & Hact).
  unfold dry_run_invariant in *. cbn [fst snd] in *.
  rewrite He2, Hs2, length_app. cbn [List.length].
  unfold token_pages_counted, leaderboards_counted in *.
  unfold add_token_result. destruct s. cbn in *.
  destruct Hact as [-> | [-> | ->]]; cbn; repeat split; auto; lia.
Qed.

Lemma dry_leaderboard_step (c : DryRun) (s : ImportStats) (w : DryRun)
    (r : SaveResult) (w' : DryRun) (title content summary : string) :
  dry_run_invariant c (s, w) ->
  DryRunClient.save_page w title content summary = Ok (r, w') ->
  dry_run_invariant c (add_leaderboard_result r s, w').
Proof.
  intros (He & Herr & Hte & Hle & Hlen) Es.
  destruct (dry_save_page_inv _ _ _ _ _ _ Es) as (He2 & Hs2 & Hact).
  unfold dry_run_invariant in *. cbn [fst snd] in *.
  rewrite He2, Hs2, length_app. cbn [List.length].
  unfold token_pages_counted, leaderboards_counted in *.
  unfold add_leaderboard_result. destruct s. cbn in *.
  destruct Hact as [-> | [-> | ->]]; cbn; repeat split; auto; lia.
Qed.

(** X3.  A run on the dry-run client changes no page that the client
    knows, reports no error, and records one entry in [saved_pages] for
    each token page and each leaderboard that it counts. *)
Theorem X3_dry_run_changes_nothing :
  forall (utcoffset : Z -> Z) (cd : chain_data) (config_page : string)
         (c c' : DryRun) (stats : ImportStats),
    run utcoffset cd config_page c = Ok (stats, c') ->
    existing_pages c' = existing_pages c
    /\ errors stats = []
    /\ tokens_error stats = 0
    /\ leaderboards_error stats = 0
    /\ Z.of_nat (List.length (saved_pages c'))
       = Z.of_nat (List.length (saved_pages c))
         + token_pages_counted stats + leaderboards_counted stats.
Proof.
  intros utcoffset cd config_page c c' stats. unfold run.
  destruct (load_config config_page c) as [config|e]; [|discriminate].
  cbn [Py.bind].
  destruct (load_tokens cd config) as [tokens|e]; [|discriminate].
  cbn [Py.bind].
  match goal with
  | |- context [for_each ?b tokens ?s0] =>
      destruct (for_each b tokens s0) as [after|e] eqn:Etok; [|discriminate]
  end.
  cbn [Py.bind]. intros Hlb.
  assert (Hafter : dry_run_invariant c after).
  { refine (for_each_preserves _ (dry_run_invariant c) _ _ _ _ _ Etok).
    - intros [s w] [key t] s1 Hinv. unfold import_token.
      destruct (generate_token_page_content utcoffset t) as [content|e];
        [|discriminate].
      cbn [Py.bind page_exists save_page DryClient].
      unfold DryRunClient.page_exists. cbn [Py.bind].
      match goal with
      | |- context [DryRunClient.save_page ?a ?b ?c0 ?d] =>
          destruct (DryRunClient.save_page a b c0 d) as [[r w2]|e] eqn:Es;
            [|discriminate]
      end.
      cbn [Py.bind]. intros [= <-].
      eapply dry_token_step; eauto.
    - unfold dry_run_invariant. cbn. repeat split; lia. }
  refine (for_each_preserves _ (dry_run_invariant c) _ _ (stats, c') _ Hafter Hlb).
  intros [s w] lb s1 Hinv. unfold generate_leaderboard.
  cbn [save_page DryClient].
  match goal with
  | |- context [DryRunClient.save_page ?a ?b ?c0 ?d] =>
      destruct (DryRunClient.save_page a b c0 d) as [[r w2]|e] eqn:Es;
        [|discriminate]
  end.
  cbn [Py.bind]. intros [= <-].
  eapply dry_leaderboard_step; eauto.
Qed.

Lemma X3_dry_run_changes_nothing_witness :
  existing_pages (snd fixture_dry_run) = []
  /\ errors (fst fixture_dry_run) = []
  /\ tokens_error (fst fixture_dry_run) = 0
  /\ leaderboards_error (fst fixture_dry_run) = 0
  /\ Z.of_nat (List.length (saved_pages (snd fixture_dry_run)))
     = 0 + token_pages_counted (fst fixture_dry_run)
       + leaderboards_counted (fst fixture_dry_run).
Proof.
  apply (X3_dry_run_changes_nothing utc fixture_dump CONFIG_PAGE
           (DryRunClient.init None) (snd fixture_dry_run)
           (fst fixture_dry_run)).
  vm_compute. reflexivity.
Defined.

(** ** Pages that cannot be generated, and pages saved *)

Lemma formatted_date_overflow (utcoffset : Z -> Z) (t : Token) (z : Z) :
  date t = Some z -> TIME_T_MAX < z ->
  formatted_date utcoffset t = Raise OverflowError.
Proof.
  intros Hd Hz.
  assert (Hbig : 1000000000 <= z) by (unfold TIME_T_MAX in Hz; lia).
  unfold formatted_date. rewrite Hd.
  rewrite get_0_begins_with_2.
  destruct ((String.length (str_int z) =? 8)%nat
            && begins_with_2 (str_int z)) eqn:E8.
  - apply andb_true_iff in E8. destruct E8 as [Hlen H2].
    apply Nat.eqb_eq in Hlen.
    pose proof (proj1 (eight_digits_from_2 z) (conj Hlen H2)). lia.
  - rewrite (proj2 (ten_digits_or_more z) Hbig).
    rewrite int_of_str_str_int. unfold fromtimestamp.
    destruct (Z.ltb_spec TIME_T_MAX z); [|lia].
    now rewrite orb_true_r.
Qed.

Lemma token_page_raises (utcoffset : Z -> Z) (t : Token) (e : exn) :
  generate_token_page_content utcoffset t = Raise e
  <-> (e = OverflowError /\ is_v2 t = false
       /\ exists z, date t = Some z /\ TIME_T_MAX < z).
Proof.
  split.
  - intros Hraise.
    destruct (is_v2 t) eqn:Ev2.
    + destruct (generate_token_page_content_ok utcoffset t (or_introl Ev2))
        as [content Hc]. congruence.
    + destruct (date t) as [z|] eqn:Ed.
      * destruct (Z.le_gt_cases z TIME_T_MAX) as [Hle | Hgt].
        -- destruct (generate_token_page_content_ok utcoffset t) as [content Hc];
             [|congruence].
           right. intros z' Hz'. rewrite Ed in Hz'. injection Hz' as <-. exact Hle.
        -- pose proof (formatted_date_overflow utcoffset t z Ed Hgt) as Hf.
           unfold generate_token_page_content in Hraise.
           rewrite Ev2, Hf in Hraise. cbn [Py.bind] in Hraise.
           injection Hraise as <-. split; [reflexivity|]. split; [reflexivity|].
           exists z. split; [reflexivity | exact Hgt].
      * destruct (generate_token_page_content_ok utcoffset t) as [content Hc];
          [|congruence].
        right. intros z' Hz'. rewrite Ed in Hz'. discriminate.
  - intros (-> & Hv1 & z & Hd & Hz).
    unfold generate_token_page_content.
    rewrite Hv1, (formatted_date_overflow utcoffset t z Hd Hz). reflexivity.
Qed.

(** X4.  [generate_token_page_content] raises in one case only: for a
    legacy token (no block height) whose date is larger than the largest
    [time_t], where [datetime.fromtimestamp] raises [OverflowError], which
    [formatted_date] does not catch.  For every other token it returns
    the page. *)
Theorem X4_token_page_raises_iff :
  forall (utcoffset : Z -> Z) (t : Token) (e : exn),
    generate_token_page_content utcoffset t = Raise e
    <-> (e = OverflowError /\ is_v2 t = false
         /\ exists z, date t = Some z /\ TIME_T_MAX < z).
Proof. exact token_page_raises. Qed.

Lemma X4_token_page_raises_iff_witness :
  generate_token_page_content utc_plus_7
    (token_with (Some (2 ^ 63)) None None None) = Raise OverflowError.
Proof.
  apply (proj2 (X4_token_page_raises_iff utc_plus_7
                  (token_with (Some (2 ^ 63)) None None None) OverflowError)).
  split; [reflexivity|]. split; [reflexivity|].
  exists (2 ^ 63). split; [reflexivity|]. vm_compute. reflexivity.
Defined.

(** X5.  When [MWClientWrapper.save_page] reports anything but an error,
    the page can be read back with the content that was to be saved,
    every other page holds what it held, and saving the same content
    again reports [unchanged] and writes nothing. *)
Theorem X5_save_page_settles :
  forall (site site' : Site) (title content summary : string) (r : SaveResult),
    MWClientWrapper.save_page site title content summary = Ok (r, site') ->
    action r <> "error" ->
    text_fault site title = None ->
    MWClientWrapper.get_page_content site' title = Ok (Some content)
    /\ (forall other, other <> title ->
          dict_get other (wiki_pages site') = dict_get other (wiki_pages site))
    /\ (forall summary',
          MWClientWrapper.save_page site' title content summary'
          = Ok (mkSaveResult title "unchanged" "Content identical", site')).
Proof.
  intros site site' title content summary r Hsave Hact Htext.
  unfold MWClientWrapper.save_page, site_page_exists, page_text in Hsave.
  destruct (info_fault site title) eqn:Hinfo; [discriminate|].
  cbn [Py.bind] in Hsave. rewrite Htext in Hsave.
  assert (Hstate :
    dict_get title (wiki_pages site') = Some content
    /\ info_fault site' = info_fault site
    /\ text_fault site' = text_fault site
    /\ (forall other, other <> title ->
          dict_get other (wiki_pages site') = dict_get other (wiki_pages site))).
  { unfold dict_mem, dict_get_default in Hsave.
    destruct (dict_get title (wiki_pages site)) as [text|] eqn:Hget;
      cbn [Py.bind content_equal] in Hsave.
    - destruct (String.eqb text content) eqn:Heq.
      + apply String.eqb_eq in Heq. subst text.
        injection Hsave as <- <-. auto.
      + unfold page_save in Hsave.
        destruct (save_fault site title content).
        * injection Hsave as <- <-. now contradiction Hact.
        * injection Hsave as <- <-. cbn [wiki_pages info_fault text_fault].
          split; [apply dict_get_set_eq|]. split; [reflexivity|].
          split; [reflexivity|]. intros other Hne.
          now apply dict_get_set_ne.
    - unfold page_save in Hsave.
      destruct (save_fault site title content).
      + injection Hsave as <- <-. now contradiction Hact.
      + injection Hsave as <- <-. cbn [wiki_pages info_fault text_fault].
        split; [apply dict_get_set_eq|]. split; [reflexivity|].
        split; [reflexivity|]. intros other Hne.
        now apply dict_get_set_ne. }
  destruct Hstate as (Hget' & Hinfo' & Htext' & Hframe).
  split; [|split; [exact Hframe|]].
  - unfold MWClientWrapper.get_page_content, site_page_exists, page_text,
      dict_mem, dict_get_default.
    rewrite Hinfo', Hinfo, Htext', Htext, Hget'. reflexivity.
  - intros summary'.
    unfold MWClientWrapper.save_page, site_page_exists, page_text,
      dict_mem, dict_get_default.
    rewrite Hinfo', Hinfo, Htext', Htext, Hget'. cbn [Py.bind content_equal].
    now rewrite String.eqb_refl.
Qed.

Lemma X5_save_page_settles_witness :
  MWClientWrapper.get_page_content
    (site_with (reliable_site []) "Page" "text") "Page" = Ok (Some "text").
Proof.
  exact (proj1 (X5_save_page_settles (reliable_site [])
                  (site_with (reliable_site []) "Page" "text")
                  "Page" "text" "summary"
                  (mkSaveResult "Page" "created" EmptyString)
                  eq_refl ltac:(discriminate) eq_refl)).
Defined.

(** ** The dry run as a preview *)

Lemma preview_not_error (pages : pydict string) (title content : string) :
  preview pages title content <> "error".
Proof.
  unfold preview. destruct (content_equal _ _); [discriminate|].
  destruct (dict_mem _ _); discriminate.
Qed.

Lemma preview_ext (pages pages' : pydict string) (title content : string) :
  dict_get title pages = dict_get title pages' ->
  preview pages title content = preview pages' title content.
Proof. intros Hg. unfold preview, dict_mem. now rewrite Hg. Qed.

Lemma add_token_result_by_action : counts_by_action add_token_result.
Proof.
  intros r r' s Ha Hne. unfold add_token_result. destruct s. rewrite <- Ha.
  destruct (String.eqb (action r) "created"); [reflexivity|].
  destruct (String.eqb (action r) "updated"); [reflexivity|].
  destruct (String.eqb (action r) "unchanged"); [reflexivity|].
  destruct (String.eqb (action r) "error") eqn:E; [|reflexivity].
  apply String.eqb_eq in E. contradiction.
Qed.

Lemma add_leaderboard_result_by_action :
  counts_by_action add_leaderboard_result.
Proof.
  intros r r' s Ha Hne. unfold add_leaderboard_result. destruct s.
  rewrite <- Ha.
  destruct (String.eqb (action r) "created"); [reflexivity|].
  destruct (String.eqb (action r) "updated"); [reflexivity|].
  destruct (String.eqb (action r) "unchanged"); [reflexivity|].
  destruct (String.eqb (action r) "error") eqn:E; [|reflexivity].
  apply String.eqb_eq in E. contradiction.
Qed.

Lemma sync_outcome_preview (site : Site) (title content : string) :
  reliable site ->
  action (fst (sync_outcome site title content))
  = preview (wiki_pages site) title content.
Proof.
  intros [_ Hw]. unfold sync_outcome, preview.
  destruct (content_equal _ _); [reflexivity|]. now rewrite Hw.
Qed.

Lemma sync_jobs_preview (add : SaveResult -> ImportStats -> ImportStats)
    (pages : pydict string) (jobs : list (string * string))
    (stats : ImportStats) (site : Site) :
  counts_by_action add ->
  reliable site ->
  NoDup (map fst jobs) ->
  (forall title, In title (map fst jobs) ->
     dict_get title (wiki_pages site) = dict_get title pages) ->
  fst (sync_jobs add jobs (stats, site)) = previewed_stats add pages jobs stats.
Proof.
  intros Hadd. revert stats site.
  induction jobs as [|[title content] jobs IH]; intros stats site Hrel Hnd Hsame;
    [reflexivity|].
  cbn [sync_jobs previewed_stats fold_left snd fst].
  pose proof (sync_outcome_preview site title content Hrel) as Hact.
  pose proof (sync_outcome_reliable site title content Hrel) as Hnext.
  cbn zeta in Hnext.
  destruct (sync_outcome site title content) as [r site1].
  cbn [fst snd] in *. destruct Hnext as (Hrel1 & _ & Hframe).
  cbn [map fst] in Hnd. inversion Hnd as [|? ? Hnotin Hnd']; subst.
  rewrite (Hadd r (previewed_result pages (title, content)) stats).
  - apply IH; [exact Hrel1 | exact Hnd' |].
    intros other Hin. rewrite Hframe.
    + apply Hsame. now right.
    + intros ->. contradiction.
  - cbn [previewed_result action fst snd]. rewrite Hact.
    apply preview_ext. apply Hsame. now left.
  - rewrite Hact. apply preview_not_error.
Qed.

Lemma dry_save_page_preview (c : DryRun) (title content summary : string) :
  exists r c',
    DryRunClient.save_page c title content summary = Ok (r, c')
    /\ existing_pages c' = existing_pages c
    /\ action r = preview (existing_pages c) title content.
Proof.
  unfold DryRunClient.save_page, preview.
  destruct (content_equal _ _); [eauto|].
  destruct (dict_mem _ _); eauto.
Qed.

Lemma dry_token_loop_preview (utcoffset : Z -> Z) (tokens : pydict Token)
    (jobs : list (string * string)) (stats : ImportStats) (c : DryRun) :
  token_jobs utcoffset tokens = Ok jobs ->
  exists c',
    for_each
      (fun '(stats, wiki) '(key, token) =>
         '(result, wiki') <- import_token utcoffset wiki token ;;
         Ok (add_token_result result stats, wiki'))
      tokens (stats, c)
    = Ok (previewed_stats add_token_result (existing_pages c) jobs stats, c')
    /\ existing_pages c' = existing_pages c.
Proof.
  revert jobs stats c. induction tokens as [|[key t] tokens IH];
    intros jobs stats c.
  - intros [= <-]. exists c. split; reflexivity.
  - cbn [token_jobs for_each]. unfold import_token at 1.
    destruct (generate_token_page_content utcoffset t) as [content|e];
      [|discriminate].
    cbn [Py.bind]. destruct (token_jobs utcoffset tokens) as [rest|e];
      [|discriminate].
    intros [= <-].
    cbn [page_exists save_page DryClient]. unfold DryRunClient.page_exists.
    cbn [Py.bind].
    match goal with
    | |- context [DryRunClient.save_page c ?ti ?co ?su] =>
        destruct (dry_save_page_preview c ti co su) as (r & c1 & -> & He & Ha)
    end.
    cbn [Py.bind].
    destruct (IH rest (add_token_result r stats) c1 eq_refl)
      as (c' & -> & He').
    exists c'. split; [|congruence].
    rewrite He. f_equal. f_equal. unfold previewed_stats.
    cbn [fold_left]. f_equal. apply add_token_result_by_action.
    + exact Ha.
    + rewrite Ha. apply preview_not_error.
Qed.

Lemma dry_leaderboard_loop_preview (tokens : pydict Token)
    (boards : list LeaderboardConfig) (stats : ImportStats) (c : DryRun) :
  exists c',
    for_each
      (fun '(stats, wiki) lb_config =>
         '(result, wiki') <- generate_leaderboard wiki tokens lb_config ;;
         Ok (add_leaderboard_result result stats, wiki'))
      boards (stats, c)
    = Ok (previewed_stats add_leaderboard_result (existing_pages c)
            (leaderboard_jobs tokens boards) stats, c')
    /\ existing_pages c' = existing_pages c.
Proof.
  revert stats c. induction boards as [|lb boards IH]; intros stats c.
  - exists c. split; reflexivity.
  - cbn [for_each leaderboard_jobs map]. unfold generate_leaderboard at 1.
    cbn [save_page DryClient].
    match goal with
    | |- context [DryRunClient.save_page c ?ti ?co ?su] =>
        destruct (dry_save_page_preview c ti co su) as (r & c1 & -> & He & Ha)
    end.
    cbn [Py.bind].
    destruct (IH (add_leaderboard_result r stats) c1) as (c' & -> & He').
    exists c'. split; [|congruence].
    rewrite He. f_equal. f_equal. unfold previewed_stats.
    cbn [fold_left]. f_equal. apply add_leaderboard_result_by_action.
    + exact Ha.
    + rewrite Ha. apply preview_not_error.
Qed.

(** X6.  A dry run that is given the pages of the wiki predicts the real
    run: on a wiki that answers every request, when the pages to write
    have pairwise distinct titles, the run on [DryRunClient(pages)]
    returns the very statistics of the run on the wiki. *)
Theorem X6_dry_run_predicts_real_run :
  forall (utcoffset : Z -> Z) (cd : chain_data) (config_page : string)
         (site site' : Site) (config : BotConfig) (tokens : pydict Token)
         (stats : ImportStats),
    reliable site ->
    load_config config_page site = Ok config ->
    load_tokens cd config = Ok tokens ->
    NoDup (page_titles tokens config) ->
    run utcoffset cd config_page site = Ok (stats, site') ->
    exists c',
      run utcoffset cd config_page (DryRunClient.init (Some (wiki_pages site)))
      = Ok (stats, c').
Proof.
  intros utcoffset cd config_page site site' config tokens stats
    Hrel Hconfig Htokens Hnd Hrun.
  pose proof Hrel as [Hreads _].
  rewrite load_config_reads_ok in Hconfig by assumption.
  injection Hconfig as Hconfig.
  rewrite run_reads_ok in Hrun by assumption. cbn zeta in Hrun.
  rewrite Hconfig, Htokens in Hrun. cbn [Py.bind] in Hrun.
  destruct (token_jobs utcoffset tokens) as [jobs|e] eqn:Hjobs;
    [|discriminate].
  cbn [Py.bind] in Hrun. injection Hrun as Hrun.
  apply (f_equal fst) in Hrun. cbn [fst] in Hrun.
  unfold page_titles in Hnd.
  destruct (NoDup_app_disjoint _ _ _ Hnd) as (Hnd1 & Hnd2 & Hdis).
  pose proof (token_jobs_titles _ _ _ Hjobs) as Htitles.
  (* the token pass *)
  pose proof (sync_jobs_preview add_token_result (wiki_pages site) jobs
                ImportStats_init site add_token_result_by_action Hrel) as Htok.
  rewrite Htitles in Htok. specialize (Htok Hnd1 (fun _ _ => eq_refl)).
  pose proof (sync_jobs_synced add_token_result jobs (ImportStats_init, site)
                Hrel) as Hsynced.
  rewrite Htitles in Hsynced. specialize (Hsynced Hnd1). cbn zeta in Hsynced.
  destruct Hsynced as (Hrel1 & _ & Hframe).
  destruct (sync_jobs add_token_result jobs (ImportStats_init, site))
    as [stats1 site1] eqn:Hpass.
  cbn [fst snd] in *.
  (* the leaderboard pass *)
  pose proof (sync_jobs_preview add_leaderboard_result (wiki_pages site)
                (leaderboard_jobs tokens (leaderboards config))
                stats1 site1 add_leaderboard_result_by_action Hrel1) as Hlb.
  rewrite leaderboard_jobs_titles in Hlb. specialize (Hlb Hnd2).
  rewrite Hlb in Hrun.
  2:{ intros title Hin. apply Hframe. intros Hin'. exact (Hdis _ Hin' Hin). }
  (* the dry run *)
  unfold run. cbn [load_config].
  assert (Hdry_config :
    load_config config_page (DryRunClient.init (Some (wiki_pages site)))
    = Ok config).
  { unfold load_config. cbn [get_page_content DryClient].
    unfold DryRunClient.get_page_content, DryRunClient.init.
    cbn [existing_pages Py.bind]. rewrite <- Hconfig. unfold config_of.
    destruct (dict_get config_page (wiki_pages site)) as [text|];
      [|reflexivity].
    destruct (truthy_str text); [|reflexivity].
    destruct (parse_config_from_wikitext text); reflexivity. }
  rewrite Hdry_config. cbn [Py.bind]. rewrite Htokens. cbn [Py.bind].
  destruct (dry_token_loop_preview utcoffset tokens jobs ImportStats_init
              (DryRunClient.init (Some (wiki_pages site))) Hjobs)
    as (c1 & -> & He1).
  cbn [Py.bind].
  destruct (dry_leaderboard_loop_preview tokens (leaderboards config)
              (previewed_stats add_token_result
                 (existing_pages (DryRunClient.init (Some (wiki_pages site))))
                 jobs ImportStats_init) c1)
    as (c2 & -> & He2).
  exists c2. rewrite He1. unfold DryRunClient.init. cbn [existing_pages].
  rewrite <- Hrun, <- Htok. reflexivity.
Qed.

Lemma X6_dry_run_predicts_real_run_witness :
  exists c',
    run utc fixture_dump CONFIG_PAGE
      (DryRunClient.init (Some (wiki_pages fresh_wiki)))
    = Ok (fst fixture_first_run, c').
Proof.
  apply (X6_dry_run_predicts_real_run utc fixture_dump CONFIG_PAGE fresh_wiki
           (snd fixture_first_run) fixture_config fixture_tokens
           (fst fixture_first_run)).
  - exact fresh_wiki_reliable.
  - vm_compute. reflexivity.
  - vm_compute. reflexivity.
  - exact fixture_titles_distinct.
  - vm_compute. reflexivity.
Defined.

(** ** The configuration and the tokens of a run *)

Lemma get_or_None_truthy (k : string) (params : pydict string) (s : string) :
  get_or_None k params = Some s -> s <> EmptyString.
Proof.
  unfold get_or_None. destruct (dict_get k params) as [v|]; [|discriminate].
  destruct v; [discriminate|]. intros [= <-]. discriminate.
Qed.

Lemma get_or_None_not_empty (k : string) (params : pydict string) :
  get_or_None k params <> Some EmptyString.
Proof. intros Hs. now apply get_or_None_truthy in Hs. Qed.

Lemma LeaderboardConfig_init_usable (page title description : string)
    (fs fo : option string) (sort : string) :
  page <> EmptyString -> fs <> Some EmptyString -> fo <> Some EmptyString ->
  usable_leaderboard (LeaderboardConfig_init page title description fs fo sort).
Proof.
  intros Hp Hs Ho. unfold usable_leaderboard, LeaderboardConfig_init.
  cbn [Models.page Models.title Models.filter_song_id Models.filter_owner].
  split; [exact Hp|]. split; [|split; assumption].
  destruct title; [exact Hp | discriminate].
Qed.

Lemma get_default_config_usable : usable_config get_default_config.
Proof.
  split; [discriminate|]. constructor; [|constructor].
  apply LeaderboardConfig_init_usable; discriminate.
Qed.

Lemma parse_config_usable (wikitext : string) (config : BotConfig) :
  parse_config_from_wikitext wikitext = Some config -> usable_config config.
Proof.
  unfold parse_config_from_wikitext.
  set (text := strip_pre_blocks wikitext).
  match goal with
  | |- context [flat_map ?f (finditer "BlueRailroadSource" text)] =>
      set (srcs := flat_map f (finditer "BlueRailroadSource" text))
  end.
  match goal with
  | |- context [flat_map ?f (finditer "BlueRailroadLeaderboard" text)] =>
      set (lbs := flat_map f (finditer "BlueRailroadLeaderboard" text))
  end.
  assert (Hlbs : Forall usable_leaderboard lbs).
  { apply Forall_forall. intros lb Hin. subst lbs.
    apply in_flat_map in Hin. destruct Hin as (body & _ & Hin).
    destruct (get_or_None "page" (parse_template_params body)) as [p|] eqn:Hp;
      [|destruct Hin].
    destruct Hin as [<- | []].
    apply LeaderboardConfig_init_usable.
    - eapply get_or_None_truthy. exact Hp.
    - apply get_or_None_not_empty.
    - apply get_or_None_not_empty. }
  destruct srcs as [|s srcs]; [destruct lbs as [|lb lbs]|].
  - discriminate.
  - intros [= <-]. split; [discriminate | exact Hlbs].
  - intros [= <-]. split; [discriminate | exact Hlbs].
Qed.

(** X7.  Whatever client it reads from, [load_config] returns a
    configuration that can be used: it has a source, and each of its
    leaderboards names a page, has a title, and has no blank filter.  When
    the configuration page is missing or empty, the configuration is the
    default one. *)
Theorem X7_load_config_usable :
  forall (W : Type) (client : WikiClientProtocol W) (config_page : string)
         (wiki : W) (config : BotConfig),
    load_config config_page wiki = Ok config ->
    usable_config config
    /\ (get_page_content wiki config_page = Ok None
        \/ get_page_content wiki config_page = Ok (Some EmptyString) ->
        config = get_default_config).
Proof.
  intros W client config_page wiki config. unfold load_config.
  destruct (get_page_content wiki config_page) as [[text|]|e];
    cbn [Py.bind]; [| |discriminate].
  - destruct (truthy_str text) eqn:Ht.
    + destruct (parse_config_from_wikitext text) as [parsed|] eqn:Hp.
      * intros [= <-]. split; [now apply parse_config_usable in Hp|].
        intros [[=] | [= ->]]. discriminate.
      * intros [= <-]. split; [apply get_default_config_usable | reflexivity].
    + intros [= <-]. split; [apply get_default_config_usable | reflexivity].
  - intros [= <-]. split; [apply get_default_config_usable | reflexivity].
Qed.

Lemma X7_load_config_usable_witness :
  usable_config fixture_config.
Proof.
  apply (X7_load_config_usable Site MWClient CONFIG_PAGE fresh_wiki
           fixture_config).
  vm_compute. reflexivity.
Defined.

Lemma dict_set_wf {V : Type} (k : string) (v : V) (d : pydict V) :
  wf_dict d -> wf_dict (dict_set k v d).
Proof.
  unfold wf_dict, dict_keys.
  induction d as [|[k' v'] d IH]; simpl; intros Hnd.
  - constructor; [intros [] | constructor].
  - inversion Hnd as [|? ? Hnotin Hnd']; subst.
    destruct (String.eqb k k') eqn:E; simpl.
    + constructor; assumption.
    + constructor; [|now apply IH].
      intros Hin. apply in_map_iff in Hin. destruct Hin as ([k2 v2] & Hk & Hin).
      simpl in Hk. subst k2. apply In_dict_set in Hin.
      destruct Hin as [[-> _] | Hin].
      * now rewrite String.eqb_refl in E.
      * apply Hnotin. apply in_map_iff. exists (k', v2). auto.
Qed.

Lemma fold_set_token_wf (l : list RawToken) (acc : pydict RawToken) :
  wf_dict acc -> wf_dict (fold_left set_token l acc).
Proof.
  revert acc. induction l as [|x l IH]; intros acc Hwf; [exact Hwf|].
  cbn [fold_left]. apply IH. now apply dict_set_wf.
Qed.

Lemma fold_set_token_In (l : list RawToken) (acc : pydict RawToken)
    (k : string) (r : RawToken) :
  In (k, r) (fold_left set_token l acc) -> In (k, r) acc \/ In r l.
Proof.
  revert acc. induction l as [|x l IH]; intros acc Hin; [now left|].
  cbn [fold_left] in Hin. apply IH in Hin. destruct Hin as [Hin | Hin].
  - unfold set_token in Hin. apply In_dict_set in Hin.
    destruct Hin as [[_ ->] | Hin]; [right; now left | now left].
  - right. now right.
Qed.

Lemma typed_fields (r : RawToken) (t : Token) :
  typed r = Some t ->
  token_id t = raw_token_id r /\ source_key t = raw_source_key r.
Proof.
  unfold typed.
  destruct (as_str (raw_owner r)); [|discriminate].
  destruct (as_str (raw_owner_display r)); [|discriminate].
  destruct (as_opt_int (raw_date r)); [|discriminate].
  destruct (as_opt_str (raw_uri r)); [|discriminate].
  destruct (as_opt_int (raw_blockheight r)); [|discriminate].
  destruct (as_opt_str (raw_video_hash r)); [|discriminate].
  intros [= <-]. split; reflexivity.
Qed.

Lemma typed_tokens_inv (d : pydict RawToken) (tokens : pydict Token) :
  typed_tokens d = Some tokens ->
  dict_keys tokens = dict_keys d
  /\ forall k t, In (k, t) tokens ->
       exists r, In (k, r) d /\ typed r = Some t.
Proof.
  revert tokens. induction d as [|[k r] d IH]; intros tokens.
  - intros [= <-]. split; [reflexivity | intros ? ? []].
  - cbn [typed_tokens]. destruct (typed r) as [t|] eqn:Ht; [|discriminate].
    destruct (typed_tokens d) as [rest|]; [|discriminate].
    intros [= <-]. destruct (IH rest eq_refl) as [Hkeys Hin].
    split; [simpl; now f_equal|].
    intros k' t' [[= <- <-] | Hin'].
    + exists r. split; [now left | exact Ht].
    + destruct (Hin _ _ Hin') as (r' & ? & ?). exists r'. split; [now right|auto].
Qed.

(** X8.  [load_tokens] invents nothing: the mapping that it returns has
    no repeated key; every entry is keyed by the source key and the id of
    its own token, joined by an underscore; and every token is the reading
    of a record that the dump holds under that id for a configured
    source. *)
Theorem X8_load_tokens_sound :
  forall (cd : chain_data) (config : BotConfig) (tokens : pydict Token),
    load_tokens cd config = Ok tokens ->
    wf_dict tokens
    /\ forall key t, In (key, t) tokens ->
         key = source_key t ++ "_" ++ token_id t
         /\ exists rec,
              present cd (sources config) (source_key t) (token_id t) rec
              /\ typed (parse_token (token_id t) rec (source_key t)) = Some t.
Proof.
  intros cd config tokens. unfold load_tokens.
  destruct (typed_tokens (aggregate_tokens_from_sources cd (sources config)))
    as [typed_all|] eqn:Ht; [|discriminate].
  intros [= <-]. apply typed_tokens_inv in Ht. destruct Ht as [Hkeys Hin].
  rewrite aggregate_as_fold in Hkeys, Hin.
  split.
  - unfold wf_dict. rewrite Hkeys. apply fold_set_token_wf. constructor.
  - intros key t Hkt. destruct (Hin _ _ Hkt) as (r & Hr & Htyped).
    destruct (typed_fields _ _ Htyped) as [Hid Hsk]. rewrite Hid, Hsk.
    split.
    + apply (fold_set_token_keys _ [] (fun _ _ F => match F with end) _ _ Hr).
    + apply fold_set_token_In in Hr. destruct Hr as [[] | Hr].
      apply In_all_yielded in Hr. destruct Hr as (sk & id & rec & Hp & ->).
      exists rec. cbn [parse_token raw_token_id raw_source_key]. split; [exact Hp|].
      exact Htyped.
Qed.

Lemma X8_load_tokens_sound_witness :
  exists tokens, load_tokens fixture_dump get_default_config = Ok tokens
                 /\ wf_dict tokens.
Proof.
  eexists. split; [vm_compute; reflexivity|].
  exact (proj1 (X8_load_tokens_sound fixture_dump get_default_config _ eq_refl)).
Defined.

(** ** The configuration parser *)

Lemma rstrip_idem (s : string) : rstrip (rstrip s) = rstrip s.
Proof.
  induction s as [|c s IH]; [reflexivity|].
  cbn [rstrip]. destruct (rstrip s) as [|c1 r] eqn:Er.
  - destruct (is_space c) eqn:Ec; [reflexivity|].
    cbn [rstrip]. now rewrite Ec.
  - change (rstrip (String c (String c1 r))) with
      (match rstrip (String c1 r) with
       | EmptyString => if is_space c then EmptyString else String c EmptyString
       | r0 => String c r0
       end).
    rewrite IH. reflexivity.
Qed.

Lemma lstrip_head (s : string) :
  lstrip s = EmptyString
  \/ exists c r, lstrip s = String c r /\ is_space c = false.
Proof.
  induction s as [|c s IH]; [now left|].
  cbn [lstrip]. destruct (is_space c) eqn:Ec; [exact IH|].
  right. exists c, s. auto.
Qed.

Lemma lstrip_rstrip_head (c : ascii) (r : string) :
  is_space c = false -> lstrip (rstrip (String c r)) = rstrip (String c r).
Proof.
  intros Hc. cbn [rstrip]. destruct (rstrip r).
  - rewrite Hc. cbn [lstrip]. now rewrite Hc.
  - cbn [lstrip]. now rewrite Hc.
Qed.

Lemma strip_idem (s : string) : strip (strip s) = strip s.
Proof.
  unfold strip. destruct (lstrip_head s) as [-> | (c & r & -> & Hc)].
  - reflexivity.
  - rewrite lstrip_rstrip_head by assumption. apply rstrip_idem.
Qed.

Lemma fold_params_inv (parts : list string) (acc : pydict string)
    (P : string -> string -> Prop) :
  (forall k v, In (k, v) acc -> P k v) ->
  (forall part key value, In part parts ->
     split_once "=" part = Some (key, value) -> P (strip key) (strip value)) ->
  forall k v,
    In (k, v)
      (fold_left
         (fun params part =>
            match split_once "=" part with
            | Some (key, value) => dict_set (strip key) (strip value) params
            | None => params
            end) parts acc) -> P k v.
Proof.
  revert acc. induction parts as [|part parts IH]; intros acc Hacc Hparts;
    [exact Hacc|].
  cbn [fold_left]. apply IH.
  - destruct (split_once "=" part) as [[key value]|] eqn:Es; [|exact Hacc].
    intros k v Hin. apply In_dict_set in Hin.
    destruct Hin as [[-> ->] | Hin]; [|now apply Hacc].
    apply (Hparts part); [now left | exact Es].
  - intros p key value Hin. apply Hparts. now right.
Qed.

Lemma fold_params_wf (parts : list string) (acc : pydict string) :
  wf_dict acc ->
  wf_dict
    (fold_left
       (fun params part =>
          match split_once "=" part with
          | Some (key, value) => dict_set (strip key) (strip value) params
          | None => params
          end) parts acc).
Proof.
  revert acc. induction parts as [|part parts IH]; intros acc Hwf; [exact Hwf|].
  cbn [fold_left]. apply IH.
  destruct (split_once "=" part) as [[key value]|]; [|exact Hwf].
  now apply dict_set_wf.
Qed.

(** X9.  The mapping that [parse_template_params] returns has no repeated
    key, its keys and values carry no white space at either end, and each
    entry is what stands on either side of the first equals sign of one of
    the parts between the pipes. *)
Theorem X9_template_params_are_stripped :
  forall (param_str : string),
    wf_dict (parse_template_params param_str)
    /\ forall k v, dict_get k (parse_template_params param_str) = Some v ->
         stripped k /\ stripped v
         /\ exists part key value,
              In part (split "|" param_str)
              /\ split_once "=" part = Some (key, value)
              /\ k = strip key /\ v = strip value.
Proof.
  intros param_str. split.
  - apply fold_params_wf. constructor.
  - intros k v Hget. apply dict_get_In in Hget.
    revert k v Hget. unfold parse_template_params.
    apply fold_params_inv.
    + intros k v [].
    + intros part key value Hin Hs. split; [apply strip_idem|].
      split; [apply strip_idem|]. exists part, key, value. auto.
Qed.

Lemma X9_template_params_are_stripped_witness :
  stripped "name" /\ stripped "Blue = x".
Proof.
  pose proof (proj2 (X9_template_params_are_stripped
                       ("| name = Blue = x |junk| k=w"))
                "name" "Blue = x" eq_refl) as (Hk & Hv & _).
  split; assumption.
Defined.

Lemma prefix_app_cases (p b s : string) :
  prefix p (b ++ s) = true ->
  prefix p b = true \/ exists q, p = b ++ q /\ prefix q s = true.
Proof.
  revert p. induction b as [|c b IH]; intros p Hp.
  - right. exists p. auto.
  - destruct p as [|x p]; [now left|].
    cbn [append prefix] in *. destruct (ascii_dec x c) as [->|]; [|discriminate].
    destruct (IH p Hp) as [Hb | (q & -> & Hq)]; [now left|].
    right. exists q. auto.
Qed.

Lemma append_empty_r (s : string) : s ++ EmptyString = s.
Proof. induction s as [|c s IH]; [reflexivity|]. simpl. now rewrite IH. Qed.

Lemma prefix_refl (s : string) : prefix s s = true.
Proof.
  induction s as [|c s IH]; [reflexivity|].
  cbn [prefix]. destruct (ascii_dec c c); [exact IH | congruence].
Qed.

Lemma has_char_app (x : ascii) (s1 s2 : string) :
  has_char x (s1 ++ s2) = has_char x s1 || has_char x s2.
Proof.
  induction s1 as [|c s1 IH]; [reflexivity|].
  cbn [append has_char]. rewrite IH. now rewrite orb_assoc.
Qed.

Lemma no_straddle (x : ascii) (n b rest : string) :
  has_char x n = false ->
  b <> EmptyString ->
  prefix (String x n) b = false ->
  prefix (String x n) (b ++ String x n ++ rest) = false.
Proof.
  intros Hn Hb Hpb.
  destruct (prefix (String x n) (b ++ String x n ++ rest)) eqn:E;
    [|reflexivity].
  apply prefix_app_cases in E. destruct E as [E | (q & Hq & Hpq)];
    [congruence|].
  destruct b as [|c0 b]; [congruence|].
  cbn [append] in Hq. injection Hq as -> ->.
  destruct q as [|y q].
  - rewrite append_empty_r in Hpb. now rewrite prefix_refl in Hpb.
  - cbn [append prefix] in Hpq.
    destruct (ascii_dec y c0) as [->|]; [|discriminate].
    rewrite has_char_app in Hn. cbn [has_char] in Hn.
    rewrite Ascii.eqb_refl in Hn. cbn [orb] in Hn.
    now rewrite orb_true_r in Hn.
Qed.

Lemma find_after_eq (needle s : string) :
  find_after needle s
  = if prefix needle s then Some (drop (String.length needle) s)
    else match s with
         | EmptyString => None
         | String _ s' => find_after needle s'
         end.
Proof. destruct s; reflexivity. Qed.

Lemma find_after_cons (needle : string) (c : ascii) (s : string) :
  find_after needle (String c s) = None ->
  prefix needle (String c s) = false /\ find_after needle s = None.
Proof.
  rewrite find_after_eq. destruct (prefix needle (String c s)); [discriminate|].
  auto.
Qed.

Lemma find_after_app (x : ascii) (n b rest : string) :
  has_char x n = false ->
  find_after (String x n) b = None ->
  find_after (String x n) (b ++ String x n ++ rest) = Some rest.
Proof.
  intros Hn. induction b as [|c b IH]; intros Hb.
  - cbn [append]. change (String x (n ++ rest)) with (String x n ++ rest).
    rewrite find_after_eq, prefix_app, drop_app. reflexivity.
  - apply find_after_cons in Hb. destruct Hb as [Hp Hb].
    rewrite find_after_eq.
    rewrite (no_straddle x n (String c b) rest Hn ltac:(discriminate) Hp).
    cbn [append]. now apply IH.
Qed.

Lemma drop_length_le (k : nat) (s : string) :
  (String.length (drop k s) <= String.length s)%nat.
Proof.
  revert s. induction k as [|k IH]; intros s; [simpl; lia|].
  destruct s as [|c s]; [simpl; lia|]. cbn [drop String.length].
  specialize (IH s). lia.
Qed.

Lemma find_after_length (needle s rest : string) :
  find_after needle s = Some rest ->
  (String.length rest <= String.length s)%nat.
Proof.
  induction s as [|c s IH]; rewrite find_after_eq.
  - destruct (prefix needle EmptyString); [|discriminate].
    intros [= <-]. destruct needle; simpl; lia.
  - destruct (prefix needle (String c s)) eqn:Ep.
    + intros [= <-]. clear. generalize (String c s) as t.
      apply drop_length_le.
    + intros Hf. apply IH in Hf. simpl. lia.
Qed.

Lemma strip_pre_from_fuel (n m : nat) (s : string) :
  (String.length s <= n)%nat -> (String.length s <= m)%nat ->
  strip_pre_from n s = strip_pre_from m s.
Proof.
  revert m s. induction n as [|n IH]; intros m s Hn Hm.
  - destruct s; [|simpl in Hn; lia]. destruct m; reflexivity.
  - destruct s as [|c s]; [destruct m; reflexivity|].
    destruct m as [|m]; [simpl in Hm; lia|].
    cbn [String.length] in Hn, Hm.
    cbn [strip_pre_from].
    destruct (prefix "<pre>" (String c s)).
    + destruct (find_after "</pre>" (drop 5 (String c s))) as [rest|] eqn:Ef.
      * apply find_after_length in Ef.
        pose proof (drop_length_le 4 s) as Hd.
        change (drop 5 (String c s)) with (drop 4 s) in Ef.
        apply IH; lia.
      * f_equal. apply IH; lia.
    + f_equal. apply IH; lia.
Qed.

Lemma strip_pre_skip (a x : string) (fuel : nat) :
  find_after "<pre>" a = None ->
  (String.length (a ++ "<pre>" ++ x) <= fuel)%nat ->
  strip_pre_from fuel (a ++ "<pre>" ++ x)
  = a ++ strip_pre_from (String.length ("<pre>" ++ x)) ("<pre>" ++ x).
Proof.
  revert fuel. induction a as [|c a IH]; intros fuel Ha Hfuel.
  - cbn [append] in *. apply strip_pre_from_fuel; [exact Hfuel | lia].
  - apply find_after_cons in Ha. destruct Ha as [Hp Ha].
    destruct fuel as [|fuel]; [simpl in Hfuel; lia|].
    change ((String c a ++ "<pre>" ++ x)) with (String c (a ++ "<pre>" ++ x)).
    cbn [strip_pre_from].
    change (String c (a ++ "<pre>" ++ x)) with (String c a ++ "<pre>" ++ x).
    rewrite (no_straddle "<" "pre>" (String c a) x eq_refl
               ltac:(discriminate) Hp).
    cbn [append]. f_equal. apply IH; [exact Ha|].
    cbn [append String.length] in Hfuel. simpl. simpl in Hfuel. lia.
Qed.

(** X10.  [strip_pre_blocks] removes a pre block whole: when no opening
    tag occurs in the text before the block and no closing tag occurs
    inside it, the text before the block is kept, the block is dropped
    with its tags, and the rest of the text is treated in the same way. *)
Theorem X10_strip_pre_blocks_removes_block :
  forall (a b c : string),
    find_after "<pre>" a = None ->
    find_after "</pre>" b = None ->
    strip_pre_blocks (a ++ "<pre>" ++ b ++ "</pre>" ++ c)
    = a ++ strip_pre_blocks c.
Proof.
  intros a b c Ha Hb. unfold strip_pre_blocks.
  rewrite strip_pre_skip by (assumption || lia). f_equal.
  change (String.length ("<pre>" ++ b ++ "</pre>" ++ c))
    with (S (String.length ("pre>" ++ b ++ "</pre>" ++ c))).
  change ("<pre>" ++ b ++ "</pre>" ++ c)
    with (String "<" ("pre>" ++ b ++ "</pre>" ++ c)).
  cbn [strip_pre_from].
  change (String "<" ("pre>" ++ b ++ "</pre>" ++ c))
    with ("<pre>" ++ b ++ "</pre>" ++ c).
  rewrite prefix_app.
  change (drop 5 ("<pre>" ++ b ++ "</pre>" ++ c))
    with (b ++ "</pre>" ++ c).
  rewrite (find_after_app "<" "/pre>" b c eq_refl Hb).
  apply strip_pre_from_fuel; [|lia].
  simpl. rewrite !length_append. simpl. lia.
Qed.

Lemma X10_strip_pre_blocks_removes_block_witness :
  strip_pre_blocks
    ("intro {{A}} " ++ "<pre>" ++ "{{BlueRailroadSource|x=1}}" ++ "</pre>"
       ++ " end")
  = "intro {{A}} " ++ strip_pre_blocks " end".
Proof.
  apply (X10_strip_pre_blocks_removes_block "intro {{A}} "
           "{{BlueRailroadSource|x=1}}" " end"); reflexivity.
Defined.

Lemma find_after_drop (needle : string) (k : nat) (s : string) :
  find_after needle s = None -> find_after needle (drop k s) = None.
Proof.
  revert s. induction k as [|k IH]; intros s Hs; [exact Hs|].
  destruct s as [|c s]; [exact Hs|]. cbn [drop].
  apply find_after_cons in Hs. apply IH. tauto.
Qed.

Lemma strip_pre_from_no_open (fuel : nat) (s : string) :
  find_after "<pre>" s = None -> strip_pre_from fuel s = s.
Proof.
  revert s. induction fuel as [|fuel IH]; intros s Hs; [reflexivity|].
  destruct s as [|c s]; [reflexivity|].
  apply find_after_cons in Hs. destruct Hs as [Hp Hs].
  cbn [strip_pre_from]. rewrite Hp. f_equal. now apply IH.
Qed.

Lemma strip_pre_from_no_close (fuel : nat) (s : string) :
  find_after "</pre>" s = None -> strip_pre_from fuel s = s.
Proof.
  revert s. induction fuel as [|fuel IH]; intros s Hs; [reflexivity|].
  destruct s as [|c s]; [reflexivity|].
  cbn [strip_pre_from].
  rewrite (find_after_drop "</pre>" 5 (String c s) Hs).
  apply find_after_cons in Hs. destruct Hs as [_ Hs].
  rewrite (IH s Hs). destruct (prefix "<pre>" (String c s)); reflexivity.
Qed.

(** X11.  [strip_pre_blocks] leaves a text as it is when the text has no
    opening tag or has no closing tag: a block that is never closed is not
    removed. *)
Theorem X11_strip_pre_blocks_needs_both_tags :
  forall (text : string),
    find_after "<pre>" text = None \/ find_after "</pre>" text = None ->
    strip_pre_blocks text = text.
Proof.
  intros text [Ho | Hc]; unfold strip_pre_blocks.
  - now apply strip_pre_from_no_open.
  - now apply strip_pre_from_no_close.
Qed.

Lemma X11_strip_pre_blocks_needs_both_tags_witness :
  strip_pre_blocks "a <pre> {{BlueRailroadSource|x=1}}"
  = "a <pre> {{BlueRailroadSource|x=1}}".
Proof.
  apply (X11_strip_pre_blocks_needs_both_tags
           "a <pre> {{BlueRailroadSource|x=1}}").
  right. reflexivity.
Defined.

(** ** Stability of the sort *)

Section StableFacts.
Context {A K : Type}.
Variable leb : K -> K -> bool.
Variable key : A -> K.
Variable reverse : bool.
Hypothesis leb_trans :
  forall x y z, leb x y = true -> leb y z = true -> leb x z = true.

Lemma insert_sorted_ties (k x : A) (l : list A) :
  filter (ties leb key k) (insert_sorted leb key reverse x l)
  = if ties leb key k x then x :: filter (ties leb key k) l
    else filter (ties leb key k) l.
Proof.
  induction l as [|y l IH].
  - reflexivity.
  - cbn [insert_sorted].
    destruct (goes_before leb key reverse x y) eqn:Eg.
    + reflexivity.
    + cbn [filter]. rewrite IH.
      destruct (ties leb key k x) eqn:Ex; [|reflexivity].
      destruct (ties leb key k y) eqn:Ey; [|reflexivity].
      exfalso. unfold ties in Ex, Ey.
      apply andb_true_iff in Ex, Ey. destruct Ex as [Hkx Hxk], Ey as [Hky Hyk].
      unfold goes_before in Eg. destruct reverse.
      * rewrite (leb_trans _ _ _ Hyk Hkx) in Eg. discriminate.
      * rewrite (leb_trans _ _ _ Hxk Hky) in Eg. discriminate.
Qed.

Lemma py_sorted_ties (k : A) (l : list A) :
  filter (ties leb key k) (py_sorted leb key reverse l)
  = filter (ties leb key k) l.
Proof.
  induction l as [|x l IH]; [reflexivity|].
  unfold py_sorted in *. cbn [fold_right filter].
  rewrite insert_sorted_ties, IH. reflexivity.
Qed.
End StableFacts.

Lemma ties_Zleb {A : Type} (key : A -> Z) (x y : A) :
  ties Z.leb key x y = (key y =? key x).
Proof.
  unfold ties.
  destruct (Z.leb_spec (key x) (key y)), (Z.leb_spec (key y) (key x)),
    (Z.eqb_spec (key y) (key x)); simpl; try reflexivity; lia.
Qed.

Lemma ties_oldest_key (stats : pydict OwnerStats) (a b : string) :
  ties number_leb (oldest_key stats) a b
  = (oldest_date (stats_at stats b) =? oldest_date (stats_at stats a)).
Proof.
  unfold ties, oldest_key.
  destruct (Z.eqb_spec (oldest_date (stats_at stats a)) 0) as [Ha | Ha],
    (Z.eqb_spec (oldest_date (stats_at stats b)) 0) as [Hb | Hb];
    cbn [negb number_leb andb].
  - rewrite Ha, Hb. reflexivity.
  - rewrite Ha. symmetry. now apply Z.eqb_neq.
  - rewrite Hb. symmetry. apply Z.eqb_neq. congruence.
  - destruct (Z.leb_spec (oldest_date (stats_at stats a))
                (oldest_date (stats_at stats b))),
      (Z.leb_spec (oldest_date (stats_at stats b))
         (oldest_date (stats_at stats a))),
      (Z.eqb_spec (oldest_date (stats_at stats b))
         (oldest_date (stats_at stats a))); simpl; try reflexivity; lia.
Qed.

(** X12.  [sort_owners] is stable in each of its modes: the owners that
    have the same value in the field that the mode orders by stand in the
    result in the order in which the statistics list them. *)
Theorem X12_sort_owners_stable :
  forall (stats : pydict OwnerStats) (sort_by : string) (a : string),
    filter (same_rank stats sort_by a) (sort_owners stats sort_by)
    = filter (same_rank stats sort_by a) (dict_keys stats).
Proof.
  intros stats sort_by a. unfold sort_owners, same_rank, ranked_field.
  destruct (String.eqb sort_by "newest");
    [|destruct (String.eqb sort_by "oldest")].
  - assert (Hext : forall l,
      filter (fun b => newest_date (stats_at stats b)
                       =? newest_date (stats_at stats a)) l
      = filter (ties Z.leb (fun a => newest_date (stats_at stats a)) a) l).
    { intros l. apply filter_ext. intros b. now rewrite ties_Zleb. }
    rewrite !Hext. apply py_sorted_ties. exact Zleb_trans.
  - assert (Hext : forall l,
      filter (fun b => oldest_date (stats_at stats b)
                       =? oldest_date (stats_at stats a)) l
      = filter (ties number_leb (oldest_key stats) a) l).
    { intros l. apply filter_ext. intros b. now rewrite ties_oldest_key. }
    rewrite !Hext. apply py_sorted_ties. exact number_leb_trans.
  - assert (Hext : forall l,
      filter (fun b => token_count (stats_at stats b)
                       =? token_count (stats_at stats a)) l
      = filter (ties Z.leb (fun a => token_count (stats_at stats a)) a) l).
    { intros l. apply filter_ext. intros b. now rewrite ties_Zleb. }
    rewrite !Hext. apply py_sorted_ties. exact Zleb_trans.
Qed.

Lemma X12_sort_owners_stable_witness :
  filter (same_rank sample_stats "newest" "0xCarol")
    (sort_owners sample_stats "newest")
  = filter (same_rank sample_stats "newest" "0xCarol") (dict_keys sample_stats).
Proof. exact (X12_sort_owners_stable sample_stats "newest" "0xCarol"). Defined.

(** ** Filters, published pages and rows *)

Lemma filter_twice {A : Type} (f g : A -> bool) (l : list A) :
  filter f (filter g l) = filter (fun x => g x && f x) l.
Proof.
  induction l as [|x l IH]; [reflexivity|].
  cbn [filter]. destruct (g x); cbn [andb filter]; [|exact IH].
  destruct (f x); now rewrite IH.
Qed.

Lemma filter_wf {V : Type} (f : string * V -> bool) (d : pydict V) :
  wf_dict d -> wf_dict (filter f d).
Proof.
  unfold wf_dict, dict_keys. induction d as [|[k v] d IH]; intros Hnd;
    [exact Hnd|].
  cbn [map fst] in Hnd. inversion Hnd as [|? ? Hnotin Hnd']; subst.
  cbn [filter]. destruct (f (k, v)); [|now apply IH].
  cbn [map fst]. constructor; [|now apply IH].
  intros Hin. apply Hnotin. apply in_map_iff in Hin.
  destruct Hin as (x & Hx & Hin). apply filter_In in Hin.
  apply in_map_iff. exists x. tauto.
Qed.

(** X13.  On a mapping with no repeated key, [filter_tokens] returns a
    mapping with no repeated key; with no filter it returns the mapping as
    it is; the two filters can be applied one after the other, in either
    order, with the result of applying both at once; filtering twice is
    filtering once; and a non-empty song filter keeps exactly the tokens
    of that song. *)
Theorem X13_filter_tokens_composes :
  forall (tokens : pydict Token) (fs fo : option string),
    wf_dict tokens ->
    wf_dict (filter_tokens tokens fs fo)
    /\ filter_tokens tokens None None = tokens
    /\ filter_tokens (filter_tokens tokens fs None) None fo
       = filter_tokens tokens fs fo
    /\ filter_tokens (filter_tokens tokens None fo) fs None
       = filter_tokens tokens fs fo
    /\ filter_tokens (filter_tokens tokens fs fo) fs fo
       = filter_tokens tokens fs fo
    /\ (forall f key t, fs = Some f -> f <> EmptyString ->
          In (key, t) (filter_tokens tokens fs None)
          <-> In (key, t) tokens /\ song_id t = Some f).
Proof.
  intros tokens fs fo Hwf.
  assert (Hf : forall s o, filter_tokens tokens s o
                           = filter (passes s o) tokens).
  { intros s o. now apply filter_tokens_filter. }
  assert (Hwf' : forall s o, wf_dict (filter_tokens tokens s o)).
  { intros s o. rewrite Hf. now apply filter_wf. }
  split; [apply Hwf'|]. split; [|split; [|split; [|split]]].
  - rewrite Hf. apply filter_all. intros x _. reflexivity.
  - rewrite (filter_tokens_filter None fo) by apply Hwf'.
    rewrite !Hf, filter_twice. apply filter_ext. intros [key t].
    unfold passes. cbn [snd].
    destruct (song_passes fs t), (owner_passes fo t); reflexivity.
  - rewrite (filter_tokens_filter fs None) by apply Hwf'.
    rewrite !Hf, filter_twice. apply filter_ext. intros [key t].
    unfold passes. cbn [snd].
    destruct (song_passes fs t), (owner_passes fo t); reflexivity.
  - rewrite (filter_tokens_filter fs fo) by apply Hwf'.
    rewrite !Hf, filter_twice. apply filter_ext. intros x.
    now destruct (passes fs fo x).
  - intros f key t -> Hne. rewrite Hf, filter_In.
    unfold passes. cbn [snd song_passes owner_passes].
    destruct f as [|c f]; [congruence|]. cbn [truthy_str].
    rewrite andb_true_r. destruct (song_id t) as [s|].
    + rewrite String.eqb_eq. split; intros [? ?]; split; congruence.
    + split; intros [? ?]; [discriminate | congruence].
Qed.

Lemma X13_filter_tokens_composes_witness :
  filter_tokens (filter_tokens sample_tokens (Some "5") None) None
    (Some "0xalice")
  = filter_tokens sample_tokens (Some "5") (Some "0xalice").
Proof.
  exact (proj1 (proj2 (proj2 (X13_filter_tokens_composes sample_tokens
                                (Some "5") (Some "0xalice")
                                sample_tokens_wf)))).
Defined.

Lemma token_jobs_In (utcoffset : Z -> Z) (tokens : pydict Token)
    (jobs : list (string * string)) (key : string) (t : Token) :
  token_jobs utcoffset tokens = Ok jobs ->
  In (key, t) tokens ->
  exists content,
    generate_token_page_content utcoffset t = Ok content
    /\ In (token_title t, content) jobs.
Proof.
  revert jobs. induction tokens as [|[k x] tokens IH]; intros jobs Hj Hin;
    [destruct Hin|].
  cbn [token_jobs] in Hj.
  destruct (generate_token_page_content utcoffset x) as [content|e] eqn:Eg;
    [|discriminate].
  cbn [Py.bind] in Hj. destruct (token_jobs utcoffset tokens) as [rest|e];
    [|discriminate].
  injection Hj as <-. destruct Hin as [[= -> ->] | Hin].
  - exists content. split; [exact Eg | now left].
  - destruct (IH rest eq_refl Hin) as (c & Hc & Hin'). exists c.
    split; [exact Hc | now right].
Qed.

(** X15.  What a run leaves behind on a wiki that answers every request,
    when the pages to write have pairwise distinct titles: the page of
    every token holds the generated token page, the page of every
    configured leaderboard holds the generated leaderboard, and every
    other page of the wiki holds what it held. *)
Theorem X15_run_publishes_every_page :
  forall (utcoffset : Z -> Z) (cd : chain_data) (config_page : string)
         (site site' : Site) (config : BotConfig) (tokens : pydict Token)
         (stats : ImportStats),
    reliable site ->
    load_config config_page site = Ok config ->
    load_tokens cd config = Ok tokens ->
    NoDup (page_titles tokens config) ->
    run utcoffset cd config_page site = Ok (stats, site') ->
    (forall key t, In (key, t) tokens ->
       exists content,
         generate_token_page_content utcoffset t = Ok content
         /\ dict_get ("Blue Railroad Token " ++ token_id t) (wiki_pages site')
            = Some content)
    /\ (forall lb, In lb (leaderboards config) ->
          dict_get (page lb) (wiki_pages site')
          = Some (generate_leaderboard_content tokens lb))
    /\ (forall other, ~ In other (page_titles tokens config) ->
          dict_get other (wiki_pages site') = dict_get other (wiki_pages site)).
Proof.
  intros utcoffset cd config_page site site' config tokens stats
    Hrel Hconfig Htokens Hnd Hrun.
  pose proof (proj1 Hrel) as Hreads.
  rewrite load_config_reads_ok in Hconfig by assumption.
  injection Hconfig as Hconfig.
  rewrite run_reads_ok in Hrun by assumption. cbn zeta in Hrun.
  rewrite Hconfig, Htokens in Hrun. cbn [Py.bind] in Hrun.
  destruct (token_jobs utcoffset tokens) as [jobs|e] eqn:Ejobs;
    [|discriminate].
  cbn [Py.bind] in Hrun.
  pose proof (token_jobs_titles _ _ _ Ejobs) as Htitles.
  unfold page_titles in *.
  destruct (NoDup_app_disjoint _ _ _ Hnd) as (Hnd1 & Hnd2 & Hdis).
  rewrite <- Htitles in *.
  rewrite <- (leaderboard_jobs_titles tokens) in *.
  destruct (sync_jobs_synced add_token_result jobs (ImportStats_init, site)
              Hrel Hnd1) as (Hrel_a & Hsync_a & Hrest_a).
  destruct (sync_jobs add_token_result jobs (ImportStats_init, site))
    as [stats_a site_a].
  cbn [snd] in *.
  destruct (sync_jobs_synced add_leaderboard_result
              (leaderboard_jobs tokens (leaderboards config))
              (stats_a, site_a) Hrel_a Hnd2) as (Hrel1 & Hsync1 & Hrest1).
  injection Hrun as Hrun.
  rewrite Hrun in Hrel1, Hsync1, Hrest1. cbn [snd] in *.
  split; [|split].
  - intros key t Hin.
    destruct (token_jobs_In _ _ _ _ _ Ejobs Hin) as (content & Hc & Hjob).
    exists content. split; [exact Hc|].
    change ("Blue Railroad Token " ++ token_id t) with (token_title t).
    rewrite Hrest1.
    + now apply Hsync_a.
    + apply Hdis. change (token_title t) with (fst (token_title t, content)).
      now apply in_map.
  - intros lb Hin. apply Hsync1. unfold leaderboard_jobs.
    apply in_map_iff. exists lb. auto.
  - intros other Hnot. rewrite Hrest1, Hrest_a; [reflexivity| |];
      intros Hin; apply Hnot; apply in_or_app; auto.
Qed.

Lemma X15_run_publishes_every_page_witness :
  dict_get "Blue Railroad Leaderboard" (wiki_pages (snd fixture_first_run))
  = Some (generate_leaderboard_content fixture_tokens
            (LeaderboardConfig_init "Blue Railroad Leaderboard"
               "Overall Leaderboard" EmptyString None None "count")).
Proof.
  apply (proj1 (proj2
           (X15_run_publishes_every_page utc fixture_dump CONFIG_PAGE
              fresh_wiki (snd fixture_first_run) fixture_config
              fixture_tokens (fst fixture_first_run)
              fresh_wiki_reliable
              ltac:(vm_compute; reflexivity)
              ltac:(vm_compute; reflexivity)
              fixture_titles_distinct
              ltac:(vm_compute; reflexivity)))
           (LeaderboardConfig_init "Blue Railroad Leaderboard"
              "Overall Leaderboard" EmptyString None None "count")).
  vm_compute. left. reflexivity.
Defined.

Section SortedMap.
Context {A B K : Type}.
Variable leb : K -> K -> bool.
Variable key : B -> K.
Variable reverse : bool.
Variable f : A -> B.

Lemma insert_sorted_map (x : A) (l : list A) :
  insert_sorted leb key reverse (f x) (map f l)
  = map f (insert_sorted leb (fun a => key (f a)) reverse x l).
Proof.
  induction l as [|y l IH]; [reflexivity|].
  cbn [map insert_sorted]. unfold goes_before.
  destruct (if reverse then leb (key (f y)) (key (f x))
            else leb (key (f x)) (key (f y))); [reflexivity|].
  cbn [map]. now rewrite IH.
Qed.

Lemma py_sorted_map (l : list A) :
  py_sorted leb key reverse (map f l)
  = map f (py_sorted leb (fun a => key (f a)) reverse l).
Proof.
  induction l as [|x l IH]; [reflexivity|].
  unfold py_sorted in *. cbn [map fold_right].
  rewrite IH. apply insert_sorted_map.
Qed.
End SortedMap.

Lemma insert_sorted_key_ext {A K : Type} (leb : K -> K -> bool)
    (key key' : A -> K) (reverse : bool) (x : A) (s : list A) :
  key x = key' x ->
  (forall y, In y s -> key y = key' y) ->
  insert_sorted leb key reverse x s = insert_sorted leb key' reverse x s.
Proof.
  intros Hx. induction s as [|y s IH]; intros Hs; [reflexivity|].
  cbn [insert_sorted]. unfold goes_before.
  rewrite Hx, (Hs y (or_introl eq_refl)).
  destruct (if reverse then leb (key' y) (key' x) else leb (key' x) (key' y));
    [reflexivity|].
  f_equal. apply IH. intros z Hz. apply Hs. now right.
Qed.

Lemma py_sorted_key_ext {A K : Type} (leb : K -> K -> bool)
    (key key' : A -> K) (reverse : bool) (l : list A) :
  (forall x, In x l -> key x = key' x) ->
  py_sorted leb key reverse l = py_sorted leb key' reverse l.
Proof.
  induction l as [|x l IH]; intros Hk; [reflexivity|].
  unfold py_sorted in *. cbn [fold_right].
  rewrite IH by (intros y Hy; apply Hk; now right).
  apply insert_sorted_key_ext; [apply Hk; now left|].
  intros y Hy. apply Hk. right.
  apply (Permutation_in y
           (Permutation_sym (py_sorted_perm leb key' reverse l))).
  exact Hy.
Qed.

Lemma token_id_key_str_int (n : Z) : 0 <= n -> token_id_key (str_int n) = n.
Proof.
  intros Hn. unfold token_id_key.
  rewrite isdigit_str_int, int_of_str_str_int.
  destruct (Z.leb_spec 0 n); [reflexivity | lia].
Qed.

(** X16.  The row of a holder lists the token ids in numeric order, not
    in the order of their digits as text: when the ids are the decimal
    numerals of non-negative numbers, the links of the row are those of
    the numbers in ascending order. *)
Theorem X16_row_lists_ids_in_numeric_order :
  forall (rank : Z) (s : OwnerStats) (ns : list Z),
    Forall (fun n => 0 <= n) ns ->
    token_ids s = map str_int ns ->
    leaderboard_row rank s
    = [ "|-";
        "| " ++ str_int rank ++ " || " ++ display_name s ++ " || "
          ++ str_int (token_count s) ++ " || "
          ++ join ", " (map token_link (map str_int (ascending ns))) ]
    /\ Permutation ns (ascending ns)
    /\ StronglySorted Z.le (ascending ns).
Proof.
  intros rank s ns Hpos Hids. split; [|split].
  - unfold leaderboard_row. rewrite Hids, py_sorted_map.
    rewrite (py_sorted_key_ext Z.leb (fun a => token_id_key (str_int a))
               (fun n => n)).
    + reflexivity.
    + intros n Hn. apply token_id_key_str_int.
      rewrite Forall_forall in Hpos. now apply Hpos.
  - apply py_sorted_perm.
  - eapply StronglySorted_weaken;
      [|apply (py_sorted_sorted Z.leb (fun n : Z => n) false
                 Zleb_total Zleb_trans)].
    intros a b Hab. apply Z.leb_le. exact Hab.
Qed.

Lemma X16_row_lists_ids_in_numeric_order_witness :
  ascending [10; 9; 100] = [9; 10; 100]
  /\ leaderboard_row 1 (mkOwnerStats "0xA" "a.eth" 3 ["10"; "9"; "100"] 0 0)
     = [ "|-";
         "| 1 || a.eth || 3 || [[Blue Railroad Token 9|#9]], [[Blue Railroad Token 10|#10]], [[Blue Railroad Token 100|#100]]" ].
Proof.
  split; [reflexivity|].
  exact (proj1 (X16_row_lists_ids_in_numeric_order 1
                  (mkOwnerStats "0xA" "a.eth" 3 ["10"; "9"; "100"] 0 0)
                  [10; 9; 100]
                  ltac:(repeat constructor; lia) eq_refl)).
Defined.

(** ** The address of the site *)

Lemma rstrip_char_snoc (x : ascii) (s : string) :
  rstrip_char x (s ++ String x EmptyString) = rstrip_char x s.
Proof.
  induction s as [|c s IH].
  - cbn. now rewrite Ascii.eqb_refl.
  - cbn [append rstrip_char]. now rewrite IH.
Qed.

Lemma rstrip_char_no_trailing (x : ascii) (s h : string) :
  rstrip_char x s <> h ++ String x EmptyString.
Proof.
  revert h. induction s as [|c s IH]; intros h.
  - destruct h; discriminate.
  - cbn [rstrip_char]. destruct (rstrip_char x s) as [|c1 r] eqn:Er.
    + destruct (Ascii.eqb c x) eqn:Ec; [destruct h; discriminate|].
      destruct h as [|c0 h]; cbn [append].
      * intros [= ->]. now rewrite Ascii.eqb_refl in Ec.
      * destruct h; discriminate.
    + destruct h as [|c0 h]; cbn [append]; [discriminate|].
      intros [= _ Hr]. exact (IH h Hr).
Qed.

Lemma rstrip_char_id (x : ascii) (s : string) :
  (forall h, s <> h ++ String x EmptyString) -> rstrip_char x s = s.
Proof.
  induction s as [|c s IH]; intros Hs; [reflexivity|].
  cbn [rstrip_char]. destruct s as [|c1 s1].
  - cbn [rstrip_char]. destruct (Ascii.eqb_spec c x) as [-> | Hne];
      [|reflexivity].
    exfalso. now apply (Hs EmptyString).
  - rewrite IH; [reflexivity|].
    intros h Hh. apply (Hs (String c h)). cbn [append]. now rewrite Hh.
Qed.

Lemma prefix_split (p s : string) :
  prefix p s = true -> s = p ++ drop (String.length p) s.
Proof.
  revert s. induction p as [|c p IH]; intros s Hp; [reflexivity|].
  destruct s as [|c' s]; [discriminate|]. cbn [prefix] in Hp.
  destruct (ascii_dec c c') as [->|]; [|discriminate].
  cbn [append String.length drop]. f_equal. now apply IH.
Qed.

Lemma site_address_https (r : string) :
  MWClientWrapper.site_address ("https://" ++ r) = (rstrip_char "/" r, "https").
Proof.
  unfold MWClientWrapper.site_address, startswith. rewrite prefix_app.
  change 8%nat with (String.length "https://"). now rewrite drop_app.
Qed.

Lemma site_address_http (r : string) :
  MWClientWrapper.site_address ("http://" ++ r) = (rstrip_char "/" r, "http").
Proof.
  unfold MWClientWrapper.site_address, startswith.
  replace (prefix "https://" ("http://" ++ r)) with false by reflexivity.
  rewrite prefix_app.
  change 7%nat with (String.length "http://"). now rewrite drop_app.
Qed.

(** X14.  The address that [MWClientWrapper.__init__] works out from the
    site URL: the scheme is [https], or [http] exactly when the URL begins
    with [http://]; the host never ends with a slash; a trailing slash
    after an explicit scheme changes nothing; and a URL with an explicit
    scheme and no trailing slash has the rest of the URL as its host. *)
Theorem X14_site_address_normalised :
  forall (site_url : string),
    (snd (MWClientWrapper.site_address site_url) = "https"
     \/ snd (MWClientWrapper.site_address site_url) = "http")
    /\ (snd (MWClientWrapper.site_address site_url) = "http"
        <-> startswith "http://" site_url = true)
    /\ (forall h, fst (MWClientWrapper.site_address site_url) <> h ++ "/")
    /\ MWClientWrapper.site_address ("https://" ++ site_url ++ "/")
       = MWClientWrapper.site_address ("https://" ++ site_url)
    /\ MWClientWrapper.site_address ("http://" ++ site_url ++ "/")
       = MWClientWrapper.site_address ("http://" ++ site_url)
    /\ ((forall h, site_url <> h ++ "/") ->
        MWClientWrapper.site_address ("https://" ++ site_url) = (site_url, "https")
        /\ MWClientWrapper.site_address ("http://" ++ site_url) = (site_url, "http")).
Proof.
  intros site_url. split; [|split; [|split; [|split; [|split]]]].
  - unfold MWClientWrapper.site_address.
    destruct (startswith "https://" site_url); [now left|].
    destruct (startswith "http://" site_url); [now right | now left].
  - destruct (startswith "https://" site_url) eqn:Es.
    + unfold startswith in Es. apply prefix_split in Es. rewrite Es.
      rewrite site_address_https. unfold startswith.
      replace (prefix "http://"
                 ("https://" ++ drop (String.length "https://") site_url))
        with false by reflexivity.
      cbn [snd]. split; discriminate.
    + unfold MWClientWrapper.site_address. rewrite Es.
      destruct (startswith "http://" site_url); cbn [snd];
        split; (reflexivity || discriminate).
  - intros h. unfold MWClientWrapper.site_address.
    destruct (startswith "https://" site_url);
      [|destruct (startswith "http://" site_url)];
      cbn [fst]; apply rstrip_char_no_trailing.
  - rewrite !site_address_https. f_equal. apply rstrip_char_snoc.
  - rewrite !site_address_http. f_equal. apply rstrip_char_snoc.
  - intros Hs. rewrite site_address_https, site_address_http.
    rewrite rstrip_char_id by assumption. split; reflexivity.
Qed.

Lemma X14_site_address_normalised_witness :
  MWClientWrapper.site_address ("https://" ++ "pickipedia.xyz" ++ "/")
  = MWClientWrapper.site_address ("https://" ++ "pickipedia.xyz").
Proof.
  exact (proj1 (proj2 (proj2 (proj2
           (X14_site_address_normalised "pickipedia.xyz"))))).
Defined.

(** ** Runs that are cut short, and what a dry run records *)

Lemma token_jobs_raise (utcoffset : Z -> Z) (tokens : pydict Token) (e : exn) :
  token_jobs utcoffset tokens = Raise e
  <-> e = OverflowError
      /\ exists key t z, In (key, t) tokens /\ is_v2 t = false
                         /\ date t = Some z /\ TIME_T_MAX < z.
Proof.
  revert e. induction tokens as [|[key t] tokens IH]; intros e.
  - split; [discriminate | intros (_ & ? & ? & ? & [] & _)].
  - cbn [token_jobs].
    destruct (generate_token_page_content utcoffset t) as [content|e0] eqn:Eg.
    + cbn [Py.bind].
      destruct (token_jobs utcoffset tokens) as [jobs|e1]; cbn [Py.bind].
      * split; [discriminate|].
        intros (-> & k & x & z & [[= -> ->] | Hin] & Hv & Hd & Hz).
        -- assert (Hr : generate_token_page_content utcoffset x
                         = Raise OverflowError)
             by (apply token_page_raises; eauto).
           congruence.
        -- assert (Hr : @Ok (list (string * string)) jobs = Raise OverflowError)
             by (apply IH; eauto 8).
           discriminate.
      * split.
        -- intros [= <-]. destruct (proj1 (IH e1) eq_refl)
             as (-> & k & x & z & Hin & Hrest).
           split; [reflexivity|]. exists k, x, z. split; [now right | exact Hrest].
        -- intros (-> & _). f_equal.
           destruct (proj1 (IH e1) eq_refl) as (-> & _). reflexivity.
    + cbn [Py.bind]. apply token_page_raises in Eg.
      destruct Eg as (-> & Hv & z & Hd & Hz). split.
      * intros [= <-]. split; [reflexivity|]. exists key, t, z.
        split; [now left | auto].
      * intros (-> & _). reflexivity.
Qed.

(** X17.  On a wiki that can be read, a run raises exactly when some
    token is a legacy token whose date is larger than the largest
    [time_t], and the exception is [OverflowError]: a page that cannot be
    generated is not counted as an error, it ends the run. *)
Theorem X17_run_aborts_on_overflow :
  forall (utcoffset : Z -> Z) (cd : chain_data) (config_page : string)
         (site : Site) (config : BotConfig) (tokens : pydict Token) (e : exn),
    reads_ok site ->
    load_config config_page site = Ok config ->
    load_tokens cd config = Ok tokens ->
    (run utcoffset cd config_page site = Raise e
     <-> e = OverflowError
         /\ exists key t z, In (key, t) tokens /\ is_v2 t = false
                            /\ date t = Some z /\ TIME_T_MAX < z).
Proof.
  intros utcoffset cd config_page site config tokens e Hreads Hconfig Htokens.
  rewrite load_config_reads_ok in Hconfig by assumption.
  injection Hconfig as Hconfig.
  rewrite run_reads_ok by assumption. cbn zeta.
  rewrite Hconfig, Htokens. cbn [Py.bind].
  rewrite <- (token_jobs_raise utcoffset tokens e).
  destruct (token_jobs utcoffset tokens) as [jobs|e0]; cbn [Py.bind].
  - split; intros [=].
  - split; intros [= <-]; reflexivity.
Qed.

Lemma X17_run_aborts_on_overflow_witness :
  run utc overflow_dump CONFIG_PAGE (reliable_site []) = Raise OverflowError.
Proof.
  apply (X17_run_aborts_on_overflow utc overflow_dump CONFIG_PAGE
           (reliable_site []) get_default_config
           [("blueRailroads_1", overflow_token)] OverflowError).
  - intros title. split; reflexivity.
  - reflexivity.
  - vm_compute. reflexivity.
  - split; [reflexivity|].
    exists "blueRailroads_1", overflow_token, (2 ^ 63).
    split; [now left|]. split; [reflexivity|]. split; [reflexivity|].
    vm_compute. reflexivity.
Defined.

Lemma dry_save_page_records (c : DryRun) (title content summary : string) :
  exists r,
    DryRunClient.save_page c title content summary
    = Ok (r, mkDryRun (existing_pages c)
               (saved_pages c ++ [(title, content, summary)])%list).
Proof.
  unfold DryRunClient.save_page. destruct (content_equal _ _); eauto.
Qed.

Lemma dry_token_loop_records (utcoffset : Z -> Z) (tokens : pydict Token)
    (jobs : list (string * string)) (stats : ImportStats) (c : DryRun) :
  token_jobs utcoffset tokens = Ok jobs ->
  exists stats' recorded,
    for_each
      (fun '(stats, wiki) '(key, token) =>
         '(result, wiki') <- import_token utcoffset wiki token ;;
         Ok (add_token_result result stats, wiki'))
      tokens (stats, c)
    = Ok (stats', mkDryRun (existing_pages c)
                    (saved_pages c ++ recorded)%list)
    /\ map recorded_job recorded = jobs.
Proof.
  revert jobs stats c. induction tokens as [|[key t] tokens IH];
    intros jobs stats c.
  - intros [= <-]. exists stats, []. rewrite app_nil_r. destruct c.
    split; reflexivity.
  - cbn [token_jobs for_each]. unfold import_token at 1.
    destruct (generate_token_page_content utcoffset t) as [content|e];
      [|discriminate].
    cbn [Py.bind]. destruct (token_jobs utcoffset tokens) as [rest|e];
      [|discriminate].
    intros [= <-].
    cbn [page_exists save_page DryClient]. unfold DryRunClient.page_exists.
    cbn [Py.bind].
    match goal with
    | |- context [DryRunClient.save_page c ?ti ?co ?su] =>
        destruct (dry_save_page_records c ti co su) as (r & ->);
        set (entry := (ti, co, su))
    end.
    cbn [Py.bind].
    destruct (IH rest (add_token_result r stats)
                (mkDryRun (existing_pages c) (saved_pages c ++ [entry])%list)
                eq_refl)
      as (stats' & recorded & -> & Hrec).
    exists stats', (entry :: recorded).
    cbn [existing_pages saved_pages]. rewrite <- app_assoc.
    split; [reflexivity|]. cbn [map]. now rewrite Hrec.
Qed.

Lemma dry_leaderboard_loop_records (tokens : pydict Token)
    (boards : list LeaderboardConfig) (stats : ImportStats) (c : DryRun) :
  exists stats' recorded,
    for_each
      (fun '(stats, wiki) lb_config =>
         '(result, wiki') <- generate_leaderboard wiki tokens lb_config ;;
         Ok (add_leaderboard_result result stats, wiki'))
      boards (stats, c)
    = Ok (stats', mkDryRun (existing_pages c)
                    (saved_pages c ++ recorded)%list)
    /\ map recorded_job recorded = leaderboard_jobs tokens boards.
Proof.
  revert stats c. induction boards as [|lb boards IH]; intros stats c.
  - exists stats, []. rewrite app_nil_r. destruct c. split; reflexivity.
  - cbn [for_each leaderboard_jobs map]. unfold generate_leaderboard at 1.
    cbn [save_page DryClient].
    match goal with
    | |- context [DryRunClient.save_page c ?ti ?co ?su] =>
        destruct (dry_save_page_records c ti co su) as (r & ->);
        set (entry := (ti, co, su))
    end.
    cbn [Py.bind].
    destruct (IH (add_leaderboard_result r stats)
                (mkDryRun (existing_pages c) (saved_pages c ++ [entry])%list))
      as (stats' & recorded & -> & Hrec).
    exists stats', (entry :: recorded).
    cbn [existing_pages saved_pages]. rewrite <- app_assoc.
    split; [reflexivity|]. cbn [map]. unfold leaderboard_jobs in Hrec.
    now rewrite Hrec.
Qed.

(** X18.  A dry run records, in order, every page that the run writes:
    the entries that it adds to [saved_pages] are the token pages in the
    order of the token mapping, then the leaderboards in the order of the
    configuration, each with its generated content. *)
Theorem X18_dry_run_records_every_page :
  forall (utcoffset : Z -> Z) (cd : chain_data) (config_page : string)
         (c c' : DryRun) (config : BotConfig) (tokens : pydict Token)
         (stats : ImportStats),
    load_config config_page c = Ok config ->
    load_tokens cd config = Ok tokens ->
    run utcoffset cd config_page c = Ok (stats, c') ->
    exists jobs recorded,
      token_jobs utcoffset tokens = Ok jobs
      /\ saved_pages c' = (saved_pages c ++ recorded)%list
      /\ map recorded_job recorded
         = (jobs ++ leaderboard_jobs tokens (leaderboards config))%list.
Proof.
  intros utcoffset cd config_page c c' config tokens stats
    Hconfig Htokens. unfold run. rewrite Hconfig. cbn [Py.bind].
  rewrite Htokens. cbn [Py.bind].
  destruct (token_jobs utcoffset tokens) as [jobs|e] eqn:Hjobs.
  - destruct (dry_token_loop_records utcoffset tokens jobs ImportStats_init c
                Hjobs) as (stats1 & rec1 & -> & Hrec1).
    cbn [Py.bind].
    destruct (dry_leaderboard_loop_records tokens (leaderboards config) stats1
                (mkDryRun (existing_pages c) (saved_pages c ++ rec1)%list))
      as (stats2 & rec2 & -> & Hrec2).
    intros [= <- <-]. exists jobs, (rec1 ++ rec2)%list.
    split; [reflexivity|]. cbn [existing_pages saved_pages].
    rewrite <- app_assoc. split; [reflexivity|].
    now rewrite map_app, Hrec1, Hrec2.
  - intros Hrun. exfalso.
    assert (Hraise : forall stats0 (c0 : DryRun),
      for_each
        (fun '(stats, wiki) '(key, token) =>
           '(result, wiki') <- import_token utcoffset wiki token ;;
           Ok (add_token_result result stats, wiki'))
        tokens (stats0, c0) = Raise e).
    { clear Hrun Htokens Hconfig. revert Hjobs.
      induction tokens as [|[key t] tokens IH]; [discriminate|].
      cbn [token_jobs for_each]. unfold import_token at 1.
      destruct (generate_token_page_content utcoffset t) as [content|e0];
        cbn [Py.bind]; [|intros [= <-]; reflexivity].
      destruct (token_jobs utcoffset tokens) as [rest|e1]; [discriminate|].
      intros [= <-] stats0 c0.
      cbn [page_exists save_page DryClient]. unfold DryRunClient.page_exists.
      cbn [Py.bind].
      match goal with
      | |- context [DryRunClient.save_page c0 ?ti ?co ?su] =>
          destruct (dry_save_page_records c0 ti co su) as (r & ->)
      end.
      cbn [Py.bind]. now apply IH. }
    rewrite Hraise in Hrun. discriminate.
Qed.

Lemma X18_dry_run_records_every_page_witness :
  exists jobs recorded,
    token_jobs utc default_tokens = Ok jobs
    /\ saved_pages (snd fixture_dry_run) = ([] ++ recorded)%list
    /\ map recorded_job recorded
       = (jobs ++ leaderboard_jobs default_tokens
                    (leaderboards get_default_config))%list.
Proof.
  apply (X18_dry_run_records_every_page utc fixture_dump CONFIG_PAGE
           (DryRunClient.init None) (snd fixture_dry_run)
           get_default_config default_tokens (fst fixture_dry_run)).
  - reflexivity.
  - vm_compute. reflexivity.
  - vm_compute. reflexivity.
Defined.

(** ** Order of the buckets, and the time zone *)

Lemma dict_mem_keys {V : Type} (k : string) (d : pydict V) :
  dict_mem k d = existsb (String.eqb k) (dict_keys d).
Proof.
  unfold dict_mem. induction d as [|[k' v] d IH]; [reflexivity|].
  cbn [dict_get dict_keys map fst existsb].
  destruct (String.eqb k k'); [reflexivity | exact IH].
Qed.

Lemma stats_step_keys (stats : pydict OwnerStats) (key : string) (t : Token) :
  dict_keys (stats_step stats (key, t))
  = if truthy_str (owner t) then first_seen_step (dict_keys stats) (owner t)
    else dict_keys stats.
Proof.
  unfold stats_step, first_seen_step.
  destruct (truthy_str (owner t)); cbn [negb]; [|reflexivity].
  rewrite dict_keys_alter, <- dict_mem_keys.
  destruct (dict_mem (owner t) stats) eqn:Em; cbn [negb]; [reflexivity|].
  rewrite dict_set_absent.
  - unfold dict_keys. now rewrite map_app.
  - unfold dict_mem in Em. now destruct (dict_get (owner t) stats).
Qed.

Lemma fold_stats_step_keys (tokens : pydict Token) (stats : pydict OwnerStats) :
  dict_keys (fold_left stats_step tokens stats)
  = fold_left first_seen_step (owners_of tokens) (dict_keys stats).
Proof.
  revert stats. induction tokens as [|[key t] tokens IH]; intros stats;
    [reflexivity|].
  cbn [fold_left]. rewrite IH, stats_step_keys. unfold owners_of.
  cbn [map snd filter]. destruct (truthy_str (owner t)); reflexivity.
Qed.

(** X19.  [calculate_owner_stats] lists the owners in the order of their
    first token: the keys of the statistics are the non-empty owner
    strings of the tokens, each once, in the order of first occurrence. *)
Theorem X19_buckets_in_order_of_first_token :
  forall (tokens : pydict Token),
    dict_keys (calculate_owner_stats tokens) = first_seen (owners_of tokens).
Proof.
  intros tokens. unfold calculate_owner_stats, first_seen.
  apply fold_stats_step_keys.
Qed.

Lemma X19_buckets_in_order_of_first_token_witness :
  dict_keys (calculate_owner_stats sample_tokens)
  = first_seen (owners_of sample_tokens).
Proof. exact (X19_buckets_in_order_of_first_token sample_tokens). Defined.

Lemma formatted_date_small (utcoffset : Z -> Z) (t : Token) :
  (forall z, date t = Some z -> z < 1000000000) ->
  formatted_date utcoffset t = formatted_date utc t.
Proof.
  intros Hsmall. unfold formatted_date.
  destruct (date t) as [z|]; [|reflexivity].
  specialize (Hsmall z eq_refl).
  destruct (_ && _); [reflexivity|].
  destruct ((10 <=? String.length (str_int z))%nat && isdigit (str_int z))
    eqn:E; [|reflexivity].
  apply ten_digits_or_more in E. lia.
Qed.

(** X20.  The time zone of the process matters for Unix timestamps only:
    the page of a current-schema token, and the page of a legacy token
    whose date is below 1000000000, are the same in every time zone. *)
Theorem X20_time_zone_matters_for_timestamps_only :
  forall (utcoffset utcoffset' : Z -> Z) (t : Token),
    is_v2 t = true \/ (forall z, date t = Some z -> z < 1000000000) ->
    generate_token_page_content utcoffset t
    = generate_token_page_content utcoffset' t.
Proof.
  intros utcoffset utcoffset' t Hcase. unfold generate_token_page_content.
  destruct (is_v2 t) eqn:Ev2; [reflexivity|].
  destruct Hcase as [Hv2 | Hsmall]; [discriminate|].
  rewrite (formatted_date_small utcoffset t Hsmall),
    (formatted_date_small utcoffset' t Hsmall). reflexivity.
Qed.

Lemma X20_time_zone_matters_for_timestamps_only_witness :
  generate_token_page_content utc (token_with (Some 20260113) None None None)
  = generate_token_page_content utc_plus_7
      (token_with (Some 20260113) None None None).
Proof.
  apply (X20_time_zone_matters_for_timestamps_only utc utc_plus_7
           (token_with (Some 20260113) None None None)).
  right. intros z [= <-]. reflexivity.
Defined.
